(** * PalletFlow: the HTTP API over its relational store

    A shallow embedding of the server side of PalletFlow: the schema of
    [shared/schema.ts], the repository class [DatabaseStorage] of
    [server/storage.ts], the route handlers of [server/routes.ts] and the
    migration [add_item_type_to_activity_log.sql].

    - A table is the list of its rows, in insertion order; [serial] ids come
      from one counter per table.
    - A storage call is a computation over the database that either returns
      or throws; what it wrote before throwing stays written, as the source
      opens no transaction.
    - A statement throws when the database refuses it, and the schema says
      what it refuses: a column or a parameter [integer(..)] holds a 32-bit
      signed integer, so a statement with an id, in its [where] too, or a
      number outside that range fails before it runs;
      [varchar(.., {length: 2})] takes two characters, and spaces after
      them, which it drops; [unique()] no value twice; [references(..)] the
      id of a row that exists.  A [serial] id is drawn from a sequence of
      type integer: the insert fails when the sequence has run out, and an
      insert that a constraint refuses has drawn its id already.  The
      rejection is the exception the handler's [catch] turns into a 400.
    - A request body carries the fields the handler reads, at the type the
      handler's arithmetic and the schema expect (integers for counts,
      strings for codes and names); an absent field is [None].  The bodies
      the handlers hand over unread ([updates = req.body]) are taken at
      the type the storage method declares for them.
    - A JavaScript number holding an integer is a [Z], the value of the
      parsed number; products and sums are rounded to the 53-bit significand
      of a double.  Overflow to [Infinity] is not told apart from the huge
      integers: no column takes either.
    - A character of a string is one [ascii].
    - bcrypt is a parameter of the development.

    The route GET /api/products/search, a read through SQL [LIKE], is
    modelled beside the others; the module [./db], which only opens the
    connection, is left out.  The forms of the client are modelled as far
    as what they submit. *)

From Stdlib Require Import ZArith List String Ascii Bool Lia.
From Stdlib Require Import Permutation Sorted DecimalString.
Import ListNotations.

Open Scope Z_scope.

(** ** JavaScript numbers on integers *)

Module JsNumber.

(** Round to nearest, ties to even, on a 53-bit significand.  Integers of
    magnitude at most 2^53 are exact. *)
Definition fl (x : Z) : Z :=
  let a := Z.abs x in
  if a <=? 2 ^ 53 then x
  else
    let e := Z.log2 a - 52 in
    let m := a / 2 ^ e in
    let r := a mod 2 ^ e in
    let m' :=
      if 2 * r <? 2 ^ e then m
      else if 2 ^ e <? 2 * r then m + 1
      else if Z.even m then m else m + 1 in
    Z.sgn x * (m' * 2 ^ e).

Definition mul (x y : Z) : Z := fl (x * y).
Definition add (x y : Z) : Z := fl (x + y).

(** [!!v] for a number-or-undefined. *)
Definition truthy (v : option Z) : bool :=
  match v with
  | Some n => negb (n =? 0)
  | None => false
  end.

End JsNumber.

(** ** Column types *)

(** PostgreSQL [integer]. *)
Definition int4 (x : Z) : bool :=
  (-2147483648 <=? x) && (x <=? 2147483647).

(** A sequence of type [integer], as [serial] makes it: [nextval] is
    refused once the next value is past the last one of the type. *)
Definition nextval (seq : Z) : bool := seq <=? 2147483647.

Fixpoint allSpaces (s : string) : bool :=
  match s with
  | EmptyString => true
  | String c t => Ascii.eqb c " " && allSpaces t
  end.

(** PostgreSQL [varchar(n)]: what the column stores for [s], if it takes
    it.  A longer string is refused, unless what is past [n] characters is
    spaces only, which are cut off. *)
Definition varchar (n : nat) (s : string) : option string :=
  if (String.length s <=? n)%nat then Some s
  else if allSpaces (substring n (String.length s - n) s)
       then Some (substring 0 n s)
       else None.

(** Whether the column takes [s]. *)
Definition varcharTakes (n : nat) (s : string) : bool :=
  match varchar n s with
  | Some _ => true
  | None => false
  end.

Definition isDigit (c : ascii) : bool :=
  ((48 <=? nat_of_ascii c) && (nat_of_ascii c <=? 57))%nat.

(** The regular expression [/^\d{2}$/] of [insertPicoSchema]. *)
Definition towerRegex (s : string) : bool :=
  match s with
  | String a (String b EmptyString) => isDigit a && isDigit b
  | _ => false
  end.

Inductive UserRole := administrador | armazenista.
Inductive Category := alta_rotacao | baixa_rotacao.

Definition UserRole_eqb (a b : UserRole) : bool :=
  match a, b with
  | administrador, administrador | armazenista, armazenista => true
  | _, _ => false
  end.

Definition Category_eqb (a b : Category) : bool :=
  match a, b with
  | alta_rotacao, alta_rotacao | baixa_rotacao, baixa_rotacao => true
  | _, _ => false
  end.

(** ** Rows *)

Module User.
Record t := mk {
  id : Z;
  name : string;
  nickname : string;
  username : string;
  password : string;
  role : UserRole;
  isFirstLogin : option bool;
  createdAt : Z;
  updatedAt : Z
}.
End User.

Module Product.
Record t := mk {
  id : Z;
  code : string;
  description : string;
  quantityBases : Z;
  unitsPerBase : Z;
  category : Category;
  createdAt : Z;
  updatedAt : Z
}.
End Product.

Module Pico.
Record t := mk {
  id : Z;
  productId : Z;
  bases : Z;
  looseUnits : Z;
  totalUnits : Z;
  towerLocation : string;
  createdAt : Z;
  updatedAt : Z
}.
End Pico.

Module Stock.
Record t := mk {
  id : Z;
  productId : Z;
  quantity : Z;
  createdAt : Z;
  updatedAt : Z
}.
End Stock.

(** [item_type] is the column the migration adds; it is [None] (NULL) in a
    row written through [createActivityLog], whose schema does not know it. *)
Module ActivityLog.
Record t := mk {
  id : Z;
  type : string;
  productCode : string;
  productDescription : string;
  quantity : Z;
  category : Category;
  createdAt : Z;
  item_type : option string
}.
End ActivityLog.

(** ** Insert and update payloads *)

Module InsertUser.
Record t := mk {
  name : string;
  nickname : string;
  username : string;
  password : string;
  role : UserRole;
  isFirstLogin : option (option bool)
}.
End InsertUser.

Module PartialUser.
Record t := mk {
  name : option string;
  nickname : option string;
  username : option string;
  password : option string;
  role : option UserRole;
  isFirstLogin : option (option bool)
}.
End PartialUser.

Module InsertProduct.
Record t := mk {
  code : string;
  description : string;
  quantityBases : Z;
  unitsPerBase : Z;
  category : Category
}.
End InsertProduct.

Module PartialProduct.
Record t := mk {
  code : option string;
  description : option string;
  quantityBases : option Z;
  unitsPerBase : option Z;
  category : option Category
}.
End PartialProduct.

Module InsertPico.
Record t := mk {
  productId : Z;
  bases : Z;
  looseUnits : Z;
  totalUnits : Z;
  towerLocation : string
}.
End InsertPico.

Module PartialPico.
Record t := mk {
  bases : option Z;
  looseUnits : option Z;
  totalUnits : option Z;
  towerLocation : option string
}.
End PartialPico.

Module InsertStock.
Record t := mk {
  productId : Z;
  quantity : Z
}.
End InsertStock.

Module InsertActivityLog.
Record t := mk {
  type : string;
  productCode : string;
  productDescription : string;
  quantity : Z;
  category : Category
}.
End InsertActivityLog.

(** ** The database *)

Record DB := mkDB {
  users : list User.t;
  products : list Product.t;
  picos : list Pico.t;
  paletizadoStock : list Stock.t;
  activityLog : list ActivityLog.t;
  users_id_seq : Z;
  products_id_seq : Z;
  picos_id_seq : Z;
  paletizado_stock_id_seq : Z;
  activity_log_id_seq : Z;
  (* the NOT NULL constraint on activity_log.item_type is in force *)
  item_type_not_null : bool
}.

Definition emptyDB : DB := mkDB [] [] [] [] [] 1 1 1 1 1 false.

Definition withUsers (us : list User.t) (s : Z) (db : DB) : DB :=
  mkDB us (products db) (picos db) (paletizadoStock db) (activityLog db)
       s (products_id_seq db) (picos_id_seq db)
       (paletizado_stock_id_seq db) (activity_log_id_seq db)
       (item_type_not_null db).

Definition withProducts (ps : list Product.t) (s : Z) (db : DB) : DB :=
  mkDB (users db) ps (picos db) (paletizadoStock db) (activityLog db)
       (users_id_seq db) s (picos_id_seq db)
       (paletizado_stock_id_seq db) (activity_log_id_seq db)
       (item_type_not_null db).

Definition withPicos (ps : list Pico.t) (s : Z) (db : DB) : DB :=
  mkDB (users db) (products db) ps (paletizadoStock db) (activityLog db)
       (users_id_seq db) (products_id_seq db) s
       (paletizado_stock_id_seq db) (activity_log_id_seq db)
       (item_type_not_null db).

Definition withStock (ss : list Stock.t) (s : Z) (db : DB) : DB :=
  mkDB (users db) (products db) (picos db) ss (activityLog db)
       (users_id_seq db) (products_id_seq db) (picos_id_seq db)
       s (activity_log_id_seq db)
       (item_type_not_null db).

Definition withActivityLog (ls : list ActivityLog.t) (s : Z) (db : DB) : DB :=
  mkDB (users db) (products db) (picos db) (paletizadoStock db) ls
       (users_id_seq db) (products_id_seq db) (picos_id_seq db)
       (paletizado_stock_id_seq db) s
       (item_type_not_null db).

(** The three statements of [add_item_type_to_activity_log.sql]: add the
    column, fill it in the rows that exist, forbid NULL from then on.  On a
    database that has the column already the first statement fails. *)
Definition add_item_type_to_activity_log (db : DB) : DB :=
  if item_type_not_null db then db
  else
    mkDB (users db) (products db) (picos db) (paletizadoStock db)
         (map (fun a =>
                 match ActivityLog.item_type a with
                 | Some _ => a
                 | None =>
                     ActivityLog.mk (ActivityLog.id a) (ActivityLog.type a)
                       (ActivityLog.productCode a)
                       (ActivityLog.productDescription a)
                       (ActivityLog.quantity a) (ActivityLog.category a)
                       (ActivityLog.createdAt a) (Some "paletizado"%string)
                 end) (activityLog db))
         (users_id_seq db) (products_id_seq db) (picos_id_seq db)
         (paletizado_stock_id_seq db) (activity_log_id_seq db)
         true.

(** ** Storage computations *)

Inductive outcome (A : Type) : Type :=
| Returned (a : A)
| Thrown.
Arguments Returned {A} a.
Arguments Thrown {A}.

Definition Storage (A : Type) : Type := DB -> outcome A * DB.

Definition ret {A} (a : A) : Storage A := fun db => (Returned a, db).

Definition throw {A} : Storage A := fun db => (Thrown, db).

Definition bind {A B} (m : Storage A) (k : A -> Storage B) : Storage B :=
  fun db =>
    match m db with
    | (Returned a, db') => k a db'
    | (Thrown, db') => (Thrown, db')
    end.

(** A query that only reads. *)
Definition query {A} (q : DB -> A) : Storage A := fun db => (Returned (q db), db).

(** [.where(eq(column, id))] on a column of type [integer]: the id is a
    parameter of that type, and the statement fails when it is outside the
    range of the type. *)
Definition whereId {A} (id : Z) (m : Storage A) : Storage A :=
  fun db => if int4 id then m db else (Thrown, db).

Notation "x <- m ;; k" := (bind m (fun x => k))
  (at level 61, m at next level, right associativity).
Notation "m ;;; k" := (bind m (fun _ => k))
  (at level 61, right associativity).

(** ** DatabaseStorage *)

(** [orderBy]: insertion sort under a total preorder given as a boolean
    test. *)
Fixpoint insertBy {A} (le : A -> A -> bool) (x : A) (l : list A) : list A :=
  match l with
  | [] => [x]
  | y :: t => if le x y then x :: l else y :: insertBy le x t
  end.

Definition orderBy {A} (le : A -> A -> bool) (l : list A) : list A :=
  fold_right (insertBy le) [] l.

(** [from(rows).leftJoin(products, eq(key, products.id))]: every row with
    each product it matches, or with no product when it matches none. *)
Definition leftJoin {A} (rows : list A) (key : A -> Z) (ps : list Product.t)
  : list (A * option Product.t) :=
  flat_map
    (fun r =>
       match filter (fun p => Product.id p =? key r) ps with
       | [] => [(r, None)]
       | m => map (fun p => (r, Some p)) m
       end) rows.

(** The destructuring [const [row] = ...] followed by
    [if (!row || !row.products) return undefined]. *)
Definition firstJoined {A} (l : list (A * option Product.t))
  : option (A * Product.t) :=
  match l with
  | (r, Some p) :: _ => Some (r, p)
  | _ => None
  end.

(** *** Users *)

(** The row a select by id gives, for an id the statement takes. *)
Definition selectUser (id : Z) (db : DB) : option User.t :=
  hd_error (filter (fun u => User.id u =? id) (users db)).

Definition getUser (id : Z) : Storage (option User.t) :=
  whereId id (query (selectUser id)).

Definition getUserByUsername (username : string) (db : DB) : option User.t :=
  hd_error (filter (fun u => String.eqb (User.username u) username) (users db)).

(** The id is drawn before the unique index on [username] is checked. *)
Definition createUser (now : Z) (u : InsertUser.t) : Storage User.t :=
  fun db =>
    if negb (nextval (users_id_seq db)) then (Thrown, db)
    else if existsb (fun x => String.eqb (User.username x)
                                (InsertUser.username u)) (users db)
    then (Thrown, withUsers (users db) (users_id_seq db + 1) db)
    else
      let row :=
        User.mk (users_id_seq db) (InsertUser.name u) (InsertUser.nickname u)
          (InsertUser.username u) (InsertUser.password u) (InsertUser.role u)
          (match InsertUser.isFirstLogin u with
           | Some v => v
           | None => Some true
           end) now now in
      (Returned row, withUsers (users db ++ [row]) (users_id_seq db + 1) db).

Definition orElse {A} (o : option A) (d : A) : A :=
  match o with
  | Some a => a
  | None => d
  end.

Definition setUser (now : Z) (up : PartialUser.t) (u : User.t) : User.t :=
  User.mk (User.id u)
    (orElse (PartialUser.name up) (User.name u))
    (orElse (PartialUser.nickname up) (User.nickname u))
    (orElse (PartialUser.username up) (User.username u))
    (orElse (PartialUser.password up) (User.password u))
    (orElse (PartialUser.role up) (User.role u))
    (orElse (PartialUser.isFirstLogin up) (User.isFirstLogin u))
    (User.createdAt u) now.

Definition updateUser (now : Z) (id : Z) (up : PartialUser.t)
  : Storage (option User.t) :=
  whereId id (fun db =>
    let hit := existsb (fun u => User.id u =? id) (users db) in
    let taken :=
      match PartialUser.username up with
      | Some n =>
          existsb (fun u => negb (User.id u =? id)
                            && String.eqb (User.username u) n) (users db)
      | None => false
      end in
    if hit && taken then (Thrown, db)
    else
      let us := map (fun u => if User.id u =? id then setUser now up u else u)
                    (users db) in
      (Returned (hd_error (filter (fun u => User.id u =? id) us)),
       withUsers us (users_id_seq db) db)).

Definition deleteUser (id : Z) : Storage unit :=
  whereId id (fun db =>
    (Returned tt,
     withUsers (filter (fun u => negb (User.id u =? id)) (users db))
               (users_id_seq db) db)).

Definition getAllUsers (db : DB) : list User.t :=
  orderBy (fun a b => String.leb (User.name a) (User.name b)) (users db).

Definition updateUserPassword (now : Z) (id : Z) (hashedPassword : string)
  : Storage unit :=
  whereId id (fun db =>
    (Returned tt,
     withUsers
       (map (fun u =>
               if User.id u =? id
               then User.mk (User.id u) (User.name u) (User.nickname u)
                      (User.username u) hashedPassword (User.role u)
                      (Some false) (User.createdAt u) now
               else u) (users db))
       (users_id_seq db) db)).

(** *** Products *)

Definition selectProduct (id : Z) (db : DB) : option Product.t :=
  hd_error (filter (fun p => Product.id p =? id) (products db)).

Definition getProduct (id : Z) : Storage (option Product.t) :=
  whereId id (query (selectProduct id)).

Definition getProductByCode (code : string) (db : DB) : option Product.t :=
  hd_error (filter (fun p => String.eqb (Product.code p) code) (products db)).

(** A number outside the range fails the statement before it runs; the id
    is drawn before the unique index on [code] is checked. *)
Definition createProduct (now : Z) (p : InsertProduct.t) : Storage Product.t :=
  fun db =>
    if negb (int4 (InsertProduct.quantityBases p)
             && int4 (InsertProduct.unitsPerBase p)
             && nextval (products_id_seq db))
    then (Thrown, db)
    else if existsb (fun x => String.eqb (Product.code x)
                                (InsertProduct.code p)) (products db)
    then (Thrown, withProducts (products db) (products_id_seq db + 1) db)
    else
      let row :=
        Product.mk (products_id_seq db) (InsertProduct.code p)
          (InsertProduct.description p) (InsertProduct.quantityBases p)
          (InsertProduct.unitsPerBase p) (InsertProduct.category p) now now in
      (Returned row,
       withProducts (products db ++ [row]) (products_id_seq db + 1) db).

Definition setProduct (now : Z) (up : PartialProduct.t) (p : Product.t)
  : Product.t :=
  Product.mk (Product.id p)
    (orElse (PartialProduct.code up) (Product.code p))
    (orElse (PartialProduct.description up) (Product.description p))
    (orElse (PartialProduct.quantityBases up) (Product.quantityBases p))
    (orElse (PartialProduct.unitsPerBase up) (Product.unitsPerBase p))
    (orElse (PartialProduct.category up) (Product.category p))
    (Product.createdAt p) now.

Definition int4Opt (o : option Z) : bool :=
  match o with
  | Some x => int4 x
  | None => true
  end.

Definition updateProduct (now : Z) (id : Z) (up : PartialProduct.t)
  : Storage (option Product.t) :=
  whereId id (fun db =>
    let hit := existsb (fun p => Product.id p =? id) (products db) in
    let taken :=
      match PartialProduct.code up with
      | Some c =>
          existsb (fun p => negb (Product.id p =? id)
                            && String.eqb (Product.code p) c) (products db)
      | None => false
      end in
    if negb (int4Opt (PartialProduct.quantityBases up)
             && int4Opt (PartialProduct.unitsPerBase up))
       || (hit && taken)
    then (Thrown, db)
    else
      let ps := map (fun p => if Product.id p =? id
                              then setProduct now up p else p)
                    (products db) in
      (Returned (hd_error (filter (fun p => Product.id p =? id) ps)),
       withProducts ps (products_id_seq db) db)).

(** [picos.product_id] and [paletizado_stock.product_id] reference
    [products.id]: a product some row refers to cannot be deleted. *)
Definition deleteProduct (id : Z) : Storage unit :=
  whereId id (fun db =>
    if existsb (fun p => Product.id p =? id) (products db)
       && (existsb (fun x => Pico.productId x =? id) (picos db)
           || existsb (fun x => Stock.productId x =? id) (paletizadoStock db))
    then (Thrown, db)
    else
      (Returned tt,
       withProducts (filter (fun p => negb (Product.id p =? id)) (products db))
                    (products_id_seq db) db)).

Definition getAllProducts (db : DB) : list Product.t :=
  orderBy (fun a b => String.leb (Product.code a) (Product.code b))
          (products db).

(** *** Picos *)

Definition selectPico (id : Z) (db : DB) : option (Pico.t * Product.t) :=
  firstJoined
    (filter (fun r => Pico.id (fst r) =? id)
            (leftJoin (picos db) Pico.productId (products db))).

Definition getPico (id : Z) : Storage (option (Pico.t * Product.t)) :=
  whereId id (query (selectPico id)).

(** A number outside the range fails the statement before it runs.  The
    id is drawn before the row is built and checked: [tower_location]
    against its length, [product_id] against the products. *)
Definition createPico (now : Z) (p : InsertPico.t) : Storage Pico.t :=
  fun db =>
    if int4 (InsertPico.productId p) && int4 (InsertPico.bases p)
       && int4 (InsertPico.looseUnits p) && int4 (InsertPico.totalUnits p)
       && nextval (picos_id_seq db)
    then
      match varchar 2 (InsertPico.towerLocation p) with
      | Some tower =>
          if existsb (fun x => Product.id x =? InsertPico.productId p)
               (products db)
          then
            let row :=
              Pico.mk (picos_id_seq db) (InsertPico.productId p)
                (InsertPico.bases p) (InsertPico.looseUnits p)
                (InsertPico.totalUnits p) tower now now in
            (Returned row,
             withPicos (picos db ++ [row]) (picos_id_seq db + 1) db)
          else (Thrown, withPicos (picos db) (picos_id_seq db + 1) db)
      | None => (Thrown, withPicos (picos db) (picos_id_seq db + 1) db)
      end
    else (Thrown, db).

Definition setPico (now : Z) (up : PartialPico.t) (p : Pico.t) : Pico.t :=
  Pico.mk (Pico.id p) (Pico.productId p)
    (orElse (PartialPico.bases up) (Pico.bases p))
    (orElse (PartialPico.looseUnits up) (Pico.looseUnits p))
    (orElse (PartialPico.totalUnits up) (Pico.totalUnits p))
    (orElse (PartialPico.towerLocation up) (Pico.towerLocation p))
    (Pico.createdAt p) now.

(** What the columns store for the values of an update, if they take
    them. *)
Definition storedPico (up : PartialPico.t) : option PartialPico.t :=
  if int4Opt (PartialPico.bases up) && int4Opt (PartialPico.looseUnits up)
     && int4Opt (PartialPico.totalUnits up)
  then
    match PartialPico.towerLocation up with
    | Some s =>
        match varchar 2 s with
        | Some tower =>
            Some (PartialPico.mk (PartialPico.bases up)
                    (PartialPico.looseUnits up) (PartialPico.totalUnits up)
                    (Some tower))
        | None => None
        end
    | None => Some up
    end
  else None.

Definition updatePico (now : Z) (id : Z) (up : PartialPico.t)
  : Storage (option Pico.t) :=
  whereId id (fun db =>
    match storedPico up with
    | Some up' =>
        let ps := map (fun p => if Pico.id p =? id
                                then setPico now up' p else p)
                      (picos db) in
        (Returned (hd_error (filter (fun p => Pico.id p =? id) ps)),
         withPicos ps (picos_id_seq db) db)
    | None => (Thrown, db)
    end).

Definition deletePico (id : Z) : Storage unit :=
  whereId id (fun db =>
    (Returned tt,
     withPicos (filter (fun p => negb (Pico.id p =? id)) (picos db))
               (picos_id_seq db) db)).

Definition hasProduct {A} (r : A * option Product.t) : bool :=
  match snd r with
  | Some _ => true
  | None => false
  end.

Definition joined {A} (l : list (A * option Product.t))
  : list (A * Product.t) :=
  flat_map (fun r => match r with
                     | (a, Some p) => [(a, p)]
                     | (_, None) => []
                     end) (filter hasProduct l).

Definition getAllPicos (db : DB) : list (Pico.t * Product.t) :=
  joined
    (orderBy (fun a b => Pico.createdAt (fst b) <=? Pico.createdAt (fst a))
             (leftJoin (picos db) Pico.productId (products db))).

(** *** Paletizado stock *)

Definition selectPaletizadoStock (id : Z) (db : DB)
  : option (Stock.t * Product.t) :=
  firstJoined
    (filter (fun r => Stock.id (fst r) =? id)
            (leftJoin (paletizadoStock db) Stock.productId (products db))).

Definition getPaletizadoStock (id : Z)
  : Storage (option (Stock.t * Product.t)) :=
  whereId id (query (selectPaletizadoStock id)).

Definition selectPaletizadoStockByProductId (productId : Z) (db : DB)
  : option (Stock.t * Product.t) :=
  firstJoined
    (filter (fun r => Stock.productId (fst r) =? productId)
            (leftJoin (paletizadoStock db) Stock.productId (products db))).

Definition getPaletizadoStockByProductId (productId : Z)
  : Storage (option (Stock.t * Product.t)) :=
  whereId productId (query (selectPaletizadoStockByProductId productId)).

Definition createPaletizadoStock (now : Z) (s : InsertStock.t)
  : Storage Stock.t :=
  fun db =>
    if int4 (InsertStock.productId s) && int4 (InsertStock.quantity s)
       && nextval (paletizado_stock_id_seq db)
    then
      if existsb (fun x => Product.id x =? InsertStock.productId s)
           (products db)
      then
        let row :=
          Stock.mk (paletizado_stock_id_seq db) (InsertStock.productId s)
            (InsertStock.quantity s) now now in
        (Returned row,
         withStock (paletizadoStock db ++ [row])
                   (paletizado_stock_id_seq db + 1) db)
      else
        (Thrown,
         withStock (paletizadoStock db) (paletizado_stock_id_seq db + 1) db)
    else (Thrown, db).

(** The handlers only ever pass [{ quantity }]. *)
Definition updatePaletizadoStock (now : Z) (id : Z) (quantity : Z)
  : Storage (option Stock.t) :=
  whereId id (fun db =>
    if int4 quantity
    then
      let ss := map (fun s => if Stock.id s =? id
                              then Stock.mk (Stock.id s) (Stock.productId s)
                                     quantity (Stock.createdAt s) now
                              else s) (paletizadoStock db) in
      (Returned (hd_error (filter (fun s => Stock.id s =? id) ss)),
       withStock ss (paletizado_stock_id_seq db) db)
    else (Thrown, db)).

Definition deletePaletizadoStock (id : Z) : Storage unit :=
  whereId id (fun db =>
    (Returned tt,
     withStock (filter (fun s => negb (Stock.id s =? id)) (paletizadoStock db))
               (paletizado_stock_id_seq db) db)).

Definition getAllPaletizadoStock (db : DB) : list (Stock.t * Product.t) :=
  joined
    (orderBy (fun a b => Stock.createdAt (fst b) <=? Stock.createdAt (fst a))
             (leftJoin (paletizadoStock db) Stock.productId (products db))).

(** *** Activity log *)

(** The insert names the columns of the schema only, so [item_type] takes
    its default, NULL; the row is refused once the column is NOT NULL, its
    id drawn already. *)
Definition createActivityLog (now : Z) (a : InsertActivityLog.t)
  : Storage ActivityLog.t :=
  fun db =>
    if int4 (InsertActivityLog.quantity a)
       && nextval (activity_log_id_seq db)
    then
      if item_type_not_null db
      then
        (Thrown,
         withActivityLog (activityLog db) (activity_log_id_seq db + 1) db)
      else
        let row :=
          ActivityLog.mk (activity_log_id_seq db) (InsertActivityLog.type a)
            (InsertActivityLog.productCode a)
            (InsertActivityLog.productDescription a)
            (InsertActivityLog.quantity a) (InsertActivityLog.category a)
            now None in
        (Returned row,
         withActivityLog (activityLog db ++ [row])
                         (activity_log_id_seq db + 1) db)
    else (Thrown, db).

Definition newestFirst (l : list ActivityLog.t) : list ActivityLog.t :=
  orderBy (fun a b => ActivityLog.createdAt b <=? ActivityLog.createdAt a) l.

Definition getRecentActivity (limit : nat) (db : DB) : list ActivityLog.t :=
  firstn limit (newestFirst (activityLog db)).

(** *** Dashboard *)

Record DashboardStats := mkStats {
  totalPicos : Z;
  totalPaletizados : Z;
  altaRotacao : Z;
  baixaRotacao : Z;
  recentEntries : list ActivityLog.t;
  recentExits : list ActivityLog.t
}.

(** [select count( * ) from t where ...]. *)
Definition count {A} (f : A -> bool) (l : list A) : Z :=
  Z.of_nat (List.length (filter f l)).

Definition getDashboardStats (db : DB) : DashboardStats :=
  mkStats
    (count (fun _ => true) (picos db))
    (count (fun _ => true) (paletizadoStock db))
    (count (fun p => Category_eqb (Product.category p) alta_rotacao)
           (products db))
    (count (fun p => Category_eqb (Product.category p) baixa_rotacao)
           (products db))
    (firstn 5 (newestFirst
                 (filter (fun a => String.eqb (ActivityLog.type a) "entry")
                         (activityLog db))))
    (firstn 5 (newestFirst
                 (filter (fun a => String.eqb (ActivityLog.type a) "exit")
                         (activityLog db)))).

(** ** JavaScript values and their JSON form *)

#[warnings="-register-all"]
Inductive jsval : Type :=
| JUndefined
| JNull
| JBool (b : bool)
| JNum (n : Z)
| JStr (s : string)
| JDate (t : Z)
| JArr (l : list jsval)
| JObj (m : list (string * jsval)).

(** [{ ...o, k: v }]: the property keeps its place when [o] has it already,
    and is added last otherwise. *)
Fixpoint assign (k : string) (v : jsval) (m : list (string * jsval))
  : list (string * jsval) :=
  match m with
  | [] => [(k, v)]
  | (k', x) :: t =>
      if String.eqb k' k then (k', v) :: t else (k', x) :: assign k v t
  end.

(** Spreading [undefined] contributes no property. *)
Definition spread (o : jsval) : list (string * jsval) :=
  match o with
  | JObj m => m
  | _ => []
  end.

(** What [JSON.stringify] writes, as a tree: a member whose value is
    [undefined] is left out, an [undefined] array element becomes [null]. *)
Fixpoint stringify (v : jsval) : jsval :=
  match v with
  | JArr l =>
      JArr (map (fun x => match stringify x with
                          | JUndefined => JNull
                          | y => y
                          end) l)
  | JObj m =>
      JObj ((fix members (m : list (string * jsval)) :=
               match m with
               | [] => []
               | (k, x) :: t =>
                   match stringify x with
                   | JUndefined => members t
                   | y => (k, y) :: members t
                   end
               end) m)
  | _ => v
  end.

(** Some object of the document, at any depth, has a member named [k]. *)
Fixpoint hasField (k : string) (v : jsval) : bool :=
  match v with
  | JArr l => existsb (hasField k) l
  | JObj m =>
      (fix any (m : list (string * jsval)) :=
         match m with
         | [] => false
         | (k', x) :: t => String.eqb k' k || hasField k x || any t
         end) m
  | _ => false
  end.

Definition roleName (r : UserRole) : string :=
  match r with
  | administrador => "administrador"
  | armazenista => "armazenista"
  end.

Definition categoryName (c : Category) : string :=
  match c with
  | alta_rotacao => "alta_rotacao"
  | baixa_rotacao => "baixa_rotacao"
  end.

Definition userToJs (u : User.t) : jsval :=
  JObj [("id", JNum (User.id u)); ("name", JStr (User.name u));
        ("nickname", JStr (User.nickname u));
        ("username", JStr (User.username u));
        ("password", JStr (User.password u));
        ("role", JStr (roleName (User.role u)));
        ("isFirstLogin", match User.isFirstLogin u with
                         | Some b => JBool b
                         | None => JNull
                         end);
        ("createdAt", JDate (User.createdAt u));
        ("updatedAt", JDate (User.updatedAt u))]%string.

Definition productToJs (p : Product.t) : jsval :=
  JObj [("id", JNum (Product.id p)); ("code", JStr (Product.code p));
        ("description", JStr (Product.description p));
        ("quantityBases", JNum (Product.quantityBases p));
        ("unitsPerBase", JNum (Product.unitsPerBase p));
        ("category", JStr (categoryName (Product.category p)));
        ("createdAt", JDate (Product.createdAt p));
        ("updatedAt", JDate (Product.updatedAt p))]%string.

Definition picoToJs (p : Pico.t) : jsval :=
  JObj [("id", JNum (Pico.id p)); ("productId", JNum (Pico.productId p));
        ("bases", JNum (Pico.bases p));
        ("looseUnits", JNum (Pico.looseUnits p));
        ("totalUnits", JNum (Pico.totalUnits p));
        ("towerLocation", JStr (Pico.towerLocation p));
        ("createdAt", JDate (Pico.createdAt p));
        ("updatedAt", JDate (Pico.updatedAt p))]%string.

Definition stockToJs (s : Stock.t) : jsval :=
  JObj [("id", JNum (Stock.id s)); ("productId", JNum (Stock.productId s));
        ("quantity", JNum (Stock.quantity s));
        ("createdAt", JDate (Stock.createdAt s));
        ("updatedAt", JDate (Stock.updatedAt s))]%string.

Definition activityToJs (a : ActivityLog.t) : jsval :=
  JObj [("id", JNum (ActivityLog.id a)); ("type", JStr (ActivityLog.type a));
        ("productCode", JStr (ActivityLog.productCode a));
        ("productDescription", JStr (ActivityLog.productDescription a));
        ("quantity", JNum (ActivityLog.quantity a));
        ("category", JStr (categoryName (ActivityLog.category a)));
        ("createdAt", JDate (ActivityLog.createdAt a))]%string.

(** [{ ...row, product }] of the joined queries. *)
Definition withProductToJs {A} (toJs : A -> jsval) (r : A * Product.t) : jsval :=
  JObj (assign "product" (productToJs (snd r)) (spread (toJs (fst r)))).

(** [count( * )] is a [bigint], which the driver hands over as the string
    of its decimal digits; [count || 0] keeps the string, which is never
    empty. *)
Definition countToJs (n : Z) : jsval :=
  JStr (NilZero.string_of_int (Z.to_int n)).

Definition statsToJs (s : DashboardStats) : jsval :=
  JObj [("totalPicos", countToJs (totalPicos s));
        ("totalPaletizados", countToJs (totalPaletizados s));
        ("altaRotacao", countToJs (altaRotacao s));
        ("baixaRotacao", countToJs (baixaRotacao s));
        ("recentEntries", JArr (map activityToJs (recentEntries s)));
        ("recentExits", JArr (map activityToJs (recentExits s)))]%string.

(** [{ ...user, password: undefined }]; [user] may be [undefined] itself
    when an update matched no row. *)
Definition withoutPassword (u : option User.t) : jsval :=
  JObj (assign "password" JUndefined
          (spread (match u with
                   | Some x => userToJs x
                   | None => JUndefined
                   end))).

(** ** Sessions, requests and responses *)

Record Session := mkSession {
  userId : option Z;
  user : option User.t
}.

Definition noSession : Session := mkSession None None.

Record Response := mkResponse {
  status : Z;
  body : jsval
}.

(** [res.json(v)] and [res.status(c).json({ message })]. *)
Definition json (v : jsval) : Response := mkResponse 200 v.

Definition message (c : Z) (m : string) : Response :=
  mkResponse c (JObj [("message"%string, JStr m)]).

(** What a handler reads from outside the request: the clock behind
    [defaultNow()] and [new Date()], and the salt [bcrypt.hash] draws. *)
Record Env := mkEnv {
  now : Z;
  salt : string
}.

Module LoginData.
Record t := mk {
  username : string;
  password : string
}.
End LoginData.

Module PasswordChangeData.
Record t := mk {
  newPassword : string;
  confirmPassword : string
}.
End PasswordChangeData.

Module PicoBody.
Record t := mk {
  productCode : string;
  bases : Z;
  looseUnits : Z;
  towerLocation : option string
}.
End PicoBody.

Module PicoUpdateBody.
Record t := mk {
  bases : Z;
  looseUnits : Z;
  towerLocation : option string
}.
End PicoUpdateBody.

Module StockBody.
Record t := mk {
  productCode : string;
  quantity : Z
}.
End StockBody.

(** [loginSchema]: both strings have at least one character. *)
Definition loginSchema (b : LoginData.t) : bool :=
  (1 <=? String.length (LoginData.username b))%nat
  && (1 <=? String.length (LoginData.password b))%nat.

(** [passwordChangeSchema]: six characters at least, and the two agree. *)
Definition passwordChangeSchema (b : PasswordChangeData.t) : bool :=
  (6 <=? String.length (PasswordChangeData.newPassword b))%nat
  && (6 <=? String.length (PasswordChangeData.confirmPassword b))%nat
  && String.eqb (PasswordChangeData.newPassword b)
       (PasswordChangeData.confirmPassword b).

(** [insertPicoSchema.parse]: the numbers are integers by their type here;
    [towerLocation] has to be a string that matches the pattern. *)
Definition insertPicoSchema (productId bases looseUnits totalUnits : Z)
    (towerLocation : option string) : option InsertPico.t :=
  match towerLocation with
  | Some s =>
      if towerRegex s
      then Some (InsertPico.mk productId bases looseUnits totalUnits s)
      else None
  | None => None
  end.

(** A string is truthy unless it is empty. *)
Definition truthyString (o : option string) : bool :=
  match o with
  | Some s => negb (String.eqb s EmptyString)
  | None => false
  end.

(** [try { ... } catch (error) { res.status(c).json(...) }]. *)
Definition tryCatch (m : Storage Response) (onError : Response)
  : DB -> Response * DB :=
  fun db =>
    match m db with
    | (Returned r, db') => (r, db')
    | (Thrown, db') => (onError, db')
    end.

(** What the client gets from a handler that throws outside any [try]:
    nothing.  Only GET /api/auth/user is written so, and it throws only
    for a session whose [userId] is outside the range of an id, which no
    login stores. *)
Definition unanswered : Response := mkResponse 0 JUndefined.

Definition uncaught (m : Storage Response) : DB -> Response * DB :=
  tryCatch m unanswered.

Definition requireAuth (s : Session) (next : DB -> Response * DB)
  : DB -> Response * DB :=
  fun db =>
    if JsNumber.truthy (userId s) then next db
    else (message 401 "Unauthorized", db).

Definition isAdmin (s : Session) : bool :=
  match user s with
  | Some u => UserRole_eqb (User.role u) administrador
  | None => false
  end.

Definition requireAdmin (s : Session) (next : DB -> Response * DB)
  : DB -> Response * DB :=
  fun db =>
    if isAdmin s then next db
    else (message 403 "Admin access required", db).

(** A stand-in for bcrypt, to run the handlers on examples. *)
Definition toy_hash (salt plain : string) : string :=
  (salt ++ "$" ++ plain)%string.

Fixpoint toy_unsalt (s : string) : string :=
  match s with
  | EmptyString => EmptyString
  | String c t => if Ascii.eqb c "$" then t else toy_unsalt t
  end.

Definition toy_compare (plain hashed : string) : bool :=
  String.eqb (toy_unsalt hashed) plain.

(** ** A small warehouse, to run the handlers on

    The database after the first startup, the product P1 of five units per
    base, and one pico of two bases and three loose units in tower 01. *)

Definition demoEnv : Env := mkEnv 1000 "salt".

Definition demoAdmin : User.t :=
  User.mk 1 "Administrador" "Admin" "admin" (toy_hash "salt" "admin")
    administrador (Some true) 1000 1000.

Definition demoSession : Session := mkSession (Some 1) (Some demoAdmin).

Definition demoProduct : Product.t :=
  Product.mk 1 "P1" "Widget" 10 5 alta_rotacao 1000 1000.

Definition demoPico : Pico.t := Pico.mk 1 1 2 3 13 "01" 1000 1000.

Definition demoEntry (id quantity : Z) : ActivityLog.t :=
  ActivityLog.mk id "entry" "P1" "Widget" quantity alta_rotacao 1000 None.

Definition demoStartDB : DB :=
  mkDB [demoAdmin] [] [] [] [] 2 1 1 1 1 false.

Definition demoProductDB : DB :=
  mkDB [demoAdmin] [demoProduct] [] [] [] 2 2 1 1 1 false.

Definition demoDB : DB :=
  mkDB [demoAdmin] [demoProduct] [demoPico] [] [demoEntry 1 13]
       2 2 2 1 2 false.

(** The same with a stock row of [quantity] pallets of P1. *)
Definition demoStockDB (quantity : Z) : DB :=
  mkDB [demoAdmin] [demoProduct] [demoPico]
       [Stock.mk 1 1 quantity 1000 1000]
       [demoEntry 1 13; demoEntry 2 quantity]
       2 2 2 2 3 false.

(** ** The routes

    A handler takes the session of the request and the database and gives
    the response and the database it leaves; the three handlers that write
    the session give the new session too.  A path parameter [:id] is the
    integer [parseInt] reads from it; a path it reads no integer from is
    left out.  Every clock reading of one request is [now env]. *)

Section Routes.

(** bcrypt: [bcrypt_hash salt plain] and [bcrypt_compare plain hashed]. *)
Variable bcrypt_hash : string -> string -> string.
Variable bcrypt_compare : string -> string -> bool.

Local Open Scope string_scope.

Definition initializeDefaultUser (env : Env) (db : DB) : DB :=
  match getUserByUsername "admin" db with
  | Some _ => db
  | None =>
      let hashedPassword := bcrypt_hash (salt env) "admin" in
      snd (createUser (now env)
             (InsertUser.mk "Administrador" "Admin" "admin" hashedPassword
                administrador (Some (Some true))) db)
  end.

(** *** Auth *)

Definition post_api_auth_login (b : LoginData.t) (s : Session) (db : DB)
  : Response * Session * DB :=
  if loginSchema b then
    match getUserByUsername (LoginData.username b) db with
    | None => (message 401 "Credenciais inválidas", s, db)
    | Some u =>
        if bcrypt_compare (LoginData.password b) (User.password u)
        then
          (json (JObj [("user"%string, withoutPassword (Some u));
                       ("isFirstLogin"%string,
                        match User.isFirstLogin u with
                        | Some f => JBool f
                        | None => JNull
                        end)]),
           mkSession (Some (User.id u)) (Some u), db)
        else (message 401 "Credenciais inválidas", s, db)
    end
  else (message 400 "Invalid request data", s, db).

Definition post_api_auth_change_password (env : Env)
    (b : PasswordChangeData.t) (s : Session) (db : DB)
  : Response * Session * DB :=
  if JsNumber.truthy (userId s) then
    if passwordChangeSchema b then
      let id := orElse (userId s) 0 in
      let hashedPassword :=
        bcrypt_hash (salt env) (PasswordChangeData.newPassword b) in
      match (updateUserPassword (now env) id hashedPassword ;;;
             getUser id) db with
      | (Returned updatedUser, db') =>
          (json (JObj [("message"%string, JStr "Senha alterada com sucesso")]),
           mkSession (userId s) updatedUser, db')
      | (Thrown, db') => (message 400 "Invalid request data", s, db')
      end
    else (message 400 "Invalid request data", s, db)
  else (message 401 "Unauthorized", s, db).

Definition post_api_auth_logout (s : Session) (db : DB)
  : Response * Session * DB :=
  (json (JObj [("message"%string, JStr "Logged out successfully")]),
   noSession, db).

Definition get_api_auth_user (s : Session) : DB -> Response * DB :=
  requireAuth s (uncaught
    (user <- getUser (orElse (userId s) 0) ;;
     match user with
     | None => ret (message 404 "User not found")
     | Some u => ret (json (withoutPassword (Some u)))
     end)).

(** *** Users *)

Definition get_api_users (s : Session) : DB -> Response * DB :=
  requireAuth s (requireAdmin s (fun db =>
    (json (JArr (map (fun u => withoutPassword (Some u)) (getAllUsers db))),
     db))).

Definition post_api_users (env : Env) (userData : InsertUser.t) (s : Session)
  : DB -> Response * DB :=
  requireAuth s (requireAdmin s (tryCatch
    (let hashedPassword :=
       bcrypt_hash (salt env) (InsertUser.password userData) in
     u <- createUser (now env)
            (InsertUser.mk (InsertUser.name userData)
               (InsertUser.nickname userData) (InsertUser.username userData)
               hashedPassword (InsertUser.role userData)
               (InsertUser.isFirstLogin userData)) ;;
     ret (json (withoutPassword (Some u))))
    (message 400 "Invalid user data"))).

Definition put_api_users_id (env : Env) (id : Z) (updates : PartialUser.t)
    (s : Session) : DB -> Response * DB :=
  requireAuth s (requireAdmin s (tryCatch
    (let updates' :=
       if truthyString (PartialUser.password updates)
       then PartialUser.mk (PartialUser.name updates)
              (PartialUser.nickname updates) (PartialUser.username updates)
              (Some (bcrypt_hash (salt env)
                       (orElse (PartialUser.password updates) EmptyString)))
              (PartialUser.role updates) (PartialUser.isFirstLogin updates)
       else updates in
     u <- updateUser (now env) id updates' ;;
     ret (json (withoutPassword u)))
    (message 400 "Failed to update user"))).

Definition delete_api_users_id (id : Z) (s : Session)
  : DB -> Response * DB :=
  requireAuth s (requireAdmin s (tryCatch
    (deleteUser id ;;;
     ret (message 200 "User deleted successfully"))
    (message 400 "Failed to delete user"))).

(** *** Products *)

Definition get_api_products (s : Session) : DB -> Response * DB :=
  requireAuth s (fun db =>
    (json (JArr (map productToJs (getAllProducts db))), db)).

Definition post_api_products (env : Env) (productData : InsertProduct.t)
    (s : Session) : DB -> Response * DB :=
  requireAuth s (requireAdmin s (tryCatch
    (p <- createProduct (now env) productData ;;
     ret (json (productToJs p)))
    (message 400 "Invalid product data"))).

Definition put_api_products_id (env : Env) (id : Z)
    (updates : PartialProduct.t) (s : Session) : DB -> Response * DB :=
  requireAuth s (requireAdmin s (tryCatch
    (p <- updateProduct (now env) id updates ;;
     ret (json (match p with
                | Some x => productToJs x
                | None => JUndefined
                end)))
    (message 400 "Failed to update product"))).

Definition delete_api_products_id (id : Z) (s : Session)
  : DB -> Response * DB :=
  requireAuth s (requireAdmin s (tryCatch
    (deleteProduct id ;;;
     ret (message 200 "Product deleted successfully"))
    (message 400 "Failed to delete product"))).

(** *** Picos *)

Definition get_api_picos (s : Session) : DB -> Response * DB :=
  requireAuth s (fun db =>
    (json (JArr (map (withProductToJs picoToJs) (getAllPicos db))), db)).

Definition post_api_picos (env : Env) (b : PicoBody.t) (s : Session)
  : DB -> Response * DB :=
  requireAuth s (tryCatch
    (product <- query (getProductByCode (PicoBody.productCode b)) ;;
     match product with
     | None => ret (message 404 "Product not found")
     | Some product =>
         let totalUnits :=
           JsNumber.add
             (JsNumber.mul (PicoBody.bases b) (Product.unitsPerBase product))
             (PicoBody.looseUnits b) in
         match insertPicoSchema (Product.id product) (PicoBody.bases b)
                 (PicoBody.looseUnits b) totalUnits
                 (PicoBody.towerLocation b) with
         | None => throw
         | Some picoData =>
             pico <- createPico (now env) picoData ;;
             createActivityLog (now env)
               (InsertActivityLog.mk "entry" (Product.code product)
                  (Product.description product) totalUnits
                  (Product.category product)) ;;;
             ret (json (picoToJs pico))
         end
     end)
    (message 400 "Invalid pico data")).

Definition put_api_picos_id (env : Env) (id : Z) (b : PicoUpdateBody.t)
    (s : Session) : DB -> Response * DB :=
  requireAuth s (tryCatch
    (existingPico <- getPico id ;;
     match existingPico with
     | None => ret (message 404 "Pico not found")
     | Some (_, product) =>
         let totalUnits :=
           JsNumber.add
             (JsNumber.mul (PicoUpdateBody.bases b)
                (Product.unitsPerBase product))
             (PicoUpdateBody.looseUnits b) in
         let updates :=
           PartialPico.mk (Some (PicoUpdateBody.bases b))
             (Some (PicoUpdateBody.looseUnits b)) (Some totalUnits)
             (if truthyString (PicoUpdateBody.towerLocation b)
              then PicoUpdateBody.towerLocation b
              else None) in
         pico <- updatePico (now env) id updates ;;
         ret (json (match pico with
                    | Some p => picoToJs p
                    | None => JUndefined
                    end))
     end)
    (message 400 "Failed to update pico")).

Definition delete_api_picos_id (env : Env) (id : Z) (s : Session)
  : DB -> Response * DB :=
  requireAuth s (tryCatch
    (pico <- getPico id ;;
     match pico with
     | None => ret (message 404 "Pico not found")
     | Some (pico, product) =>
         deletePico id ;;;
         createActivityLog (now env)
           (InsertActivityLog.mk "exit" (Product.code product)
              (Product.description product) (Pico.totalUnits pico)
              (Product.category product)) ;;;
         ret (message 200 "Pico eliminated successfully")
     end)
    (message 400 "Failed to eliminate pico")).

(** *** Paletizado stock *)

Definition get_api_paletizado_stock (s : Session) : DB -> Response * DB :=
  requireAuth s (fun db =>
    (json (JArr (map (withProductToJs stockToJs) (getAllPaletizadoStock db))),
     db)).

Definition post_api_paletizado_stock (env : Env) (b : StockBody.t)
    (s : Session) : DB -> Response * DB :=
  requireAuth s (tryCatch
    (product <- query (getProductByCode (StockBody.productCode b)) ;;
     match product with
     | None => ret (message 404 "Product not found")
     | Some product =>
         existingStock <-
           getPaletizadoStockByProductId (Product.id product) ;;
         stock <-
           match existingStock with
           | Some (existingStock, _) =>
               updatePaletizadoStock (now env) (Stock.id existingStock)
                 (JsNumber.add (Stock.quantity existingStock)
                    (StockBody.quantity b))
           | None =>
               st <- createPaletizadoStock (now env)
                       (InsertStock.mk (Product.id product)
                          (StockBody.quantity b)) ;;
               ret (Some st)
           end ;;
         createActivityLog (now env)
           (InsertActivityLog.mk "entry" (Product.code product)
              (Product.description product) (StockBody.quantity b)
              (Product.category product)) ;;;
         ret (json (match stock with
                    | Some st => stockToJs st
                    | None => JUndefined
                    end))
     end)
    (message 400 "Invalid stock data")).

Definition put_api_paletizado_stock_id (env : Env) (id : Z) (quantity : Z)
    (s : Session) : DB -> Response * DB :=
  requireAuth s (tryCatch
    (stock <- updatePaletizadoStock (now env) id quantity ;;
     ret (json (match stock with
                | Some st => stockToJs st
                | None => JUndefined
                end)))
    (message 400 "Failed to update stock")).

Definition delete_api_paletizado_stock_id (env : Env) (id : Z) (s : Session)
  : DB -> Response * DB :=
  requireAuth s (tryCatch
    (stock <- getPaletizadoStock id ;;
     match stock with
     | None => ret (message 404 "Stock not found")
     | Some (stock, product) =>
         deletePaletizadoStock id ;;;
         createActivityLog (now env)
           (InsertActivityLog.mk "exit" (Product.code product)
              (Product.description product) (Stock.quantity stock)
              (Product.category product)) ;;;
         ret (message 200 "Stock eliminated successfully")
     end)
    (message 400 "Failed to eliminate stock")).

(** *** Dashboard *)

Definition get_api_dashboard_stats (s : Session) : DB -> Response * DB :=
  requireAuth s (fun db => (json (statsToJs (getDashboardStats db)), db)).

(** *** The server as a transition system *)

Inductive Request :=
| POST_auth_login (b : LoginData.t)
| POST_auth_change_password (b : PasswordChangeData.t)
| POST_auth_logout
| GET_auth_user
| GET_users
| POST_users (b : InsertUser.t)
| PUT_users (id : Z) (b : PartialUser.t)
| DELETE_users (id : Z)
| GET_products
| POST_products (b : InsertProduct.t)
| PUT_products (id : Z) (b : PartialProduct.t)
| DELETE_products (id : Z)
| GET_picos
| POST_picos (b : PicoBody.t)
| PUT_picos (id : Z) (b : PicoUpdateBody.t)
| DELETE_picos (id : Z)
| GET_paletizado_stock
| POST_paletizado_stock (b : StockBody.t)
| PUT_paletizado_stock (id : Z) (quantity : Z)
| DELETE_paletizado_stock (id : Z)
| GET_dashboard_stats.

Definition keepSession (s : Session) (r : Response * DB)
  : Response * Session * DB :=
  (fst r, s, snd r).

Definition handle (env : Env) (req : Request) (s : Session) (db : DB)
  : Response * Session * DB :=
  match req with
  | POST_auth_login b => post_api_auth_login b s db
  | POST_auth_change_password b => post_api_auth_change_password env b s db
  | POST_auth_logout => post_api_auth_logout s db
  | GET_auth_user => keepSession s (get_api_auth_user s db)
  | GET_users => keepSession s (get_api_users s db)
  | POST_users b => keepSession s (post_api_users env b s db)
  | PUT_users id b => keepSession s (put_api_users_id env id b s db)
  | DELETE_users id => keepSession s (delete_api_users_id id s db)
  | GET_products => keepSession s (get_api_products s db)
  | POST_products b => keepSession s (post_api_products env b s db)
  | PUT_products id b => keepSession s (put_api_products_id env id b s db)
  | DELETE_products id => keepSession s (delete_api_products_id id s db)
  | GET_picos => keepSession s (get_api_picos s db)
  | POST_picos b => keepSession s (post_api_picos env b s db)
  | PUT_picos id b => keepSession s (put_api_picos_id env id b s db)
  | DELETE_picos id => keepSession s (delete_api_picos_id env id s db)
  | GET_paletizado_stock => keepSession s (get_api_paletizado_stock s db)
  | POST_paletizado_stock b =>
      keepSession s (post_api_paletizado_stock env b s db)
  | PUT_paletizado_stock id q =>
      keepSession s (put_api_paletizado_stock_id env id q s db)
  | DELETE_paletizado_stock id =>
      keepSession s (delete_api_paletizado_stock_id env id s db)
  | GET_dashboard_stats => keepSession s (get_api_dashboard_stats s db)
  end.

(** The databases the server can be in: it starts on an empty schema, and
    from then on it is restarted, migrated, or serves one request at a
    time, from any session. *)
Inductive reachable : DB -> Prop :=
| reach_empty : reachable emptyDB
| reach_startup env db :
    reachable db -> reachable (initializeDefaultUser env db)
| reach_migration db :
    reachable db -> reachable (add_item_type_to_activity_log db)
| reach_request env req s db :
    reachable db -> reachable (snd (handle env req s db)).

(** One row per product at most, and no two rows under one id. *)
Definition stockInvariant (db : DB) : Prop :=
  NoDup (map Stock.productId (paletizadoStock db))
  /\ NoDup (map Stock.id (paletizadoStock db))
  /\ Forall (fun st => Stock.id st < paletizado_stock_id_seq db)
            (paletizadoStock db).

Local Close Scope string_scope.

(** The part of the database the stock invariant reads. *)
Definition stockOf (db : DB) : list Stock.t * Z :=
  (paletizadoStock db, paletizado_stock_id_seq db).

(** The part the pico invariant reads. *)
Definition picosOf (db : DB)
  : list Product.t * list Pico.t * Z * Z :=
  (products db, picos db, products_id_seq db, picos_id_seq db).

(** A storage call that leaves a part of the database alone, whether it
    returns or throws. *)
Definition untouched {V A} (view : DB -> V) (m : Storage A) : Prop :=
  forall db, view (snd (m db)) = view db.

(** Products and picos have their own ids, a stored total fits its column,
    and every pico refers to a product. *)
Definition picoInvariant (db : DB) : Prop :=
  NoDup (map Product.id (products db))
  /\ Forall (fun p => Product.id p < products_id_seq db) (products db)
  /\ NoDup (map Pico.id (picos db))
  /\ Forall (fun p => Pico.id p < picos_id_seq db) (picos db)
  /\ Forall (fun p => int4 (Pico.totalUnits p) = true
                      /\ existsb (fun x => Product.id x =? Pico.productId p)
                                 (products db) = true) (picos db).

(** A storage call that keeps a property of the database, whether it
    returns or throws. *)
Definition keeps (P : DB -> Prop) {A} (m : Storage A) : Prop :=
  forall db, P db -> P (snd (m db)).

(** ** Which routes sit behind which middleware *)

(** The routes registered with [requireAuth]: all but login and logout. *)
Definition guarded (req : Request) : bool :=
  match req with
  | POST_auth_login _ | POST_auth_logout => false
  | _ => true
  end.

(** The routes registered with [requireAdmin] as well. *)
Definition adminOnly (req : Request) : bool :=
  match req with
  | GET_users | POST_users _ | PUT_users _ _ | DELETE_users _
  | POST_products _ | PUT_products _ _ | DELETE_products _ => true
  | _ => false
  end.

(** The routes whose handler calls [createActivityLog]. *)
Definition logsActivity (req : Request) : bool :=
  match req with
  | POST_picos _ | DELETE_picos _
  | POST_paletizado_stock _ | DELETE_paletizado_stock _ => true
  | _ => false
  end.

(** The activity log and the constraint on it. *)
Definition logOf (db : DB) : list ActivityLog.t * bool :=
  (activityLog db, item_type_not_null db).

(** The type of the row a route logs: creations are entries, eliminations
    exits. *)
Definition loggedType (req : Request) : string :=
  match req with
  | DELETE_picos _ | DELETE_paletizado_stock _ => "exit"
  | _ => "entry"
  end.

(** What a logging route does to the log, in terms of its answer. *)
Definition logEffect (env : Env) (req : Request) (db : DB)
    (out : Response * DB) : Prop :=
  item_type_not_null (snd out) = item_type_not_null db
  /\ ((activityLog (snd out) = activityLog db /\ status (fst out) <> 200)
      \/ (status (fst out) = 200
          /\ item_type_not_null db = false
          /\ exists a : ActivityLog.t,
               activityLog (snd out) = activityLog db ++ [a]
               /\ ActivityLog.type a = loggedType req
               /\ ActivityLog.item_type a = None
               /\ ActivityLog.createdAt a = now env)).

(** ** More of what the server keeps *)

(** A property every storage write keeps. *)
Definition storageKeeps (P : DB -> Prop) : Prop :=
  (forall now u, keeps P (createUser now u))
  /\ (forall now id up, keeps P (updateUser now id up))
  /\ (forall id, keeps P (deleteUser id))
  /\ (forall now id h, keeps P (updateUserPassword now id h))
  /\ (forall now p, keeps P (createProduct now p))
  /\ (forall now id up, keeps P (updateProduct now id up))
  /\ (forall id, keeps P (deleteProduct id))
  /\ (forall now p, keeps P (createPico now p))
  /\ (forall now id up, keeps P (updatePico now id up))
  /\ (forall id, keeps P (deletePico id))
  /\ (forall now st, keeps P (createPaletizadoStock now st))
  /\ (forall now id q, keeps P (updatePaletizadoStock now id q))
  /\ (forall id, keeps P (deletePaletizadoStock id))
  /\ (forall now a, keeps P (createActivityLog now a)).

Definition usersOf (db : DB) : list User.t * Z := (users db, users_id_seq db).

(** Users have their own ids, from 1 on, and their own usernames. *)
Definition userInvariant (db : DB) : Prop :=
  NoDup (map User.id (users db))
  /\ Forall (fun u => 1 <= User.id u < users_id_seq db) (users db)
  /\ 1 <= users_id_seq db
  /\ NoDup (map User.username (users db)).

Definition stockRefsOf (db : DB) : list Product.t * list Stock.t :=
  (products db, paletizadoStock db).

(** A stored quantity fits its column, and every stock row refers to a
    product. *)
Definition stockRefInvariant (db : DB) : Prop :=
  Forall (fun st => int4 (Stock.quantity st) = true
                    /\ existsb (fun x => Product.id x =? Stock.productId st)
                               (products db) = true) (paletizadoStock db).

(** The ids of a table were drawn from its sequence: each is at least 1
    and below the next value, which is within the type or just past it. *)
Definition drawn {A} (idOf : A -> Z) (rows : list A) (seq : Z) : Prop :=
  1 <= seq <= 2147483648 /\ Forall (fun r => 1 <= idOf r < seq) rows.

Definition rangeInvariant (db : DB) : Prop :=
  drawn User.id (users db) (users_id_seq db)
  /\ drawn Product.id (products db) (products_id_seq db)
  /\ drawn Pico.id (picos db) (picos_id_seq db)
  /\ drawn Stock.id (paletizadoStock db) (paletizado_stock_id_seq db)
  /\ drawn ActivityLog.id (activityLog db) (activity_log_id_seq db).

(** The [n] newest rows of one type: [r] is part of the rows of type [ty]
    of the log, newest first, at most [n] long, and a row of that type left
    out is no newer than any row of [r], which is then [n] long. *)
Definition newestOf (n : nat) (ty : string) (log r : list ActivityLog.t)
  : Prop :=
  (List.length r <= n)%nat
  /\ (exists rest,
        Permutation (r ++ rest)
          (filter (fun a => String.eqb (ActivityLog.type a) ty) log))
  /\ Sorted (fun a b => ActivityLog.createdAt b <= ActivityLog.createdAt a) r
  /\ (forall a, In a log -> ActivityLog.type a = ty -> ~ In a r ->
                List.length r = n
                /\ forall b, In b r ->
                             ActivityLog.createdAt a <= ActivityLog.createdAt b).

(** Log rows have their own ids, and once [item_type] is NOT NULL no row
    is without one. *)
Definition logInvariant (db : DB) : Prop :=
  NoDup (map ActivityLog.id (activityLog db))
  /\ Forall (fun a => ActivityLog.id a < activity_log_id_seq db)
            (activityLog db)
  /\ (item_type_not_null db = true ->
      Forall (fun a => ActivityLog.item_type a <> None) (activityLog db)).

Definition logViewOf (db : DB) : list ActivityLog.t * Z * bool :=
  (activityLog db, activity_log_id_seq db, item_type_not_null db).

(** ** The pico form of the client *)

(** [value.replace(/\D/g, '')]. *)
Fixpoint replaceNonDigits (s : string) : string :=
  match s with
  | EmptyString => EmptyString
  | String c t =>
      if isDigit c then String c (replaceNonDigits t) else replaceNonDigits t
  end.

(** [s.slice(0, n)]. *)
Definition slice0 (n : nat) (s : string) : string := substring 0 n s.

Fixpoint repeatChar (c : ascii) (n : nat) : string :=
  match n with
  | O => EmptyString
  | S k => String c (repeatChar c k)
  end.

(** [s.padStart(n, c)] for a pad of one character. *)
Definition padStart (n : nat) (c : ascii) (s : string) : string :=
  (repeatChar c (n - String.length s) ++ s)%string.

(** What [handleTowerLocationChange] puts in the form for the text of the
    input. *)
Definition handleTowerLocationChange (value : string) : string :=
  padStart 2 "0"%char (slice0 2 (replaceNonDigits value)).

(** ** The forms of the client

    [handleSubmit] of each form, as the request it sends, or none when it
    shows a toast instead.  The form edits the row it is opened with, or
    creates one when it is opened with none. *)

Record PicoFormData := mkPicoFormData {
  picoForm_productCode : string;
  picoForm_description : string;
  picoForm_bases : Z;
  picoForm_looseUnits : Z;
  picoForm_totalUnits : Z;
  picoForm_category : string;
  picoForm_towerLocation : string
}.

Definition isNull {A} (o : option A) : bool :=
  match o with
  | Some _ => false
  | None => true
  end.

Definition PicoFormModal_handleSubmit (pico : option (Pico.t * Product.t))
    (selectedProduct : option Product.t) (formData : PicoFormData)
  : option Request :=
  if negb (truthyString (Some (picoForm_productCode formData)))
     || isNull selectedProduct
  then None
  else if (picoForm_bases formData <? 0) || (picoForm_looseUnits formData <? 0)
  then None
  else if (picoForm_bases formData =? 0) && (picoForm_looseUnits formData =? 0)
  then None
  else if truthyString (Some (picoForm_towerLocation formData))
          && negb (towerRegex (picoForm_towerLocation formData))
  then None
  else
    match pico with
    | Some (p, _) =>
        Some (PUT_picos (Pico.id p)
                (PicoUpdateBody.mk (picoForm_bases formData)
                   (picoForm_looseUnits formData)
                   (Some (picoForm_towerLocation formData))))
    | None =>
        Some (POST_picos
                (PicoBody.mk (picoForm_productCode formData)
                   (picoForm_bases formData) (picoForm_looseUnits formData)
                   (Some (picoForm_towerLocation formData))))
    end.

Definition UserFormModal_handleSubmit (user : option User.t)
    (formData : InsertUser.t) : option Request :=
  if negb (truthyString (Some (InsertUser.name formData)))
     || negb (truthyString (Some (InsertUser.username formData)))
     || negb (truthyString (Some (InsertUser.nickname formData)))
  then None
  else if isNull user && negb (truthyString (Some (InsertUser.password formData)))
  then None
  else
    match user with
    | Some u =>
        Some (PUT_users (User.id u)
                (PartialUser.mk (Some (InsertUser.name formData))
                   (Some (InsertUser.nickname formData))
                   (Some (InsertUser.username formData))
                   (if truthyString (Some (InsertUser.password formData))
                    then Some (InsertUser.password formData)
                    else None)
                   (Some (InsertUser.role formData)) None))
    | None => Some (POST_users formData)
    end.

Record PaletizadoFormData := mkPaletizadoFormData {
  paletizadoForm_productCode : string;
  paletizadoForm_description : string;
  paletizadoForm_quantity : Z;
  paletizadoForm_category : string
}.

Definition PaletizadoFormModal_handleSubmit
    (stock : option (Stock.t * Product.t)) (selectedProduct : option Product.t)
    (formData : PaletizadoFormData) : option Request :=
  if negb (truthyString (Some (paletizadoForm_productCode formData)))
     || isNull selectedProduct
  then None
  else if paletizadoForm_quantity formData <=? 0 then None
  else
    match stock with
    | Some (st, _) =>
        Some (PUT_paletizado_stock (Stock.id st)
                (paletizadoForm_quantity formData))
    | None =>
        Some (POST_paletizado_stock
                (StockBody.mk (paletizadoForm_productCode formData)
                   (paletizadoForm_quantity formData)))
    end.

Definition ProductFormModal_handleSubmit (product : option Product.t)
    (formData : InsertProduct.t) : option Request :=
  if negb (truthyString (Some (InsertProduct.code formData)))
     || negb (truthyString (Some (InsertProduct.description formData)))
  then None
  else if (InsertProduct.quantityBases formData <=? 0)
          || (InsertProduct.unitsPerBase formData <=? 0)
  then None
  else
    match product with
    | Some p =>
        Some (PUT_products (Product.id p)
                (PartialProduct.mk (Some (InsertProduct.code formData))
                   (Some (InsertProduct.description formData))
                   (Some (InsertProduct.quantityBases formData))
                   (Some (InsertProduct.unitsPerBase formData)) None))
    | None => Some (POST_products formData)
    end.

(** A warehouse worker, for the routes that need an administrator, and the
    small warehouse after the migration. *)
Definition demoWorker : User.t :=
  User.mk 2 "Maria" "Mari" "maria" (toy_hash "salt" "secret")
    armazenista (Some true) 1000 1000.

Definition demoWorkerSession : Session := mkSession (Some 2) (Some demoWorker).

Definition demoMigratedDB : DB := add_item_type_to_activity_log demoDB.

Definition demoStockRow (quantity : Z) : Stock.t :=
  Stock.mk 1 1 quantity 1000 1000.

(** The database after the first startup once [spent] ids of the users
    have been drawn, and the same after the administrator is deleted. *)
Definition demoSpentDB (next : Z) : DB :=
  mkDB [demoAdmin] [] [] [] [] next 1 1 1 1 false.

Definition demoExhaustedDB : DB :=
  mkDB [] [] [] [] [] 2147483648 1 1 1 1 false.

(** ** Product search

    [like(products.code, `%${query}%`)]: the pattern is matched as LIKE
    does, [%] standing for any characters, [_] for any one character, and a
    backslash making the character after it stand for itself.  A pattern
    that ends in a lone backslash, which LIKE refuses, cannot come from the
    search: its pattern ends in [%]. *)
Fixpoint like (p : string) : string -> bool :=
  match p with
  | EmptyString =>
      fun s => match s with
               | EmptyString => true
               | String _ _ => false
               end
  | String c p' =>
      if Ascii.eqb c "%" then
        fix skip (s : string) : bool :=
          like p' s
          || match s with
             | EmptyString => false
             | String _ s' => skip s'
             end
      else if Ascii.eqb c "_" then
        fun s => match s with
                 | EmptyString => false
                 | String _ s' => like p' s'
                 end
      else if Ascii.eqb c "\" then
        match p' with
        | EmptyString => fun _ => false
        | String d p'' =>
            fun s => match s with
                     | EmptyString => false
                     | String e s' => Ascii.eqb d e && like p'' s'
                     end
        end
      else
        fun s => match s with
                 | EmptyString => false
                 | String e s' => Ascii.eqb c e && like p' s'
                 end
  end.

(** The rows are those of the table that match, ten at most; which ten,
    when more match, the query leaves open: here the first ten. *)
Definition searchProductsByCode (query : string) (db : DB) : list Product.t :=
  firstn 10
    (filter (fun p => like ("%" ++ query ++ "%")%string (Product.code p))
            (products db)).

(** GET /api/products/search?q=... *)
Definition get_api_products_search (q : option string) (s : Session)
  : DB -> Response * DB :=
  requireAuth s (fun db =>
    if truthyString q
    then (json (JArr (map productToJs
                        (searchProductsByCode (orElse q EmptyString) db))),
          db)
    else (json (JArr []), db)).

(** A character with no special meaning in a pattern. *)
Definition plainChar (c : ascii) : bool :=
  negb (Ascii.eqb c "%" || Ascii.eqb c "_" || Ascii.eqb c "\").

Fixpoint plain (q : string) : bool :=
  match q with
  | EmptyString => true
  | String c t => plainChar c && plain t
  end.

(** ** Arithmetic of the handlers *)

Lemma int4_true (x : Z) :
  int4 x = true <-> -2147483648 <= x <= 2147483647.
Proof. unfold int4. rewrite andb_true_iff, !Z.leb_le. tauto. Qed.

Lemma int4_false (x : Z) :
  int4 x = false <-> x < -2147483648 \/ 2147483647 < x.
Proof.
  unfold int4. rewrite andb_false_iff, !Z.leb_gt. tauto.
Qed.

Lemma fl_exact (x : Z) : Z.abs x <= 2 ^ 53 -> JsNumber.fl x = x.
Proof.
  intros H. unfold JsNumber.fl.
  destruct (Z.leb_spec (Z.abs x) (2 ^ 53)); [reflexivity | lia].
Qed.

Lemma fl_large (x : Z) :
  2 ^ 53 < Z.abs x -> 2 ^ 53 <= Z.abs (JsNumber.fl x).
Proof.
  intros H. unfold JsNumber.fl.
  destruct (Z.leb_spec (Z.abs x) (2 ^ 53)) as [Hle | _]; [lia |].
  set (a := Z.abs x) in *.
  assert (Ha : 0 < a) by (assert (0 < 2 ^ 53) by reflexivity; lia).
  assert (Hlog : 53 <= Z.log2 a) by (apply Z.log2_le_pow2; lia).
  set (e := Z.log2 a - 52).
  assert (He : 1 <= e) by (unfold e; lia).
  assert (Hpe : 2 <= 2 ^ e).
  { change 2 with (2 ^ 1) at 1. apply Z.pow_le_mono_r; lia. }
  assert (Hm : 2 ^ 52 <= a / 2 ^ e).
  { apply Z.div_le_lower_bound; [lia |].
    rewrite <- Z.pow_add_r by lia.
    replace (e + 52) with (Z.log2 a) by (unfold e; lia).
    apply Z.log2_spec. exact Ha. }
  set (m := a / 2 ^ e) in *.
  set (m' := if 2 * (a mod 2 ^ e) <? 2 ^ e then m
             else if 2 ^ e <? 2 * (a mod 2 ^ e) then m + 1
             else if Z.even m then m else m + 1).
  assert (Hm' : m <= m').
  { unfold m'.
    destruct (2 * (a mod 2 ^ e) <? 2 ^ e); [lia |].
    destruct (2 ^ e <? 2 * (a mod 2 ^ e)); [lia |].
    destruct (Z.even m); lia. }
  assert (Hv : 2 ^ 53 <= m' * 2 ^ e).
  { change (2 ^ 53) with (2 ^ 52 * 2).
    assert (0 < 2 ^ 52) by reflexivity. nia. }
  rewrite Z.abs_mul.
  replace (Z.abs (Z.sgn x)) with 1
    by (destruct x; simpl in *; try reflexivity; unfold a in Ha; simpl in Ha; lia).
  lia.
Qed.

(** A double either holds the integer exactly or is far outside the range
    of an [integer] column. *)
Lemma fl_cases (x : Z) :
  JsNumber.fl x = x \/ (2 ^ 53 < Z.abs x /\ 2 ^ 53 <= Z.abs (JsNumber.fl x)).
Proof.
  destruct (Z.le_gt_cases (Z.abs x) (2 ^ 53)) as [H | H].
  - left. apply fl_exact, H.
  - right. split; [exact H | apply fl_large, H].
Qed.

Lemma int4_add (q d : Z) :
  int4 (JsNumber.add q d) = int4 (q + d)
  /\ (int4 (q + d) = true -> JsNumber.add q d = q + d).
Proof.
  unfold JsNumber.add.
  assert (P53 : 2 ^ 53 = 9007199254740992) by reflexivity.
  destruct (fl_cases (q + d)) as [E | [H1 H2]].
  - rewrite E. split; auto.
  - assert (int4 (JsNumber.fl (q + d)) = false) by (apply int4_false; lia).
    assert (int4 (q + d) = false) by (apply int4_false; lia).
    split; [congruence | intros; congruence].
Qed.

Lemma int4_total (b u l : Z) :
  int4 l = true ->
  int4 (JsNumber.add (JsNumber.mul b u) l) = int4 (b * u + l)
  /\ (int4 (b * u + l) = true ->
      JsNumber.add (JsNumber.mul b u) l = b * u + l).
Proof.
  intros Hl. apply int4_true in Hl.
  assert (P53 : 2 ^ 53 = 9007199254740992) by reflexivity.
  unfold JsNumber.mul.
  destruct (fl_cases (b * u)) as [E | [H1 H2]].
  - rewrite E. apply int4_add.
  - destruct (int4_add (JsNumber.fl (b * u)) l) as [Ha _].
    rewrite Ha.
    assert (int4 (JsNumber.fl (b * u) + l) = false)
      by (apply int4_false; lia).
    assert (int4 (b * u + l) = false) by (apply int4_false; lia).
    split; [congruence | intros; congruence].
Qed.

(** ** Queries *)

Lemma hd_error_filter_In {A} (f : A -> bool) (l : list A) (x : A) :
  hd_error (filter f l) = Some x -> In x l /\ f x = true.
Proof.
  intros H.
  assert (Hin : In x (filter f l)).
  { destruct (filter f l); simpl in H; [discriminate |].
    injection H as ->. now left. }
  apply filter_In in Hin. exact Hin.
Qed.

Lemma hd_error_filter_None {A} (f : A -> bool) (l : list A) :
  hd_error (filter f l) = None <-> forall x, In x l -> f x = false.
Proof.
  induction l as [| a l IH]; simpl.
  - split; [intros _ x [] | reflexivity].
  - destruct (f a) eqn:E; simpl.
    + split; [discriminate |].
      intros H. specialize (H a (or_introl eq_refl)). congruence.
    + rewrite IH. split.
      * intros H x [<- | Hx]; auto.
      * intros H x Hx. apply H. now right.
Qed.

Lemma existsb_In {A} (f : A -> bool) (l : list A) (x : A) :
  In x l -> f x = true -> existsb f l = true.
Proof. intros. apply existsb_exists. eauto. Qed.

Lemma getProductByCode_In (c : string) (db : DB) (p : Product.t) :
  getProductByCode c db = Some p -> In p (products db) /\ Product.code p = c.
Proof.
  intros H. apply hd_error_filter_In in H as [Hin Hc].
  split; [exact Hin | now apply String.eqb_eq].
Qed.

Lemma filter_segment_out {A} (sel : A -> bool) (a : A) (m : list Product.t) :
  sel a = false ->
  filter (fun r : A * option Product.t => sel (fst r))
         (map (fun p => (a, Some p)) m) = [].
Proof.
  intros H. induction m as [| p m IH]; simpl; [reflexivity |].
  now rewrite H.
Qed.

(** The first row of a filtered left join is the first row the filter
    keeps, with the first product of its key. *)
Lemma firstJoined_leftJoin {A} (sel : A -> bool) (key : A -> Z)
    (rows : list A) (ps : list Product.t) :
  firstJoined (filter (fun r => sel (fst r)) (leftJoin rows key ps)) =
  match hd_error (filter sel rows) with
  | None => None
  | Some r =>
      match hd_error (filter (fun p => Product.id p =? key r) ps) with
      | Some p => Some (r, p)
      | None => None
      end
  end.
Proof.
  unfold leftJoin.
  induction rows as [| a rows IH]; [reflexivity |].
  cbn [flat_map]. rewrite filter_app.
  cbn [filter hd_error].
  destruct (filter (fun p => Product.id p =? key a) ps) as [| p m] eqn:Ef;
    destruct (sel a) eqn:Ea.
  - simpl. rewrite Ea. simpl. rewrite Ef. reflexivity.
  - simpl. rewrite Ea. exact IH.
  - simpl. rewrite Ea. simpl. rewrite Ef. reflexivity.
  - rewrite (filter_segment_out sel a (p :: m) Ea). exact IH.
Qed.

Lemma selectPico_first (id : Z) (db : DB) :
  selectPico id db =
  match hd_error (filter (fun p => Pico.id p =? id) (picos db)) with
  | None => None
  | Some r =>
      match hd_error (filter (fun p => Product.id p =? Pico.productId r)
                             (products db)) with
      | Some p => Some (r, p)
      | None => None
      end
  end.
Proof.
  unfold selectPico.
  apply (firstJoined_leftJoin (fun p => Pico.id p =? id)).
Qed.

Lemma selectPaletizadoStockByProductId_first (pid : Z) (db : DB) :
  selectPaletizadoStockByProductId pid db =
  match hd_error (filter (fun s => Stock.productId s =? pid)
                         (paletizadoStock db)) with
  | None => None
  | Some r =>
      match hd_error (filter (fun p => Product.id p =? Stock.productId r)
                             (products db)) with
      | Some p => Some (r, p)
      | None => None
      end
  end.
Proof.
  unfold selectPaletizadoStockByProductId.
  apply (firstJoined_leftJoin (fun s => Stock.productId s =? pid)).
Qed.

Lemma hd_error_filter_map_id {A} (idOf : A -> Z) (set : A -> A) (i : Z)
    (l : list A) :
  (forall a, idOf (set a) = idOf a) ->
  hd_error (filter (fun a => idOf a =? i)
              (map (fun a => if idOf a =? i then set a else a) l)) =
  option_map set (hd_error (filter (fun a => idOf a =? i) l)).
Proof.
  intros Hid. induction l as [| a l IH]; simpl; [reflexivity |].
  destruct (idOf a =? i) eqn:E.
  - rewrite Hid, E. reflexivity.
  - rewrite E. exact IH.
Qed.

Lemma towerRegex_varchar (t : string) :
  towerRegex t = true -> varchar 2 t = Some t.
Proof.
  destruct t as [| a [| b [| c t]]]; simpl; try discriminate; reflexivity.
Qed.

Lemma varchar_short (n : nat) (t : string) :
  (String.length t <= n)%nat -> varchar n t = Some t.
Proof.
  intros H. unfold varchar.
  destruct (Nat.leb_spec (String.length t) n); [reflexivity | lia].
Qed.

(** ** Statements with an id *)

Lemma whereId_in {A} (id : Z) (m : Storage A) (db : DB) :
  int4 id = true -> whereId id m db = m db.
Proof. intros H. unfold whereId. now rewrite H. Qed.

Lemma whereId_out {A} (id : Z) (m : Storage A) (db : DB) :
  int4 id = false -> whereId id m db = (Thrown, db).
Proof. intros H. unfold whereId. now rewrite H. Qed.

(** Unfold the plumbing of a handler down to its storage calls. *)
Ltac handler :=
  unfold requireAuth, requireAdmin, uncaught, tryCatch, bind, query, ret,
    throw, keepSession in *;
  cbn [fst snd] in *.

Arguments JsNumber.add : simpl never.
Arguments JsNumber.mul : simpl never.
Arguments int4 : simpl never.
Arguments varchar : simpl never.
Arguments towerRegex : simpl never.

(** ** POST /api/picos, step by step *)

Lemma post_api_picos_run (env : Env) (b : PicoBody.t) (s : Session) (db : DB)
    (product : Product.t) :
  JsNumber.truthy (userId s) = true ->
  getProductByCode (PicoBody.productCode b) db = Some product ->
  post_api_picos env b s db =
  let totalUnits :=
    JsNumber.add (JsNumber.mul (PicoBody.bases b) (Product.unitsPerBase product))
                 (PicoBody.looseUnits b) in
  match PicoBody.towerLocation b with
  | None => (message 400 "Invalid pico data", db)
  | Some t =>
      if towerRegex t && int4 (Product.id product) && int4 (PicoBody.bases b)
         && int4 (PicoBody.looseUnits b) && int4 totalUnits
         && nextval (picos_id_seq db)
      then
        let row :=
          Pico.mk (picos_id_seq db) (Product.id product) (PicoBody.bases b)
            (PicoBody.looseUnits b) totalUnits t (now env) (now env) in
        let db1 := withPicos (picos db ++ [row]) (picos_id_seq db + 1) db in
        if nextval (activity_log_id_seq db)
        then
          if item_type_not_null db
          then
            (message 400 "Invalid pico data",
             withActivityLog (activityLog db) (activity_log_id_seq db + 1) db1)
          else
            (json (picoToJs row),
             withActivityLog
               (activityLog db ++
                [ActivityLog.mk (activity_log_id_seq db) "entry"
                   (Product.code product) (Product.description product)
                   totalUnits (Product.category product) (now env) None])
               (activity_log_id_seq db + 1) db1)
        else (message 400 "Invalid pico data", db1)
      else (message 400 "Invalid pico data", db)
  end.
Proof.
  intros Hauth Hprod.
  unfold post_api_picos. handler. rewrite Hauth, Hprod.
  apply getProductByCode_In in Hprod as [Hin _].
  assert (Hfk : existsb (fun x => Product.id x =? Product.id product)
                        (products db) = true)
    by (apply existsb_In with product; [exact Hin | apply Z.eqb_refl]).
  cbv zeta.
  set (total := JsNumber.add _ _).
  unfold insertPicoSchema.
  destruct (PicoBody.towerLocation b) as [t |]; [| reflexivity].
  destruct (towerRegex t) eqn:Et; [| reflexivity].
  unfold createPico, createActivityLog.
  cbn [InsertPico.bases InsertPico.looseUnits InsertPico.totalUnits
       InsertPico.towerLocation InsertPico.productId
       InsertActivityLog.quantity InsertActivityLog.type
       InsertActivityLog.productCode InsertActivityLog.productDescription
       InsertActivityLog.category].
  rewrite Hfk, (towerRegex_varchar t Et).
  destruct (int4 (Product.id product)); [| reflexivity].
  destruct (int4 (PicoBody.bases b)); [| reflexivity].
  destruct (int4 (PicoBody.looseUnits b)); [| reflexivity].
  destruct (int4 total) eqn:Etot; [| reflexivity].
  destruct (nextval (picos_id_seq db)); [| reflexivity].
  cbn [andb withPicos item_type_not_null activity_log_id_seq].
  destruct (nextval (activity_log_id_seq db)); [| reflexivity].
  destruct (item_type_not_null db); reflexivity.
Qed.

(** ** PUT /api/picos/:id, step by step *)

Lemma put_api_picos_id_out (env : Env) (id : Z) (b : PicoUpdateBody.t)
    (s : Session) (db : DB) :
  JsNumber.truthy (userId s) = true -> int4 id = false ->
  put_api_picos_id env id b s db = (message 400 "Failed to update pico", db).
Proof.
  intros Hauth Hid.
  unfold put_api_picos_id, getPico. handler.
  rewrite Hauth, (whereId_out _ _ _ Hid). reflexivity.
Qed.

Lemma put_api_picos_id_run (env : Env) (id : Z) (b : PicoUpdateBody.t)
    (s : Session) (db : DB) (pico : Pico.t) (product : Product.t) :
  JsNumber.truthy (userId s) = true ->
  int4 id = true ->
  selectPico id db = Some (pico, product) ->
  put_api_picos_id env id b s db =
  let totalUnits :=
    JsNumber.add
      (JsNumber.mul (PicoUpdateBody.bases b) (Product.unitsPerBase product))
      (PicoUpdateBody.looseUnits b) in
  let updates :=
    PartialPico.mk (Some (PicoUpdateBody.bases b))
      (Some (PicoUpdateBody.looseUnits b)) (Some totalUnits)
      (if truthyString (PicoUpdateBody.towerLocation b)
       then PicoUpdateBody.towerLocation b else None) in
  match storedPico updates with
  | Some stored =>
      (json (picoToJs (setPico (now env) stored pico)),
       withPicos
         (map (fun p => if Pico.id p =? id then setPico (now env) stored p
                        else p)
              (picos db))
         (picos_id_seq db) db)
  | None => (message 400 "Failed to update pico", db)
  end.
Proof.
  intros Hauth Hid Hget.
  unfold put_api_picos_id, getPico. handler.
  rewrite Hauth, (whereId_in _ _ _ Hid). cbn [fst snd]. rewrite Hget.
  cbv zeta.
  set (total := JsNumber.add _ _).
  set (updates := PartialPico.mk _ _ _ _).
  unfold updatePico. rewrite (whereId_in _ _ _ Hid).
  destruct (storedPico updates) as [stored |]; [| reflexivity].
  rewrite (hd_error_filter_map_id Pico.id (setPico (now env) stored) id)
    by reflexivity.
  rewrite selectPico_first in Hget.
  destruct (hd_error (filter (fun p => Pico.id p =? id) (picos db)))
    as [r |]; [| discriminate].
  destruct (hd_error (filter _ (products db))); [| discriminate].
  injection Hget as -> _. reflexivity.
Qed.

(** What the columns store for the update of a PUT /api/picos/:id. *)
Lemma storedPico_put (bases looseUnits totalUnits : Z) (tower : option string) :
  storedPico (PartialPico.mk (Some bases) (Some looseUnits) (Some totalUnits)
                (if truthyString tower then tower else None)) =
  if int4 bases && int4 looseUnits && int4 totalUnits
  then
    match tower with
    | Some t =>
        if String.eqb t EmptyString
        then Some (PartialPico.mk (Some bases) (Some looseUnits)
                     (Some totalUnits) None)
        else
          match varchar 2 t with
          | Some stored =>
              Some (PartialPico.mk (Some bases) (Some looseUnits)
                      (Some totalUnits) (Some stored))
          | None => None
          end
    | None =>
        Some (PartialPico.mk (Some bases) (Some looseUnits) (Some totalUnits)
                None)
    end
  else None.
Proof.
  unfold storedPico.
  cbn [PartialPico.bases PartialPico.looseUnits PartialPico.totalUnits
       PartialPico.towerLocation int4Opt].
  destruct (int4 bases && int4 looseUnits && int4 totalUnits); [| reflexivity].
  destruct tower as [t |]; cbn [truthyString]; [| reflexivity].
  destruct (String.eqb t EmptyString); reflexivity.
Qed.

Lemma selectPico_In (id : Z) (db : DB) (pico : Pico.t) (product : Product.t) :
  selectPico id db = Some (pico, product) ->
  hd_error (filter (fun p => Pico.id p =? id) (picos db)) = Some pico
  /\ In pico (picos db) /\ Pico.id pico = id
  /\ In product (products db) /\ Product.id product = Pico.productId pico.
Proof.
  rewrite selectPico_first. intros H.
  destruct (hd_error (filter (fun p => Pico.id p =? id) (picos db)))
    as [r |] eqn:Er; [| discriminate].
  destruct (hd_error (filter _ (products db))) as [x |] eqn:Ex;
    [| discriminate].
  injection H as -> ->.
  split; [reflexivity |].
  apply hd_error_filter_In in Er as [Hr Hid%Z.eqb_eq].
  apply hd_error_filter_In in Ex as [Hx Hpid%Z.eqb_eq].
  auto.
Qed.

(** The total on the two write paths, for a pico the handler has found with
    its product. *)
Lemma pico_totalUnits_found (env : Env) (s : Session) (db : DB) :
  JsNumber.truthy (userId s) = true ->
  (forall (b : PicoBody.t) (product : Product.t),
      getProductByCode (PicoBody.productCode b) db = Some product ->
      int4 (Product.id product) = true ->
      let total :=
        PicoBody.bases b * Product.unitsPerBase product
        + PicoBody.looseUnits b in
      let out := post_api_picos env b s db in
      if match PicoBody.towerLocation b with
         | Some t => towerRegex t
         | None => false
         end
         && int4 (PicoBody.bases b) && int4 (PicoBody.looseUnits b)
         && int4 total && nextval (picos_id_seq db)
      then
        exists p : Pico.t,
          picos (snd out) = picos db ++ [p]
          /\ Pico.totalUnits p = total
          /\ Pico.bases p = PicoBody.bases b
          /\ Pico.looseUnits p = PicoBody.looseUnits b
          /\ Pico.productId p = Product.id product
          /\ (if nextval (activity_log_id_seq db)
                 && negb (item_type_not_null db)
              then fst out = json (picoToJs p)
              else status (fst out) = 400)
      else snd out = db /\ status (fst out) = 400)
  /\
  (forall (id : Z) (b : PicoUpdateBody.t) (pico : Pico.t)
          (product : Product.t),
      int4 id = true ->
      selectPico id db = Some (pico, product) ->
      let total :=
        PicoUpdateBody.bases b * Product.unitsPerBase product
        + PicoUpdateBody.looseUnits b in
      let out := put_api_picos_id env id b s db in
      if int4 (PicoUpdateBody.bases b) && int4 (PicoUpdateBody.looseUnits b)
         && int4 total
         && match PicoUpdateBody.towerLocation b with
            | Some t => varcharTakes 2 t
            | None => true
            end
      then
        exists p : Pico.t,
          fst out = json (picoToJs p)
          /\ In p (picos (snd out))
          /\ Pico.id p = id
          /\ Pico.totalUnits p = total
          /\ (forall p', In p' (picos (snd out)) -> Pico.id p' = id ->
                         Pico.totalUnits p' = total)
      else snd out = db /\ status (fst out) = 400).
Proof.
  intros Hauth. split.
  - intros b product Hprod Hpid total out.
    unfold out. rewrite (post_api_picos_run env b s db product Hauth Hprod).
    cbv zeta. rewrite Hpid.
    destruct (PicoBody.towerLocation b) as [t |]; [| split; reflexivity].
    destruct (towerRegex t); [| split; reflexivity].
    destruct (int4 (PicoBody.bases b)); [| split; reflexivity].
    destruct (int4 (PicoBody.looseUnits b)) eqn:El; [| split; reflexivity].
    destruct (int4_total (PicoBody.bases b) (Product.unitsPerBase product)
                (PicoBody.looseUnits b) El) as [Hsame Hexact].
    cbn [andb]. rewrite Hsame. fold total in Hexact |- *.
    destruct (int4 total); [| split; reflexivity].
    rewrite (Hexact eq_refl). cbn [andb].
    destruct (nextval (picos_id_seq db)); [| split; reflexivity].
    destruct (nextval (activity_log_id_seq db));
      destruct (item_type_not_null db); cbn [fst snd andb negb];
      eexists; repeat (split; [reflexivity |]); reflexivity.
  - intros id b pico product Hid Hget total out.
    unfold out.
    rewrite (put_api_picos_id_run env id b s db pico product Hauth Hid Hget).
    cbv zeta. rewrite storedPico_put.
    destruct (int4 (PicoUpdateBody.bases b)); [| split; reflexivity].
    destruct (int4 (PicoUpdateBody.looseUnits b)) eqn:El;
      [| split; reflexivity].
    destruct (int4_total (PicoUpdateBody.bases b)
                (Product.unitsPerBase product)
                (PicoUpdateBody.looseUnits b) El) as [Hsame Hexact].
    cbn [andb]. rewrite Hsame. fold total in Hexact |- *.
    destruct (int4 total); [| split; reflexivity].
    rewrite (Hexact eq_refl). cbn [andb].
    apply selectPico_In in Hget as (_ & Hin & Hpid & _).
    assert (Hrows : forall up,
               PartialPico.totalUnits up = Some total ->
               let rows := map (fun p => if Pico.id p =? id
                                         then setPico (now env) up p else p)
                               (picos db) in
               In (setPico (now env) up pico) rows
               /\ Pico.id (setPico (now env) up pico) = id
               /\ Pico.totalUnits (setPico (now env) up pico) = total
               /\ (forall p', In p' rows -> Pico.id p' = id ->
                              Pico.totalUnits p' = total)).
    { intros up Hup rows. repeat split.
      - apply in_map_iff. exists pico. split; [| exact Hin].
        rewrite Hpid, Z.eqb_refl. reflexivity.
      - exact Hpid.
      - cbn. rewrite Hup. reflexivity.
      - intros p' Hp' Hid'. apply in_map_iff in Hp' as (q & <- & _).
        destruct (Pico.id q =? id) eqn:Eq.
        + cbn. rewrite Hup. reflexivity.
        + apply Z.eqb_neq in Eq. congruence. }
    destruct (PicoUpdateBody.towerLocation b) as [t |].
    + destruct (String.eqb t EmptyString) eqn:Ee.
      * apply String.eqb_eq in Ee. subst t.
        unfold varcharTakes. rewrite varchar_short by (cbn; lia).
        eexists. split; [reflexivity |]. apply Hrows. reflexivity.
      * unfold varcharTakes.
        destruct (varchar 2 t); [| split; reflexivity].
        eexists. split; [reflexivity |]. apply Hrows. reflexivity.
    + eexists. split; [reflexivity |]. apply Hrows. reflexivity.
Qed.

(** ** Storage calls and what they keep *)

Lemma untouched_ret {V A} (view : DB -> V) (a : A) : untouched view (ret a).
Proof. intros db. reflexivity. Qed.

Lemma untouched_throw {V A} (view : DB -> V) : untouched view (@throw A).
Proof. intros db. reflexivity. Qed.

Lemma untouched_query {V A} (view : DB -> V) (q : DB -> A) :
  untouched view (query q).
Proof. intros db. reflexivity. Qed.

Lemma untouched_bind {V A B} (view : DB -> V) (m : Storage A)
    (k : A -> Storage B) :
  untouched view m -> (forall a, untouched view (k a)) ->
  untouched view (bind m k).
Proof.
  intros Hm Hk db. unfold bind.
  specialize (Hm db). destruct (m db) as [[a |] db1]; cbn [snd] in *.
  - rewrite Hk. exact Hm.
  - exact Hm.
Qed.

(** A single storage call that does not write the part in view. *)
Ltac untouched_op :=
  unfold untouched, getUser, getProduct, getPico, getPaletizadoStock,
    getPaletizadoStockByProductId, createUser, updateUser, deleteUser,
    updateUserPassword, createProduct, updateProduct, deleteProduct,
    createPico, updatePico, deletePico, createPaletizadoStock,
    updatePaletizadoStock, deletePaletizadoStock, createActivityLog,
    whereId, query;
  intros ?db;
  repeat match goal with
         | |- context [if ?c then _ else _] => destruct c
         | |- context [match ?c with Some _ => _ | None => _ end] =>
             destruct c
         end;
  reflexivity.

Lemma stockInvariant_ext (db db' : DB) :
  stockOf db' = stockOf db -> stockInvariant db -> stockInvariant db'.
Proof.
  unfold stockOf, stockInvariant. intros H. injection H as -> ->. tauto.
Qed.

Lemma picoInvariant_ext (db db' : DB) :
  picosOf db' = picosOf db -> picoInvariant db -> picoInvariant db'.
Proof.
  unfold picosOf, picoInvariant. intros H. injection H as -> -> -> ->. tauto.
Qed.

Lemma untouched_keeps_stock {A} (m : Storage A) :
  untouched stockOf m -> keeps stockInvariant m.
Proof. intros H db. apply stockInvariant_ext, H. Qed.

Lemma untouched_keeps_picos {A} (m : Storage A) :
  untouched picosOf m -> keeps picoInvariant m.
Proof. intros H db. apply picoInvariant_ext, H. Qed.

Lemma keeps_ret (P : DB -> Prop) {A} (a : A) : keeps P (ret a).
Proof. intros db H. exact H. Qed.

Lemma keeps_throw (P : DB -> Prop) {A} : keeps P (@throw A).
Proof. intros db H. exact H. Qed.

Lemma keeps_query (P : DB -> Prop) {A} (q : DB -> A) : keeps P (query q).
Proof. intros db H. exact H. Qed.

Lemma keeps_whereId (P : DB -> Prop) {A} (id : Z) (m : Storage A) :
  keeps P m -> keeps P (whereId id m).
Proof.
  intros Hm db H. unfold whereId.
  destruct (int4 id); [apply Hm, H | exact H].
Qed.

(** A select by id writes nothing. *)
Lemma keeps_select (P : DB -> Prop) {A} (id : Z) (q : DB -> A) :
  keeps P (whereId id (query q)).
Proof. apply keeps_whereId, keeps_query. Qed.

Lemma keeps_bind (P : DB -> Prop) {A B} (m : Storage A) (k : A -> Storage B) :
  keeps P m -> (forall a, keeps P (k a)) -> keeps P (bind m k).
Proof.
  intros Hm Hk db H. unfold bind.
  specialize (Hm db H). destruct (m db) as [[a |] db1]; cbn [snd] in *.
  - apply Hk, Hm.
  - exact Hm.
Qed.

Lemma keeps_tryCatch (P : DB -> Prop) (m : Storage Response) (r : Response)
    (db : DB) :
  keeps P m -> P db -> P (snd (tryCatch m r db)).
Proof.
  intros Hm H. unfold tryCatch. specialize (Hm db H).
  destruct (m db) as [[a |] db1]; exact Hm.
Qed.

Lemma keeps_requireAuth (P : DB -> Prop) (s : Session)
    (next : DB -> Response * DB) (db : DB) :
  (P db -> P (snd (next db))) -> P db -> P (snd (requireAuth s next db)).
Proof.
  intros Hn H. unfold requireAuth.
  destruct (JsNumber.truthy (userId s)); [apply Hn, H | exact H].
Qed.

Lemma keeps_requireAdmin (P : DB -> Prop) (s : Session)
    (next : DB -> Response * DB) (db : DB) :
  (P db -> P (snd (next db))) -> P db -> P (snd (requireAdmin s next db)).
Proof.
  intros Hn H. unfold requireAdmin.
  destruct (isAdmin s); [apply Hn, H | exact H].
Qed.

(** The password change makes its two storage calls one after the other. *)
Lemma keeps_change_password (P : DB -> Prop) (env : Env)
    (b : PasswordChangeData.t) (s : Session) (db : DB) :
  (forall now id h, keeps P (updateUserPassword now id h)) ->
  P db -> P (snd (post_api_auth_change_password env b s db)).
Proof.
  intros K H. unfold post_api_auth_change_password.
  destruct (JsNumber.truthy (userId s)); [| exact H].
  destruct (passwordChangeSchema b); [| exact H].
  cbv zeta.
  assert (Hk : keeps P
            (updateUserPassword (now env) (orElse (userId s) 0)
               (bcrypt_hash (salt env) (PasswordChangeData.newPassword b)) ;;;
             getUser (orElse (userId s) 0))).
  { apply keeps_bind; [apply K | intros _; apply keeps_select]. }
  specialize (Hk db H).
  destruct ((updateUserPassword _ _ _ ;;; getUser _) db) as [[u |] db1];
    exact Hk.
Qed.

(** *** The three writes to the stock table *)

Lemma map_update_same {A B} (f : A -> B) (sel : A -> bool) (set : A -> A)
    (l : list A) :
  (forall a, f (set a) = f a) ->
  map f (map (fun a => if sel a then set a else a) l) = map f l.
Proof.
  intros H. rewrite map_map. apply map_ext.
  intros a. destruct (sel a); [apply H | reflexivity].
Qed.

Lemma NoDup_map_filter {A B} (f : A -> B) (g : A -> bool) (l : list A) :
  NoDup (map f l) -> NoDup (map f (filter g l)).
Proof.
  induction l as [| a l IH]; simpl; intros H; [constructor |].
  inversion H as [| ? ? Hnotin Hnd]; subst.
  destruct (g a); [| auto].
  simpl. constructor; [| auto].
  intros Hin. apply Hnotin.
  apply in_map_iff in Hin as (x & Hx & Hin).
  apply in_map_iff. exists x. split; [exact Hx |].
  apply filter_In in Hin. tauto.
Qed.

Lemma keeps_updatePaletizadoStock now id q :
  keeps stockInvariant (updatePaletizadoStock now id q).
Proof.
  apply keeps_whereId. intros db (Hp & Hi & Hs). cbv beta.
  destruct (int4 q); cbn [snd]; [| repeat split; assumption].
  unfold stockInvariant. cbn [paletizadoStock paletizado_stock_id_seq withStock].
  rewrite !(map_update_same _ (fun s => Stock.id s =? id)) by reflexivity.
  repeat split; try assumption.
  apply Forall_map. revert Hs. apply Forall_impl.
  intros a Ha. destruct (Stock.id a =? id); exact Ha.
Qed.

Lemma keeps_deletePaletizadoStock id :
  keeps stockInvariant (deletePaletizadoStock id).
Proof.
  apply keeps_whereId. intros db (Hp & Hi & Hs). unfold stockInvariant.
  cbn [snd paletizadoStock paletizado_stock_id_seq withStock].
  repeat split.
  - apply NoDup_map_filter, Hp.
  - apply NoDup_map_filter, Hi.
  - apply Forall_forall. intros x Hx. apply filter_In in Hx as [Hx _].
    rewrite Forall_forall in Hs. apply Hs, Hx.
Qed.

Create HintDb storage.

#[local] Hint Resolve keeps_updatePaletizadoStock keeps_deletePaletizadoStock
  : storage.

(** An insert keeps the invariant when the product has no row yet. *)
Lemma createPaletizadoStock_fresh now st (db : DB) :
  (forall e, In e (paletizadoStock db) ->
             Stock.productId e <> InsertStock.productId st) ->
  stockInvariant db ->
  stockInvariant (snd (createPaletizadoStock now st db)).
Proof.
  intros Hfresh (Hp & Hi & Hs). unfold createPaletizadoStock.
  destruct (int4 (InsertStock.productId st) && int4 (InsertStock.quantity st)
            && nextval (paletizado_stock_id_seq db));
    cbn [snd]; [| repeat split; assumption].
  destruct (existsb _ (products db)); cbn [snd].
  2: { unfold stockInvariant.
       cbn [paletizadoStock paletizado_stock_id_seq withStock].
       repeat split; try assumption.
       revert Hs. apply Forall_impl. intros a Ha. lia. }
  unfold stockInvariant.
  cbn [paletizadoStock paletizado_stock_id_seq withStock].
  rewrite !map_app. cbn [map Stock.productId Stock.id].
  rewrite Forall_forall in Hs.
  repeat split.
  - apply NoDup_app; repeat split.
    + exact Hp.
    + constructor; [intros [] | constructor].
    + intros x Hx [<- | []].
      apply in_map_iff in Hx as (e & He & Hin). apply (Hfresh e Hin He).
  - apply NoDup_app; repeat split.
    + exact Hi.
    + constructor; [intros [] | constructor].
    + intros x Hx [<- | []].
      apply in_map_iff in Hx as (e & He & Hin).
      specialize (Hs e Hin). cbn in Hs. lia.
  - apply Forall_app. split.
    + apply Forall_forall. intros x Hx. specialize (Hs x Hx). cbn in Hs. lia.
    + constructor; [cbn; lia | constructor].
Qed.

(** ** POST /api/paletizado-stock, step by step *)

Lemma hd_error_filter_Some {A} (f : A -> bool) (l : list A) (x : A) :
  In x l -> f x = true -> exists y, hd_error (filter f l) = Some y.
Proof.
  intros Hin Hf.
  destruct (hd_error (filter f l)) as [y |] eqn:E; [eauto |].
  rewrite hd_error_filter_None in E. rewrite (E x Hin) in Hf. discriminate.
Qed.

Lemma post_api_paletizado_stock_run (env : Env) (b : StockBody.t)
    (s : Session) (db : DB) (product : Product.t) :
  JsNumber.truthy (userId s) = true ->
  getProductByCode (StockBody.productCode b) db = Some product ->
  int4 (Product.id product) = true ->
  post_api_paletizado_stock env b s db =
  let d := StockBody.quantity b in
  let logged (stock : option Stock.t) (db1 : DB) :=
    if int4 d && nextval (activity_log_id_seq db)
    then
      if item_type_not_null db
      then
        (message 400 "Invalid stock data",
         withActivityLog (activityLog db) (activity_log_id_seq db + 1) db1)
      else
        (json (match stock with
               | Some st => stockToJs st
               | None => JUndefined
               end),
         withActivityLog
           (activityLog db ++
            [ActivityLog.mk (activity_log_id_seq db) "entry"
               (Product.code product) (Product.description product) d
               (Product.category product) (now env) None])
           (activity_log_id_seq db + 1) db1)
    else (message 400 "Invalid stock data", db1) in
  match hd_error (filter (fun r => Stock.productId r =? Product.id product)
                         (paletizadoStock db)) with
  | Some e =>
      let q := JsNumber.add (Stock.quantity e) d in
      if int4 (Stock.id e) && int4 q
      then
        let set r := Stock.mk (Stock.id r) (Stock.productId r) q
                       (Stock.createdAt r) (now env) in
        logged
          (option_map set
             (hd_error (filter (fun r => Stock.id r =? Stock.id e)
                               (paletizadoStock db))))
          (withStock
             (map (fun r => if Stock.id r =? Stock.id e then set r else r)
                  (paletizadoStock db))
             (paletizado_stock_id_seq db) db)
      else (message 400 "Invalid stock data", db)
  | None =>
      if int4 d && nextval (paletizado_stock_id_seq db)
      then
        let row := Stock.mk (paletizado_stock_id_seq db) (Product.id product) d
                     (now env) (now env) in
        logged (Some row)
          (withStock (paletizadoStock db ++ [row])
                     (paletizado_stock_id_seq db + 1) db)
      else (message 400 "Invalid stock data", db)
  end.
Proof.
  intros Hauth Hprod Hpid.
  unfold post_api_paletizado_stock, getPaletizadoStockByProductId. handler.
  rewrite Hauth, Hprod, (whereId_in _ _ _ Hpid).
  apply getProductByCode_In in Hprod as [Hin _].
  rewrite selectPaletizadoStockByProductId_first.
  cbv zeta.
  destruct (hd_error (filter (fun r => Stock.productId r =? Product.id product)
                             (paletizadoStock db))) as [e |] eqn:Ee.
  - pose proof Ee as Ee'.
    apply hd_error_filter_In in Ee' as [He Hepid%Z.eqb_eq].
    destruct (hd_error_filter_Some
                (fun p => Product.id p =? Stock.productId e) (products db)
                product Hin) as [x ->].
    { rewrite Hepid. apply Z.eqb_refl. }
    unfold updatePaletizadoStock, whereId.
    destruct (int4 (Stock.id e)); [| reflexivity].
    destruct (int4 (JsNumber.add (Stock.quantity e) (StockBody.quantity b)));
      [| reflexivity].
    rewrite (hd_error_filter_map_id Stock.id
               (fun r => Stock.mk (Stock.id r) (Stock.productId r)
                           (JsNumber.add (Stock.quantity e)
                              (StockBody.quantity b))
                           (Stock.createdAt r) (now env)) (Stock.id e))
      by reflexivity.
    unfold createActivityLog.
    cbn [InsertActivityLog.quantity InsertActivityLog.type
         InsertActivityLog.productCode InsertActivityLog.productDescription
         InsertActivityLog.category withStock item_type_not_null
         activityLog activity_log_id_seq andb].
    destruct (int4 (StockBody.quantity b) && nextval (activity_log_id_seq db));
      [| reflexivity].
    destruct (item_type_not_null db); reflexivity.
  - unfold createPaletizadoStock.
    cbn [InsertStock.quantity InsertStock.productId].
    rewrite (existsb_In (fun x => Product.id x =? Product.id product)
               (products db) product Hin (Z.eqb_refl _)).
    rewrite Hpid. cbn [andb].
    destruct (int4 (StockBody.quantity b)) eqn:Ed; [| reflexivity].
    cbn [andb].
    destruct (nextval (paletizado_stock_id_seq db)); [| reflexivity].
    unfold createActivityLog.
    cbn [InsertActivityLog.quantity InsertActivityLog.type
         InsertActivityLog.productCode InsertActivityLog.productDescription
         InsertActivityLog.category withStock item_type_not_null
         activityLog activity_log_id_seq andb].
    rewrite Ed. cbn [andb].
    destruct (nextval (activity_log_id_seq db)); [| reflexivity].
    destruct (item_type_not_null db); reflexivity.
Qed.

(** ** The stock invariant under every request *)

Lemma post_api_paletizado_stock_keeps (env : Env) (b : StockBody.t)
    (s : Session) (db : DB) :
  stockInvariant db ->
  stockInvariant (snd (post_api_paletizado_stock env b s db)).
Proof.
  intros H.
  destruct (JsNumber.truthy (userId s)) eqn:Hauth.
  2: { unfold post_api_paletizado_stock, requireAuth. rewrite Hauth. exact H. }
  destruct (getProductByCode (StockBody.productCode b) db) as [product |]
    eqn:Hprod.
  2: { unfold post_api_paletizado_stock. handler. rewrite Hauth, Hprod.
       exact H. }
  destruct (int4 (Product.id product)) eqn:Hpid.
  2: { unfold post_api_paletizado_stock, getPaletizadoStockByProductId.
       handler. rewrite Hauth, Hprod, (whereId_out _ _ _ Hpid). exact H. }
  rewrite (post_api_paletizado_stock_run env b s db product Hauth Hprod Hpid).
  cbv zeta.
  assert (Hlog : forall (r1 r2 r3 : Response) ls1 ls2 n1 n2 (db1 : DB),
             stockInvariant db1 ->
             stockInvariant
               (snd (if int4 (StockBody.quantity b)
                        && nextval (activity_log_id_seq db)
                     then if item_type_not_null db
                          then (r1, withActivityLog ls1 n1 db1)
                          else (r2, withActivityLog ls2 n2 db1)
                     else (r3, db1)))).
  { intros r1 r2 r3 ls1 ls2 n1 n2 db1 H1.
    destruct (int4 (StockBody.quantity b) && nextval (activity_log_id_seq db));
      [| exact H1].
    destruct (item_type_not_null db); exact H1. }
  destruct (hd_error (filter (fun r => Stock.productId r =? Product.id product)
                             (paletizadoStock db))) as [e |] eqn:Ee.
  - destruct (int4 (Stock.id e)) eqn:Eid; [| exact H].
    destruct (int4 (JsNumber.add (Stock.quantity e) (StockBody.quantity b)))
      eqn:Eq; [| exact H].
    cbn [andb]. apply Hlog.
    pose proof (keeps_updatePaletizadoStock (now env) (Stock.id e)
                  (JsNumber.add (Stock.quantity e) (StockBody.quantity b))
                  db H) as Hk.
    unfold updatePaletizadoStock, whereId in Hk.
    rewrite Eid, Eq in Hk. exact Hk.
  - destruct (int4 (StockBody.quantity b)
              && nextval (paletizado_stock_id_seq db)) eqn:Ec; [| exact H].
    apply andb_true_iff in Ec as [Ed En].
    rewrite hd_error_filter_None in Ee.
    pose proof (createPaletizadoStock_fresh (now env)
                  (InsertStock.mk (Product.id product) (StockBody.quantity b))
                  db) as Hk.
    unfold createPaletizadoStock in Hk.
    cbn [InsertStock.quantity InsertStock.productId] in Hk.
    rewrite Ed, Hpid, En in Hk.
    apply getProductByCode_In in Hprod as [Hin _].
    rewrite (existsb_In (fun x => Product.id x =? Product.id product)
               (products db) product Hin (Z.eqb_refl _)) in Hk.
    cbn [andb snd] in Hk.
    assert (Hfresh : forall e, In e (paletizadoStock db) ->
                               Stock.productId e <> Product.id product).
    { intros e He. apply Z.eqb_neq, Ee, He. }
    specialize (Hk Hfresh H). apply Hlog, Hk.
Qed.

Ltac keeps_auto :=
  repeat first
    [ apply keeps_requireAuth; [intros ? | assumption]
    | apply keeps_requireAdmin; [intros ? | assumption]
    | solve [cbv beta; cbn [snd]; assumption]
    | apply keeps_tryCatch; [| assumption]
    | apply keeps_bind; [| intros ?]
    | apply keeps_ret
    | apply keeps_throw
    | apply keeps_query
    | apply keeps_select
    | apply untouched_keeps_stock; solve [untouched_op]
    | apply untouched_keeps_picos; solve [untouched_op]
    | solve [auto with storage]
    | match goal with
      | |- keeps _ (match ?x with _ => _ end) => destruct x
      | |- keeps _ (let (_, _) := ?x in _) => destruct x
      end
    | assumption ].

(** ** Invariants, once for every route *)

Lemma handle_keeps_all (P : DB -> Prop) (env : Env) (req : Request)
    (s : Session) (db : DB) :
  storageKeeps P -> P db -> P (snd (handle env req s db)).
Proof.
  intros (K1 & K2 & K3 & K4 & K5 & K6 & K7 & K8 & K9 & K10 & K11 & K12
          & K13 & K14) H.
  destruct req; cbn [handle keepSession snd].
  - unfold post_api_auth_login.
    destruct (loginSchema b); [| exact H].
    destruct (getUserByUsername _ db); [| exact H].
    destruct (bcrypt_compare _ _); exact H.
  - apply keeps_change_password; [exact K4 | exact H].
  - exact H.
  - unfold get_api_auth_user, uncaught. keeps_auto.
  - unfold get_api_users. keeps_auto.
  - unfold post_api_users. keeps_auto.
  - unfold put_api_users_id. keeps_auto.
  - unfold delete_api_users_id. keeps_auto.
  - unfold get_api_products. keeps_auto.
  - unfold post_api_products. keeps_auto.
  - unfold put_api_products_id. keeps_auto.
  - unfold delete_api_products_id. keeps_auto.
  - unfold get_api_picos. keeps_auto.
  - unfold post_api_picos. keeps_auto.
  - unfold put_api_picos_id. keeps_auto.
  - unfold delete_api_picos_id. keeps_auto.
  - unfold get_api_paletizado_stock. keeps_auto.
  - unfold post_api_paletizado_stock. keeps_auto.
  - unfold put_api_paletizado_stock_id. keeps_auto.
  - unfold delete_api_paletizado_stock_id. keeps_auto.
  - unfold get_api_dashboard_stats. keeps_auto.
Qed.

Lemma reachable_keeps (P : DB -> Prop) :
  storageKeeps P -> P emptyDB ->
  (forall db, P db -> P (add_item_type_to_activity_log db)) ->
  forall db, reachable db -> P db.
Proof.
  intros K H0 Hm db Hreach.
  induction Hreach as [| env db _ IH | db _ IH | env req s db _ IH].
  - exact H0.
  - unfold initializeDefaultUser.
    destruct (getUserByUsername "admin" db); [exact IH |].
    destruct K as (K1 & _). apply K1, IH.
  - apply Hm, IH.
  - apply handle_keeps_all; assumption.
Qed.

(** ** Ids come from the sequences *)

Lemma drawn_app {A} (idOf : A -> Z) (rows : list A) (seq : Z) (row : A) :
  drawn idOf rows seq -> nextval seq = true -> idOf row = seq ->
  drawn idOf (rows ++ [row]) (seq + 1).
Proof.
  unfold drawn, nextval. intros [Hs Hr] Hn%Z.leb_le Hid.
  split; [lia |]. apply Forall_app. split.
  - revert Hr. apply Forall_impl. intros a Ha. lia.
  - constructor; [lia | constructor].
Qed.

Lemma drawn_next {A} (idOf : A -> Z) (rows : list A) (seq : Z) :
  drawn idOf rows seq -> nextval seq = true -> drawn idOf rows (seq + 1).
Proof.
  unfold drawn, nextval. intros [Hs Hr] Hn%Z.leb_le.
  split; [lia |]. revert Hr. apply Forall_impl. intros a Ha. lia.
Qed.

Lemma drawn_map {A} (idOf : A -> Z) (sel : A -> bool) (set : A -> A)
    (rows : list A) (seq : Z) :
  (forall a, idOf (set a) = idOf a) ->
  drawn idOf rows seq ->
  drawn idOf (map (fun a => if sel a then set a else a) rows) seq.
Proof.
  unfold drawn. intros Hid [Hs Hr]. split; [exact Hs |].
  apply Forall_map. revert Hr. apply Forall_impl.
  intros a Ha. destruct (sel a); [rewrite Hid |]; exact Ha.
Qed.

Lemma drawn_filter {A} (idOf : A -> Z) (f : A -> bool) (rows : list A)
    (seq : Z) :
  drawn idOf rows seq -> drawn idOf (filter f rows) seq.
Proof.
  unfold drawn. intros [Hs Hr]. split; [exact Hs |].
  apply Forall_forall. intros x Hx. apply filter_In in Hx as [Hx _].
  rewrite Forall_forall in Hr. apply Hr, Hx.
Qed.

Lemma drawn_int4 {A} (idOf : A -> Z) (rows : list A) (seq : Z) (r : A) :
  drawn idOf rows seq -> In r rows -> int4 (idOf r) = true /\ 1 <= idOf r.
Proof.
  unfold drawn. intros [Hs Hr] Hin.
  rewrite Forall_forall in Hr. specialize (Hr r Hin).
  split; [apply int4_true |]; lia.
Qed.

(** Split the invariant into its five tables, and close the four the call
    did not write. *)
Ltac range_tables :=
  unfold rangeInvariant;
  cbn [snd users products picos paletizadoStock activityLog users_id_seq
       products_id_seq picos_id_seq paletizado_stock_id_seq
       activity_log_id_seq withUsers withProducts withPicos withStock
       withActivityLog];
  split; [| split; [| split; [| split]]]; try assumption.

Lemma rangeInvariant_storageKeeps : storageKeeps rangeInvariant.
Proof.
  unfold storageKeeps. repeat apply conj.
  - intros now u db (Hu & Hp & Hc & Hs & Hl). unfold createUser.
    destruct (nextval (users_id_seq db)) eqn:En; cbn [negb];
      [| range_tables].
    destruct (existsb _ (users db)); range_tables.
    + apply drawn_next; assumption.
    + apply drawn_app; [assumption | assumption | reflexivity].
  - intros now id up. apply keeps_whereId.
    intros db (Hu & Hp & Hc & Hs & Hl). cbv beta zeta.
    match goal with
    | |- context [if ?c then _ else _] => destruct c
    end; range_tables.
    apply drawn_map; [reflexivity | assumption].
  - intros id. apply keeps_whereId.
    intros db (Hu & Hp & Hc & Hs & Hl). range_tables.
    apply drawn_filter; assumption.
  - intros now id h. apply keeps_whereId.
    intros db (Hu & Hp & Hc & Hs & Hl). range_tables.
    apply drawn_map; [reflexivity | assumption].
  - intros now p db (Hu & Hp & Hc & Hs & Hl). unfold createProduct.
    destruct (int4 (InsertProduct.quantityBases p)
              && int4 (InsertProduct.unitsPerBase p)
              && nextval (products_id_seq db)) eqn:En; cbn [negb];
      [| range_tables].
    apply andb_true_iff in En as [_ En].
    destruct (existsb _ (products db)); range_tables.
    + apply drawn_next; assumption.
    + apply drawn_app; [assumption | assumption | reflexivity].
  - intros now id up. apply keeps_whereId.
    intros db (Hu & Hp & Hc & Hs & Hl). cbv beta zeta.
    match goal with
    | |- context [if ?c then _ else _] => destruct c
    end; range_tables.
    apply drawn_map; [reflexivity | assumption].
  - intros id. apply keeps_whereId.
    intros db (Hu & Hp & Hc & Hs & Hl). cbv beta.
    match goal with
    | |- context [if ?c then _ else _] => destruct c
    end; range_tables.
    apply drawn_filter; assumption.
  - intros now p db (Hu & Hp & Hc & Hs & Hl). unfold createPico.
    match goal with
    | |- context [if ?c then _ else (Thrown, db)] => destruct c eqn:En
    end; [| range_tables].
    apply andb_true_iff in En as [_ En].
    destruct (varchar 2 (InsertPico.towerLocation p));
      [destruct (existsb _ (products db)) |]; range_tables.
    + apply drawn_app; [assumption | assumption | reflexivity].
    + apply drawn_next; assumption.
    + apply drawn_next; assumption.
  - intros now id up. apply keeps_whereId.
    intros db (Hu & Hp & Hc & Hs & Hl). cbv beta.
    destruct (storedPico up); range_tables.
    apply drawn_map; [reflexivity | assumption].
  - intros id. apply keeps_whereId.
    intros db (Hu & Hp & Hc & Hs & Hl). range_tables.
    apply drawn_filter; assumption.
  - intros now st db (Hu & Hp & Hc & Hs & Hl). unfold createPaletizadoStock.
    match goal with
    | |- context [if ?c then _ else (Thrown, db)] => destruct c eqn:En
    end; [| range_tables].
    apply andb_true_iff in En as [_ En].
    destruct (existsb _ (products db)); range_tables.
    + apply drawn_app; [assumption | assumption | reflexivity].
    + apply drawn_next; assumption.
  - intros now id q. apply keeps_whereId.
    intros db (Hu & Hp & Hc & Hs & Hl). cbv beta.
    destruct (int4 q); range_tables.
    apply drawn_map; [reflexivity | assumption].
  - intros id. apply keeps_whereId.
    intros db (Hu & Hp & Hc & Hs & Hl). range_tables.
    apply drawn_filter; assumption.
  - intros now a db (Hu & Hp & Hc & Hs & Hl). unfold createActivityLog.
    match goal with
    | |- context [if ?c then _ else (Thrown, db)] => destruct c eqn:En
    end; [| range_tables].
    apply andb_true_iff in En as [_ En].
    destruct (item_type_not_null db); range_tables.
    + apply drawn_next; assumption.
    + apply drawn_app; [assumption | assumption | reflexivity].
Qed.

Lemma reachable_rangeInvariant (db : DB) : reachable db -> rangeInvariant db.
Proof.
  apply reachable_keeps.
  - apply rangeInvariant_storageKeeps.
  - unfold rangeInvariant, drawn. cbn. repeat split; try lia; constructor.
  - intros d (Hu & Hp & Hc & Hs & Hl).
    unfold add_item_type_to_activity_log.
    destruct (item_type_not_null d); range_tables.
    destruct Hl as [Hseq Hrows]. split; [exact Hseq |].
    apply Forall_map. revert Hrows. apply Forall_impl.
    intros a Ha. destruct (ActivityLog.item_type a); exact Ha.
Qed.

Lemma handle_keeps (env : Env) (req : Request) (s : Session) (db : DB) :
  stockInvariant db -> stockInvariant (snd (handle env req s db)).
Proof.
  intros H.
  destruct req; cbn [handle keepSession snd].
  - unfold post_api_auth_login.
    destruct (loginSchema b); [| exact H].
    destruct (getUserByUsername _ db); [| exact H].
    destruct (bcrypt_compare _ _); exact H.
  - apply keeps_change_password; [| exact H].
    intros. apply untouched_keeps_stock. untouched_op.
  - exact H.
  - unfold get_api_auth_user, uncaught. keeps_auto.
  - unfold get_api_users. keeps_auto.
  - unfold post_api_users. keeps_auto.
  - unfold put_api_users_id. keeps_auto.
  - unfold delete_api_users_id. keeps_auto.
  - unfold get_api_products. keeps_auto.
  - unfold post_api_products. keeps_auto.
  - unfold put_api_products_id. keeps_auto.
  - unfold delete_api_products_id. keeps_auto.
  - unfold get_api_picos. keeps_auto.
  - unfold post_api_picos. keeps_auto.
  - unfold put_api_picos_id. keeps_auto.
  - unfold delete_api_picos_id. keeps_auto.
  - unfold get_api_paletizado_stock. keeps_auto.
  - apply post_api_paletizado_stock_keeps, H.
  - unfold put_api_paletizado_stock_id. keeps_auto.
  - unfold delete_api_paletizado_stock_id. keeps_auto.
  - unfold get_api_dashboard_stats. keeps_auto.
Qed.

Lemma reachable_stockInvariant (db : DB) :
  reachable db -> stockInvariant db.
Proof.
  induction 1 as [| env db _ IH | db _ IH | env req s db _ IH].
  - repeat split; constructor.
  - unfold initializeDefaultUser.
    destruct (getUserByUsername "admin" db); [exact IH |].
    revert IH. apply untouched_keeps_stock. untouched_op.
  - revert IH. apply stockInvariant_ext.
    unfold add_item_type_to_activity_log.
    destruct (item_type_not_null db); reflexivity.
  - apply handle_keeps, IH.
Qed.

Lemma NoDup_map_inj {A B} (f : A -> B) (l : list A) (x y : A) :
  NoDup (map f l) -> In x l -> In y l -> f x = f y -> x = y.
Proof.
  induction l as [| a l IH]; simpl; intros Hnd Hx Hy Hf; [contradiction |].
  inversion Hnd as [| ? ? Hnotin Hnd']; subst.
  destruct Hx as [-> | Hx], Hy as [-> | Hy]; auto.
  - exfalso. apply Hnotin. rewrite Hf. apply in_map, Hy.
  - exfalso. apply Hnotin. rewrite <- Hf. apply in_map, Hx.
Qed.

Lemma hd_error_filter_unique {A} (f : A -> Z) (k : Z) (l : list A) (e : A) :
  NoDup (map f l) -> In e l -> f e = k ->
  hd_error (filter (fun a => f a =? k) l) = Some e.
Proof.
  intros Hnd Hin Hk.
  destruct (hd_error_filter_Some (fun a => f a =? k) l e Hin) as [y Hy].
  { rewrite Hk. apply Z.eqb_refl. }
  rewrite Hy. f_equal.
  apply hd_error_filter_In in Hy as [Hyin Hyk%Z.eqb_eq].
  apply (NoDup_map_inj f l); auto. congruence.
Qed.

(** Stored ids are within the range of the type. *)
Lemma reachable_ids (db : DB) :
  reachable db ->
  (forall u, In u (users db) -> int4 (User.id u) = true /\ 1 <= User.id u)
  /\ (forall p, In p (products db) -> int4 (Product.id p) = true)
  /\ (forall p, In p (picos db) -> int4 (Pico.id p) = true)
  /\ (forall r, In r (paletizadoStock db) -> int4 (Stock.id r) = true).
Proof.
  intros Hreach.
  destruct (reachable_rangeInvariant db Hreach) as (Hu & Hp & Hc & Hs & _).
  repeat apply conj; intros r Hr.
  - apply (drawn_int4 _ _ _ _ Hu Hr).
  - apply (drawn_int4 _ _ _ _ Hp Hr).
  - apply (drawn_int4 _ _ _ _ Hc Hr).
  - apply (drawn_int4 _ _ _ _ Hs Hr).
Qed.

(** C2, as amended.  In every database the server reaches, one request at
    a time, the stock table has at most one row per product.  There, an
    authenticated POST /api/paletizado-stock whose product has a row with
    quantity q, asking for d more, leaves the table with the same number of
    rows and sets that product's row, and no other, to q + d when q + d fits
    the integer column; it answers 400 and changes nothing when it does not.
    When the product has no row, a row with quantity d is added when d fits
    the column and the id sequence of the table has a value left, and
    nothing changes otherwise. *)
Theorem stock_one_row_per_product (db : DB) :
  reachable db ->
  NoDup (map Stock.productId (paletizadoStock db))
  /\ forall (env : Env) (b : StockBody.t) (s : Session) (product : Product.t),
      JsNumber.truthy (userId s) = true ->
      getProductByCode (StockBody.productCode b) db = Some product ->
      let out := post_api_paletizado_stock env b s db in
      let d := StockBody.quantity b in
      (forall e : Stock.t,
          In e (paletizadoStock db) ->
          Stock.productId e = Product.id product ->
          if int4 (Stock.quantity e + d)
          then
            paletizadoStock (snd out) =
            map (fun r => if Stock.productId r =? Product.id product
                          then Stock.mk (Stock.id r) (Stock.productId r)
                                 (Stock.quantity e + d) (Stock.createdAt r)
                                 (now env)
                          else r) (paletizadoStock db)
            /\ List.length (paletizadoStock (snd out))
               = List.length (paletizadoStock db)
          else snd out = db /\ status (fst out) = 400)
      /\ ((forall e : Stock.t,
              In e (paletizadoStock db) ->
              Stock.productId e <> Product.id product) ->
          if int4 d && nextval (paletizado_stock_id_seq db)
          then
            exists r : Stock.t,
              paletizadoStock (snd out) = paletizadoStock db ++ [r]
              /\ Stock.productId r = Product.id product
              /\ Stock.quantity r = d
          else snd out = db /\ status (fst out) = 400).
Proof.
  intros Hreach.
  destruct (reachable_stockInvariant db Hreach) as (Hp & Hi & _).
  destruct (reachable_ids db Hreach) as (_ & Hpids & _ & Hsids).
  split; [exact Hp |].
  intros env b s product Hauth Hprod out d.
  unfold out.
  rewrite (post_api_paletizado_stock_run env b s db product Hauth Hprod)
    by (apply Hpids; apply getProductByCode_In in Hprod; tauto).
  cbv zeta. fold d. split.
  - intros e He Hpid.
    rewrite (hd_error_filter_unique Stock.productId (Product.id product)
               (paletizadoStock db) e Hp He Hpid).
    rewrite (Hsids e He). cbn [andb].
    destruct (int4_add (Stock.quantity e) d) as [Hsame Hexact].
    rewrite Hsame.
    destruct (int4 (Stock.quantity e + d)); [| split; reflexivity].
    rewrite (Hexact eq_refl).
    assert (Hrows :
              map (fun r => if Stock.id r =? Stock.id e
                            then Stock.mk (Stock.id r) (Stock.productId r)
                                   (Stock.quantity e + d) (Stock.createdAt r)
                                   (now env)
                            else r) (paletizadoStock db) =
              map (fun r => if Stock.productId r =? Product.id product
                            then Stock.mk (Stock.id r) (Stock.productId r)
                                   (Stock.quantity e + d) (Stock.createdAt r)
                                   (now env)
                            else r) (paletizadoStock db)).
    { apply map_ext_in. intros r Hr.
      destruct (Stock.id r =? Stock.id e) eqn:E1;
        destruct (Stock.productId r =? Product.id product) eqn:E2;
        try reflexivity; exfalso.
      - apply Z.eqb_eq in E1. apply Z.eqb_neq in E2. apply E2.
        rewrite (NoDup_map_inj Stock.id _ r e Hi Hr He E1). exact Hpid.
      - apply Z.eqb_eq in E2. apply Z.eqb_neq in E1. apply E1.
        f_equal. apply (NoDup_map_inj Stock.productId _ r e Hp Hr He).
        congruence. }
    destruct (int4 d && nextval (activity_log_id_seq db));
      [destruct (item_type_not_null db) |];
      cbn [snd paletizadoStock withStock withActivityLog];
      rewrite Hrows; (split; [reflexivity | apply length_map]).
  - intros Hfresh.
    assert (Hnone : hd_error
                      (filter (fun r => Stock.productId r =? Product.id product)
                              (paletizadoStock db)) = None).
    { apply hd_error_filter_None. intros x Hx.
      apply Z.eqb_neq, Hfresh, Hx. }
    rewrite Hnone.
    destruct (int4 d && nextval (paletizado_stock_id_seq db));
      [| split; reflexivity].
    destruct (int4 d && nextval (activity_log_id_seq db));
      [destruct (item_type_not_null db) |]; cbn [snd];
      eexists; repeat (split; [reflexivity |]); reflexivity.
Qed.

(** ** Responses that carry a user *)

Lemma withoutPassword_clean (u : option User.t) :
  hasField "password" (stringify (withoutPassword u)) = false.
Proof.
  destruct u as [[i n k un pw r [[|] |] c t] |]; reflexivity.
Qed.

Lemma message_clean (c : Z) (m : string) :
  hasField "password" (stringify (body (message c m))) = false.
Proof. reflexivity. Qed.

Lemma users_clean (l : list User.t) :
  hasField "password"
    (stringify (JArr (map (fun u => withoutPassword (Some u)) l))) = false.
Proof.
  cbn [stringify hasField]. rewrite map_map.
  induction l as [| u l IH]; [reflexivity |].
  cbn [map existsb]. rewrite IH, orb_false_r.
  pose proof (withoutPassword_clean (Some u)) as H.
  destruct (stringify (withoutPassword (Some u))) eqn:E;
    try reflexivity; exact H.
Qed.

(** C5.  Whatever the database, the session and the request, the JSON that
    POST /api/auth/login, GET /api/auth/user, GET /api/users,
    POST /api/users and PUT /api/users/:id send has no member named
    password, at any depth. *)
Theorem user_responses_have_no_password (env : Env) (s : Session) (db : DB) :
  (forall b : LoginData.t,
      hasField "password"
        (stringify (body (fst (fst (post_api_auth_login b s db))))) = false)
  /\ hasField "password"
       (stringify (body (fst (get_api_auth_user s db)))) = false
  /\ hasField "password"
       (stringify (body (fst (get_api_users s db)))) = false
  /\ (forall b : InsertUser.t,
         hasField "password"
           (stringify (body (fst (post_api_users env b s db)))) = false)
  /\ (forall (id : Z) (b : PartialUser.t),
         hasField "password"
           (stringify (body (fst (put_api_users_id env id b s db)))) = false).
Proof.
  repeat split.
  - intros b. unfold post_api_auth_login.
    destruct (loginSchema b); [| reflexivity].
    destruct (getUserByUsername _ db) as [u |]; [| reflexivity].
    destruct (bcrypt_compare _ _); [| reflexivity].
    destruct u as [i n k un pw r [[|] |] c t]; reflexivity.
  - unfold get_api_auth_user, getUser, whereId. handler.
    destruct (JsNumber.truthy (userId s)); [| reflexivity].
    destruct (int4 _); [| reflexivity].
    destruct (selectUser _ db) as [u |]; [| reflexivity].
    apply withoutPassword_clean.
  - unfold get_api_users, requireAuth, requireAdmin.
    destruct (JsNumber.truthy (userId s)); [| reflexivity].
    destruct (isAdmin s); [| reflexivity].
    apply users_clean.
  - intros b. unfold post_api_users. handler.
    destruct (JsNumber.truthy (userId s)); [| reflexivity].
    destruct (isAdmin s); [| reflexivity].
    destruct (createUser _ _ db) as [[u |] db1]; [| reflexivity].
    apply withoutPassword_clean.
  - intros id b. unfold put_api_users_id. handler.
    destruct (JsNumber.truthy (userId s)); [| reflexivity].
    destruct (isAdmin s); [| reflexivity].
    destruct (updateUser _ _ _ db) as [[u |] db1]; [| reflexivity].
    apply withoutPassword_clean.
Qed.

(** ** Dashboard *)

Lemma count_partition {A} (f g : A -> bool) (l : list A) :
  (forall a, g a = negb (f a)) ->
  count f l + count g l = Z.of_nat (List.length l).
Proof.
  intros H. unfold count.
  induction l as [| a l IH]; [reflexivity |].
  cbn [filter]. rewrite H.
  destruct (f a); cbn [negb List.length]; lia.
Qed.

(** C6.  In every database the two category counts of the dashboard add up
    to the number of products.  An authenticated GET /api/dashboard/stats
    sends exactly those counts, each as the string of its decimal digits,
    which is how the driver hands over the bigint of a count. *)
Theorem dashboard_categories_cover_products (db : DB) :
  altaRotacao (getDashboardStats db) + baixaRotacao (getDashboardStats db)
  = Z.of_nat (List.length (products db))
  /\ forall s : Session,
      JsNumber.truthy (userId s) = true ->
      fst (get_api_dashboard_stats s db)
      = json (statsToJs (getDashboardStats db))
      /\ body (fst (get_api_dashboard_stats s db))
         = let stats := getDashboardStats db in
           let decimal n := JStr (NilZero.string_of_int (Z.to_int n)) in
           JObj [("totalPicos", decimal (totalPicos stats));
                 ("totalPaletizados", decimal (totalPaletizados stats));
                 ("altaRotacao", decimal (altaRotacao stats));
                 ("baixaRotacao", decimal (baixaRotacao stats));
                 ("recentEntries",
                  JArr (map activityToJs (recentEntries stats)));
                 ("recentExits",
                  JArr (map activityToJs (recentExits stats)))]%string.
Proof.
  split.
  - unfold getDashboardStats. cbn [altaRotacao baixaRotacao].
    apply count_partition.
    intros p. destruct (Product.category p); reflexivity.
  - intros s Hauth. unfold get_api_dashboard_stats, requireAuth.
    rewrite Hauth. split; reflexivity.
Qed.

(** ** Picos and their products under every request *)

Lemma NoDup_ids_app {A} (idOf : A -> Z) (l : list A) (row : A) (next : Z) :
  NoDup (map idOf l) -> Forall (fun a => idOf a < next) l ->
  idOf row = next -> NoDup (map idOf (l ++ [row])).
Proof.
  intros Hnd Hlt Hrow. rewrite map_app. cbn [map].
  apply NoDup_app; repeat split.
  - exact Hnd.
  - constructor; [intros [] | constructor].
  - intros x Hx [<- | []].
    apply in_map_iff in Hx as (a & Ha & Hin).
    rewrite Forall_forall in Hlt. specialize (Hlt a Hin). lia.
Qed.

Lemma Forall_ids_app {A} (idOf : A -> Z) (l : list A) (row : A) (next : Z) :
  Forall (fun a => idOf a < next) l -> idOf row = next ->
  Forall (fun a => idOf a < next + 1) (l ++ [row]).
Proof.
  intros Hlt Hrow. apply Forall_app. split.
  - revert Hlt. apply Forall_impl. intros a Ha. lia.
  - constructor; [lia | constructor].
Qed.

Lemma existsb_update_same {A} (idOf : A -> Z) (sel : A -> bool) (set : A -> A)
    (k : Z) (l : list A) :
  (forall a, idOf (set a) = idOf a) ->
  existsb (fun x => idOf x =? k) (map (fun a => if sel a then set a else a) l)
  = existsb (fun x => idOf x =? k) l.
Proof.
  intros H. induction l as [| a l IH]; [reflexivity |].
  cbn [map existsb]. rewrite IH.
  destruct (sel a); [rewrite H |]; reflexivity.
Qed.

Lemma Forall_ids_next {A} (idOf : A -> Z) (l : list A) (next : Z) :
  Forall (fun a => idOf a < next) l -> Forall (fun a => idOf a < next + 1) l.
Proof. apply Forall_impl. intros a Ha. lia. Qed.

Lemma keeps_createProduct now p : keeps picoInvariant (createProduct now p).
Proof.
  intros db (Hp & Hpl & Hc & Hcl & Hfk). unfold createProduct.
  destruct (negb _); cbn [snd]; [repeat split; assumption |].
  destruct (existsb _ (products db)); cbn [snd]; unfold picoInvariant;
    cbn [products picos products_id_seq picos_id_seq withProducts];
    repeat split; try assumption.
  - apply Forall_ids_next, Hpl.
  - apply (NoDup_ids_app Product.id _ _ (products_id_seq db)); auto.
  - apply (Forall_ids_app Product.id _ _ (products_id_seq db)); auto.
  - revert Hfk. apply Forall_impl. intros a [Ht Hx]. split; [exact Ht |].
    rewrite existsb_app, Hx. reflexivity.
Qed.

Lemma keeps_updateProduct now id up :
  keeps picoInvariant (updateProduct now id up).
Proof.
  apply keeps_whereId. intros db (Hp & Hpl & Hc & Hcl & Hfk). cbv beta zeta.
  match goal with
  | |- context [if ?c then _ else _] => destruct c
  end; cbn [snd]; [repeat split; assumption |].
  unfold picoInvariant.
  cbn [products picos products_id_seq picos_id_seq withProducts].
  rewrite (map_update_same Product.id (fun p => Product.id p =? id))
    by reflexivity.
  repeat split; try assumption.
  - apply Forall_map. revert Hpl. apply Forall_impl.
    intros a Ha. destruct (Product.id a =? id); exact Ha.
  - revert Hfk. apply Forall_impl. intros a [Ht Hx]. split; [exact Ht |].
    rewrite (existsb_update_same Product.id (fun p => Product.id p =? id))
      by reflexivity.
    exact Hx.
Qed.

Lemma keeps_deleteProduct id : keeps picoInvariant (deleteProduct id).
Proof.
  apply keeps_whereId. intros db (Hp & Hpl & Hc & Hcl & Hfk). cbv beta.
  destruct (existsb (fun p => Product.id p =? id) (products db)) eqn:Ehit;
    cbn [andb].
  - destruct (existsb (fun x => Pico.productId x =? id) (picos db)) eqn:Eref;
      cbn [orb].
    + repeat split; assumption.
    + destruct (existsb _ (paletizadoStock db)); cbn [snd];
        [repeat split; assumption |].
      unfold picoInvariant.
      cbn [products picos products_id_seq picos_id_seq withProducts].
      repeat split; try assumption.
      * apply NoDup_map_filter, Hp.
      * apply Forall_forall. intros x Hx. apply filter_In in Hx as [Hx _].
        rewrite Forall_forall in Hpl. apply Hpl, Hx.
      * rewrite Forall_forall in Hfk |- *. intros a Ha.
        destruct (Hfk a Ha) as [Ht Hx]. split; [exact Ht |].
        apply existsb_exists in Hx as (x & Hx & Hid).
        apply existsb_exists. exists x. split; [| exact Hid].
        apply filter_In. split; [exact Hx |].
        apply negb_true_iff, Z.eqb_neq. intros Heq.
        apply Z.eqb_eq in Hid.
        assert (Href : existsb (fun x => Pico.productId x =? id) (picos db)
                       = true).
        { apply existsb_exists. exists a. split; [exact Ha |].
          apply Z.eqb_eq. congruence. }
        congruence.
  - cbn [snd]. unfold picoInvariant.
    cbn [products picos products_id_seq picos_id_seq withProducts].
    repeat split; try assumption.
    + apply NoDup_map_filter, Hp.
    + apply Forall_forall. intros x Hx. apply filter_In in Hx as [Hx _].
      rewrite Forall_forall in Hpl. apply Hpl, Hx.
    + rewrite Forall_forall in Hfk |- *. intros a Ha.
      destruct (Hfk a Ha) as [Ht Hx]. split; [exact Ht |].
      apply existsb_exists in Hx as (x & Hx & Hid).
      apply existsb_exists. exists x. split; [| exact Hid].
      apply filter_In. split; [exact Hx |].
      apply negb_true_iff, Z.eqb_neq. intros Heq.
      assert (Hhit : existsb (fun p => Product.id p =? id) (products db)
                     = true).
      { apply existsb_exists. exists x. split; [exact Hx |].
        apply Z.eqb_eq, Heq. }
      congruence.
Qed.

Lemma keeps_createPico now p : keeps picoInvariant (createPico now p).
Proof.
  intros db (Hp & Hpl & Hc & Hcl & Hfk). unfold createPico.
  match goal with
  | |- context [if ?c then _ else (Thrown, db)] => destruct c eqn:Ec
  end; cbn [snd]; [| repeat split; assumption].
  repeat (apply andb_true_iff in Ec as [Ec ?]).
  assert (Hnext : picoInvariant
                    (withPicos (picos db) (picos_id_seq db + 1) db)).
  { unfold picoInvariant.
    cbn [products picos products_id_seq picos_id_seq withPicos].
    repeat split; try assumption. apply Forall_ids_next, Hcl. }
  destruct (varchar 2 (InsertPico.towerLocation p)); [| exact Hnext].
  destruct (existsb _ (products db)) eqn:Ex; [| exact Hnext].
  cbn [snd]. unfold picoInvariant.
  cbn [products picos products_id_seq picos_id_seq withPicos].
  repeat split; try assumption.
  - apply (NoDup_ids_app Pico.id _ _ (picos_id_seq db)); auto.
  - apply (Forall_ids_app Pico.id _ _ (picos_id_seq db)); auto.
  - apply Forall_app. split; [exact Hfk |].
    constructor; [| constructor]. split; assumption.
Qed.

Lemma storedPico_totalUnits (up stored : PartialPico.t) :
  storedPico up = Some stored ->
  PartialPico.totalUnits stored = PartialPico.totalUnits up
  /\ PartialPico.bases stored = PartialPico.bases up
  /\ PartialPico.looseUnits stored = PartialPico.looseUnits up
  /\ int4Opt (PartialPico.totalUnits up) = true.
Proof.
  unfold storedPico.
  destruct (int4Opt (PartialPico.bases up)); [| discriminate].
  destruct (int4Opt (PartialPico.looseUnits up)); [| discriminate].
  destruct (int4Opt (PartialPico.totalUnits up)); [| discriminate].
  cbn [andb].
  destruct (PartialPico.towerLocation up) as [t |].
  - destruct (varchar 2 t); [| discriminate].
    intros H. injection H as <-. repeat split.
  - intros H. injection H as <-. repeat split.
Qed.

Lemma keeps_updatePico now id up : keeps picoInvariant (updatePico now id up).
Proof.
  apply keeps_whereId. intros db (Hp & Hpl & Hc & Hcl & Hfk). cbv beta.
  destruct (storedPico up) as [stored |] eqn:Es; cbn [snd];
    [| repeat split; assumption].
  apply storedPico_totalUnits in Es as (Et & _ & _ & Hint).
  unfold picoInvariant.
  cbn [products picos products_id_seq picos_id_seq withPicos].
  rewrite (map_update_same Pico.id (fun p => Pico.id p =? id)) by reflexivity.
  repeat split; try assumption.
  - apply Forall_map. revert Hcl. apply Forall_impl.
    intros a Ha. destruct (Pico.id a =? id); exact Ha.
  - apply Forall_map. revert Hfk. apply Forall_impl.
    intros a [Ht Hx]. destruct (Pico.id a =? id); [| split; assumption].
    split; [| exact Hx].
    cbn [setPico Pico.totalUnits]. rewrite Et.
    destruct (PartialPico.totalUnits up); cbn [orElse int4Opt] in *; assumption.
Qed.

Lemma keeps_deletePico id : keeps picoInvariant (deletePico id).
Proof.
  apply keeps_whereId. intros db (Hp & Hpl & Hc & Hcl & Hfk).
  unfold picoInvariant.
  cbn [snd products picos products_id_seq picos_id_seq withPicos].
  repeat split; try assumption.
  - apply NoDup_map_filter, Hc.
  - apply Forall_forall. intros x Hx. apply filter_In in Hx as [Hx _].
    rewrite Forall_forall in Hcl. apply Hcl, Hx.
  - apply Forall_forall. intros x Hx. apply filter_In in Hx as [Hx _].
    rewrite Forall_forall in Hfk. apply Hfk, Hx.
Qed.

#[local] Hint Resolve keeps_createProduct keeps_updateProduct
  keeps_deleteProduct keeps_createPico keeps_updatePico keeps_deletePico
  : storage.

Lemma handle_keeps_picos (env : Env) (req : Request) (s : Session) (db : DB) :
  picoInvariant db -> picoInvariant (snd (handle env req s db)).
Proof.
  intros H.
  destruct req; cbn [handle keepSession snd].
  - unfold post_api_auth_login.
    destruct (loginSchema b); [| exact H].
    destruct (getUserByUsername _ db); [| exact H].
    destruct (bcrypt_compare _ _); exact H.
  - apply keeps_change_password; [| exact H].
    intros. apply untouched_keeps_picos. untouched_op.
  - exact H.
  - unfold get_api_auth_user, uncaught. keeps_auto.
  - unfold get_api_users. keeps_auto.
  - unfold post_api_users. keeps_auto.
  - unfold put_api_users_id. keeps_auto.
  - unfold delete_api_users_id. keeps_auto.
  - unfold get_api_products. keeps_auto.
  - unfold post_api_products. keeps_auto.
  - unfold put_api_products_id. keeps_auto.
  - unfold delete_api_products_id. keeps_auto.
  - unfold get_api_picos. keeps_auto.
  - unfold post_api_picos. keeps_auto.
  - unfold put_api_picos_id. keeps_auto.
  - unfold delete_api_picos_id. keeps_auto.
  - unfold get_api_paletizado_stock. keeps_auto.
  - unfold post_api_paletizado_stock. keeps_auto.
  - unfold put_api_paletizado_stock_id. keeps_auto.
  - unfold delete_api_paletizado_stock_id. keeps_auto.
  - unfold get_api_dashboard_stats. keeps_auto.
Qed.

Lemma reachable_picoInvariant (db : DB) : reachable db -> picoInvariant db.
Proof.
  induction 1 as [| env db _ IH | db _ IH | env req s db _ IH].
  - repeat split; constructor.
  - unfold initializeDefaultUser.
    destruct (getUserByUsername "admin" db); [exact IH |].
    revert IH. apply untouched_keeps_picos. untouched_op.
  - revert IH. apply picoInvariant_ext.
    unfold add_item_type_to_activity_log.
    destruct (item_type_not_null db); reflexivity.
  - apply handle_keeps_picos, IH.
Qed.

(** In a database the server reaches, the handlers find every pico of the
    table, with the product it refers to. *)
Lemma existing_pico_found (db : DB) (pico : Pico.t) :
  reachable db -> In pico (picos db) ->
  exists product,
    selectPico (Pico.id pico) db = Some (pico, product)
    /\ In product (products db)
    /\ Product.id product = Pico.productId pico
    /\ int4 (Pico.totalUnits pico) = true.
Proof.
  intros Hreach Hin.
  destruct (reachable_picoInvariant db Hreach) as (_ & _ & Hc & _ & Hfk).
  rewrite Forall_forall in Hfk. destruct (Hfk pico Hin) as [Ht Hx].
  apply existsb_exists in Hx as (x & Hx & Hid).
  destruct (hd_error_filter_Some
              (fun p => Product.id p =? Pico.productId pico) (products db)
              x Hx Hid) as [product Hprod].
  exists product. rewrite selectPico_first.
  rewrite (hd_error_filter_unique Pico.id (Pico.id pico) (picos db) pico
             Hc Hin eq_refl).
  rewrite Hprod.
  apply hd_error_filter_In in Hprod as [Hpin Hpid%Z.eqb_eq].
  auto.
Qed.

(** ** DELETE /api/picos/:id *)

(** C7, as amended.  For an authenticated DELETE /api/picos/:id on a
    database the server reaches.  When no pico has the id, the database is
    unchanged, and the answer is 404 for an id within the range of an
    integer column and 400 for an id outside it.  When a pico has the id,
    that pico is deleted, the picos of other ids stay, and users, products
    and stock are unchanged; then, when the activity log takes the row (its
    id sequence has a value left and item_type is not yet NOT NULL), the
    answer is 200 and the log has exactly one row more, of type exit, with
    the quantity the pico had and the code, description and category of the
    product it referred to; when the log refuses the row, the answer is 400,
    the log has no row more, and the pico stays deleted. *)
Theorem delete_pico_logs_exit (env : Env) (id : Z) (s : Session) (db : DB) :
  reachable db ->
  JsNumber.truthy (userId s) = true ->
  let out := delete_api_picos_id env id s db in
  ((forall p, In p (picos db) -> Pico.id p <> id) ->
   snd out = db
   /\ fst out = if int4 id
                then message 404 "Pico not found"
                else message 400 "Failed to eliminate pico")
  /\ (forall pico : Pico.t,
         In pico (picos db) ->
         Pico.id pico = id ->
         exists product : Product.t,
           In product (products db)
           /\ Product.id product = Pico.productId pico
           /\ picos (snd out)
              = filter (fun p => negb (Pico.id p =? id)) (picos db)
           /\ ~ In pico (picos (snd out))
           /\ users (snd out) = users db
           /\ products (snd out) = products db
           /\ paletizadoStock (snd out) = paletizadoStock db
           /\ if nextval (activity_log_id_seq db)
                 && negb (item_type_not_null db)
              then
                status (fst out) = 200
                /\ exists row : ActivityLog.t,
                     activityLog (snd out) = activityLog db ++ [row]
                     /\ ActivityLog.type row = "exit"%string
                     /\ ActivityLog.quantity row = Pico.totalUnits pico
                     /\ ActivityLog.productCode row = Product.code product
                     /\ ActivityLog.productDescription row
                        = Product.description product
                     /\ ActivityLog.category row = Product.category product
              else
                status (fst out) = 400
                /\ activityLog (snd out) = activityLog db).
Proof.
  intros Hreach Hauth out. unfold out, delete_api_picos_id, getPico, whereId.
  handler. rewrite Hauth. split.
  - intros Hnone.
    destruct (int4 id); [| split; reflexivity]. cbn [fst snd].
    assert (Hget : selectPico id db = None).
    { rewrite selectPico_first.
      replace (hd_error (filter (fun p => Pico.id p =? id) (picos db)))
        with (@None Pico.t); [reflexivity |].
      symmetry. apply hd_error_filter_None.
      intros x Hx. apply Z.eqb_neq, Hnone, Hx. }
    rewrite Hget. split; reflexivity.
  - intros pico Hin Hid.
    destruct (existing_pico_found db pico Hreach Hin)
      as (product & Hget & Hpin & Hpid & Hq).
    destruct (reachable_ids db Hreach) as (_ & _ & Hcids & _).
    rewrite <- Hid, (Hcids pico Hin), Hid. cbn [fst snd].
    rewrite Hid in Hget. rewrite Hget.
    exists product. split; [exact Hpin |]. split; [exact Hpid |].
    unfold deletePico, whereId, createActivityLog.
    rewrite <- Hid, (Hcids pico Hin), Hid.
    cbn [InsertActivityLog.quantity withPicos item_type_not_null
         activity_log_id_seq fst snd].
    rewrite Hq. cbn [andb].
    assert (Hgone : ~ In pico (filter (fun p => negb (Pico.id p =? id))
                                      (picos db))).
    { intros Hstill. apply filter_In in Hstill as [_ Hne].
      rewrite Hid, Z.eqb_refl in Hne. discriminate. }
    destruct (nextval (activity_log_id_seq db));
      [destruct (item_type_not_null db) |];
      cbn [andb negb fst snd picos users products paletizadoStock
           activityLog withActivityLog status message];
      (split; [reflexivity |]); (split; [exact Hgone |]);
      repeat (split; [reflexivity |]);
      try (split; reflexivity).
    eexists. repeat (split; [reflexivity |]). reflexivity.
Qed.

(** ** No transaction around the paired writes *)

(** C8.  There is a database the server reaches and an authenticated
    session for which a POST /api/picos inserts the pico, fails to append
    the activity-log row, answers 400, and leaves the pico in the table;
    and likewise a POST /api/paletizado-stock for the stock row.  The append
    fails there because the migration has made item_type NOT NULL.  Without
    the migration too a stock write can stay while its log row is refused:
    an increment whose sum fits the integer column and whose amount does
    not. *)
Theorem paired_writes_not_atomic :
  exists (env : Env) (s : Session) (db : DB),
    reachable db
    /\ JsNumber.truthy (userId s) = true
    /\ (exists b : PicoBody.t,
           let out := post_api_picos env b s db in
           status (fst out) = 400
           /\ (exists p, picos (snd out) = picos db ++ [p])
           /\ activityLog (snd out) = activityLog db)
    /\ (exists b : StockBody.t,
           let out := post_api_paletizado_stock env b s db in
           status (fst out) = 400
           /\ (exists r, paletizadoStock (snd out) = paletizadoStock db ++ [r])
           /\ activityLog (snd out) = activityLog db)
    /\ (exists (db0 : DB) (b : StockBody.t),
           let out := post_api_paletizado_stock env b s db0 in
           reachable db0
           /\ item_type_not_null db0 = false
           /\ status (fst out) = 400
           /\ map Stock.quantity (paletizadoStock db0) = [7]
           /\ map Stock.quantity (paletizadoStock (snd out)) = [-2147483642]
           /\ activityLog (snd out) = activityLog db0).
Proof.
  pose (env := mkEnv 1000 "salt").
  pose (admin := User.mk 1 "Administrador" "Admin" "admin" "x" administrador
                   (Some true) 1000 1000).
  pose (s := mkSession (Some 1) (Some admin)).
  pose (db1 := snd (handle env
                      (POST_products
                         (InsertProduct.mk "P1" "Widget" 10 5 alta_rotacao))
                      s (initializeDefaultUser env emptyDB))).
  assert (Hdb1 : reachable db1)
    by (apply reach_request, reach_startup, reach_empty).
  exists env, s, (add_item_type_to_activity_log db1).
  split; [apply reach_migration, Hdb1 |].
  split; [reflexivity |].
  split; [| split].
  - exists (PicoBody.mk "P1" 2 3 (Some "01"%string)).
    cbv zeta. split; [reflexivity |]. split; [| reflexivity].
    eexists. reflexivity.
  - exists (StockBody.mk "P1" 7).
    cbv zeta. split; [reflexivity |]. split; [| reflexivity].
    eexists. reflexivity.
  - exists (snd (handle env (POST_paletizado_stock (StockBody.mk "P1" 7))
                   s db1)),
           (StockBody.mk "P1" (-2147483649)).
    cbv zeta. split; [apply reach_request, Hdb1 |].
    repeat split.
Qed.

(** ** PUT /api/picos/:id: what it leaves alone *)

(** What the update writes, for a pico the handler has found with its
    product. *)
Lemma put_pico_frame_found (env : Env) (id : Z) (b : PicoUpdateBody.t)
    (s : Session) (db : DB) (pico : Pico.t) (product : Product.t) :
  JsNumber.truthy (userId s) = true ->
  int4 id = true ->
  selectPico id db = Some (pico, product) ->
  let total :=
    PicoUpdateBody.bases b * Product.unitsPerBase product
    + PicoUpdateBody.looseUnits b in
  let out := put_api_picos_id env id b s db in
  users (snd out) = users db
  /\ products (snd out) = products db
  /\ paletizadoStock (snd out) = paletizadoStock db
  /\ activityLog (snd out) = activityLog db
  /\ (exists f : Pico.t -> Pico.t,
         picos (snd out)
         = map (fun p => if Pico.id p =? id then f p else p) (picos db))
  /\ (PicoUpdateBody.towerLocation b = None
      \/ PicoUpdateBody.towerLocation b = Some EmptyString ->
      if int4 (PicoUpdateBody.bases b) && int4 (PicoUpdateBody.looseUnits b)
         && int4 total
      then
        status (fst out) = 200
        /\ picos (snd out)
           = map (fun p =>
                    if Pico.id p =? id
                    then Pico.mk (Pico.id p) (Pico.productId p)
                           (PicoUpdateBody.bases b)
                           (PicoUpdateBody.looseUnits b) total
                           (Pico.towerLocation p) (Pico.createdAt p) (now env)
                    else p) (picos db)
      else snd out = db /\ status (fst out) = 400).
Proof.
  intros Hauth Hid Hget total out. unfold out.
  rewrite (put_api_picos_id_run env id b s db pico product Hauth Hid Hget).
  cbv zeta. rewrite storedPico_put.
  assert (Hnochange : forall l : list Pico.t,
             l = map (fun p => if Pico.id p =? id then p else p) l).
  { intros l. rewrite <- (map_id l) at 1. apply map_ext.
    intros p. destruct (Pico.id p =? id); reflexivity. }
  assert (Hrefused :
            users db = users db /\ products db = products db
            /\ paletizadoStock db = paletizadoStock db
            /\ activityLog db = activityLog db
            /\ (exists f : Pico.t -> Pico.t,
                   picos db
                   = map (fun p => if Pico.id p =? id then f p else p)
                         (picos db))).
  { repeat (split; [reflexivity |]). exists (fun p => p). apply Hnochange. }
  destruct (int4 (PicoUpdateBody.bases b)); cbn [andb fst snd].
  2: { destruct Hrefused as (H1 & H2 & H3 & H4 & H5).
       repeat (split; [assumption |]). intros _. split; reflexivity. }
  destruct (int4 (PicoUpdateBody.looseUnits b)) eqn:El; cbn [andb fst snd].
  2: { destruct Hrefused as (H1 & H2 & H3 & H4 & H5).
       repeat (split; [assumption |]). intros _. split; reflexivity. }
  destruct (int4_total (PicoUpdateBody.bases b) (Product.unitsPerBase product)
              (PicoUpdateBody.looseUnits b) El) as [Hsame Hexact].
  rewrite Hsame. fold total in Hexact |- *.
  destruct (int4 total); cbn [fst snd].
  2: { destruct Hrefused as (H1 & H2 & H3 & H4 & H5).
       repeat (split; [assumption |]). intros _. split; reflexivity. }
  rewrite (Hexact eq_refl).
  destruct (PicoUpdateBody.towerLocation b) as [t |];
    [destruct (String.eqb t EmptyString) eqn:Ee; [| destruct (varchar 2 t)] |];
    cbn [fst snd users products paletizadoStock activityLog picos withPicos].
  - repeat (split; [reflexivity |]).
    split; [eexists; reflexivity |]. intros _. split; reflexivity.
  - repeat (split; [reflexivity |]).
    split; [eexists; reflexivity |].
    intros [Ht | Ht]; [discriminate |].
    injection Ht as ->. discriminate.
  - repeat (split; [reflexivity |]).
    split; [exists (fun p => p); apply Hnochange |].
    intros [Ht | Ht]; [discriminate |].
    injection Ht as ->. discriminate.
  - repeat (split; [reflexivity |]).
    split; [eexists; reflexivity |]. intros _. split; reflexivity.
Qed.

(** ** The claims on picos, over the databases the server reaches *)


(** C9, as amended.  For an authenticated PUT /api/picos/:id on a pico of a
    database the server reaches: in every case the other tables are
    unchanged and so is every pico row of another id.  When towerLocation
    is absent or the empty string, the pico keeps its tower location and
    gets the new bases, loose units and total when these fit their integer
    columns; when they do not fit, the answer is 400 and nothing changes. *)
Theorem put_pico_frame (env : Env) (id : Z) (b : PicoUpdateBody.t)
    (s : Session) (db : DB) (pico : Pico.t) :
  reachable db ->
  JsNumber.truthy (userId s) = true ->
  In pico (picos db) ->
  Pico.id pico = id ->
  exists product : Product.t,
    In product (products db)
    /\ Product.id product = Pico.productId pico
    /\ let total :=
         PicoUpdateBody.bases b * Product.unitsPerBase product
         + PicoUpdateBody.looseUnits b in
       let out := put_api_picos_id env id b s db in
       users (snd out) = users db
       /\ products (snd out) = products db
       /\ paletizadoStock (snd out) = paletizadoStock db
       /\ activityLog (snd out) = activityLog db
       /\ (exists f : Pico.t -> Pico.t,
              picos (snd out)
              = map (fun p => if Pico.id p =? id then f p else p) (picos db))
       /\ (PicoUpdateBody.towerLocation b = None
           \/ PicoUpdateBody.towerLocation b = Some EmptyString ->
           if int4 (PicoUpdateBody.bases b)
              && int4 (PicoUpdateBody.looseUnits b) && int4 total
           then
             status (fst out) = 200
             /\ picos (snd out)
                = map (fun p =>
                         if Pico.id p =? id
                         then Pico.mk (Pico.id p) (Pico.productId p)
                                (PicoUpdateBody.bases b)
                                (PicoUpdateBody.looseUnits b) total
                                (Pico.towerLocation p) (Pico.createdAt p)
                                (now env)
                         else p) (picos db)
           else snd out = db /\ status (fst out) = 400).
Proof.
  intros Hreach Hauth Hin Hid.
  destruct (existing_pico_found db pico Hreach Hin)
    as (product & Hget & Hpin & Hpid & _).
  destruct (reachable_ids db Hreach) as (_ & _ & Hcids & _).
  rewrite Hid in Hget.
  exists product. split; [exact Hpin |]. split; [exact Hpid |].
  apply (put_pico_frame_found env id b s db pico product Hauth);
    [| exact Hget].
  rewrite <- Hid. apply Hcids, Hin.
Qed.

(** ** Startup *)

(** An insert the unique index refuses has drawn its id. *)
Lemma post_api_users_taken (env : Env) (b : InsertUser.t) (s : Session)
    (db : DB) (u : User.t) :
  JsNumber.truthy (userId s) = true ->
  isAdmin s = true ->
  In u (users db) ->
  User.username u = InsertUser.username b ->
  nextval (users_id_seq db) = true ->
  post_api_users env b s db
  = (message 400 "Invalid user data",
     withUsers (users db) (users_id_seq db + 1) db).
Proof.
  intros Hauth Hadm Hin Hname Hnext.
  unfold post_api_users. handler. rewrite Hauth, Hadm.
  unfold createUser. cbn [InsertUser.username]. rewrite Hnext.
  rewrite (existsb_In _ (users db) u Hin (proj2 (String.eqb_eq _ _) Hname)).
  reflexivity.
Qed.

Lemma getUserByUsername_None (n : string) (db : DB) :
  getUserByUsername n db = None
  <-> forall u, In u (users db) -> User.username u <> n.
Proof.
  unfold getUserByUsername. rewrite hd_error_filter_None.
  split; intros H u Hu.
  - apply String.eqb_neq, H, Hu.
  - apply String.eqb_neq, H, Hu.
Qed.

Lemma existsb_username_false (n : string) (db : DB) :
  getUserByUsername n db = None ->
  existsb (fun x => String.eqb (User.username x) n) (users db) = false.
Proof.
  unfold getUserByUsername. rewrite hd_error_filter_None. intros H.
  destruct (existsb _ (users db)) eqn:E; [| reflexivity].
  apply existsb_exists in E as (x & Hx & Hn).
  rewrite (H x Hx) in Hn. discriminate.
Qed.

(** C10, as amended.  Startup on a database with no user named admin adds
    exactly one user, provided the id sequence of the users has a value
    left: username admin, the bcrypt hash of the password admin, role
    administrador, first login pending; when the sequence has run out the
    insert fails and the database stays as it was, without an admin.
    Startup on a database that has such a user changes nothing; so a second
    startup, whatever the first one found, changes nothing. *)
Theorem default_admin_created_once (env : Env) (db : DB) :
  let db' := initializeDefaultUser env db in
  ((forall u, In u (users db) -> User.username u <> "admin"%string) ->
   if nextval (users_id_seq db)
   then
     exists u : User.t,
       users db' = users db ++ [u]
       /\ User.username u = "admin"%string
       /\ User.password u = bcrypt_hash (salt env) "admin"
       /\ User.role u = administrador
       /\ User.isFirstLogin u = Some true
   else db' = db)
  /\ ((exists u, In u (users db) /\ User.username u = "admin"%string) ->
      db' = db)
  /\ (forall env' : Env, initializeDefaultUser env' db' = db').
Proof.
  cbv zeta.
  assert (Hsome : forall e a, getUserByUsername "admin" db = Some a ->
                              initializeDefaultUser e db = db).
  { intros e a Ha. unfold initializeDefaultUser. rewrite Ha. reflexivity. }
  destruct (getUserByUsername "admin" db) as [a |] eqn:Ea.
  - rewrite (Hsome env a eq_refl). split; [| split].
    + intros Hnone. apply (proj2 (getUserByUsername_None _ _)) in Hnone.
      congruence.
    + reflexivity.
    + intros env'. apply (Hsome env' a eq_refl).
  - clear Hsome.
    pose proof (existsb_username_false "admin" db Ea) as Hex.
    assert (Hnew : forall e,
               initializeDefaultUser e db =
               snd (createUser (now e)
                      (InsertUser.mk "Administrador" "Admin" "admin"
                         (bcrypt_hash (salt e) "admin") administrador
                         (Some (Some true))) db)).
    { intros e. unfold initializeDefaultUser. rewrite Ea. reflexivity. }
    rewrite Hnew.
    unfold createUser. cbn [InsertUser.username]. rewrite Hex.
    destruct (nextval (users_id_seq db)) eqn:En; cbn [negb snd].
    + split; [| split].
      * intros _. eexists. repeat (split; [reflexivity |]). reflexivity.
      * intros (u & Hu & Hn).
        exfalso. apply (proj1 (getUserByUsername_None _ _) Ea u Hu Hn).
      * intros env'. unfold initializeDefaultUser, getUserByUsername.
        cbn [users withUsers]. rewrite filter_app.
        cbn [filter User.username InsertUser.username String.eqb Ascii.eqb
             Bool.eqb andb].
        destruct (filter _ (users db)); reflexivity.
    + split; [| split].
      * intros _. reflexivity.
      * intros _. reflexivity.
      * intros env'. rewrite Hnew. unfold createUser. rewrite En. reflexivity.
Qed.

(** ** Login *)


(** ** The tower location on the two write paths *)

(** POST /api/picos validates the tower location: a request whose tower
    location does not match the pattern persists nothing and is answered
    400, or 404 when the product code is unknown. *)
Lemma post_api_picos_validates_tower (env : Env) (b : PicoBody.t)
    (s : Session) (db : DB) (t : string) :
  JsNumber.truthy (userId s) = true ->
  PicoBody.towerLocation b = Some t ->
  towerRegex t = false ->
  snd (post_api_picos env b s db) = db
  /\ (status (fst (post_api_picos env b s db)) = 400
      \/ status (fst (post_api_picos env b s db)) = 404).
Proof.
  intros Hauth Ht Hre.
  destruct (getProductByCode (PicoBody.productCode b) db) as [product |]
    eqn:Hprod.
  - rewrite (post_api_picos_run env b s db product Hauth Hprod).
    cbv zeta. rewrite Ht, Hre. split; [reflexivity | left; reflexivity].
  - unfold post_api_picos. handler. rewrite Hauth, Hprod.
    split; [reflexivity | right; reflexivity].
Qed.

(** PUT /api/picos/:id stores whatever tower location the column takes:
    any string of one or two characters, digits or not. *)
Lemma put_api_picos_id_stores_tower (env : Env) (id : Z)
    (b : PicoUpdateBody.t) (s : Session) (db : DB) (pico : Pico.t)
    (product : Product.t) (t stored : string) :
  JsNumber.truthy (userId s) = true ->
  int4 id = true ->
  selectPico id db = Some (pico, product) ->
  PicoUpdateBody.towerLocation b = Some t ->
  t <> EmptyString ->
  varchar 2 t = Some stored ->
  int4 (PicoUpdateBody.bases b) = true ->
  int4 (PicoUpdateBody.looseUnits b) = true ->
  int4 (PicoUpdateBody.bases b * Product.unitsPerBase product
        + PicoUpdateBody.looseUnits b) = true ->
  status (fst (put_api_picos_id env id b s db)) = 200
  /\ forall p, In p (picos (snd (put_api_picos_id env id b s db))) ->
               Pico.id p = id -> Pico.towerLocation p = stored.
Proof.
  intros Hauth Hid Hget Ht Hne Hv Hb Hl Htot.
  rewrite (put_api_picos_id_run env id b s db pico product Hauth Hid Hget).
  cbv zeta. rewrite storedPico_put, Ht.
  assert (Et : String.eqb t EmptyString = false)
    by (apply String.eqb_neq, Hne).
  rewrite Et.
  destruct (int4_total (PicoUpdateBody.bases b) (Product.unitsPerBase product)
              (PicoUpdateBody.looseUnits b) Hl) as [Hsame _].
  rewrite Hb, Hl, Hsame, Htot, Hv. cbn [andb fst snd picos withPicos].
  split; [reflexivity |].
  intros p Hp Hpid. apply in_map_iff in Hp as (q & <- & _).
  destruct (Pico.id q =? id) eqn:Eq; [reflexivity |].
  apply Z.eqb_neq in Eq. contradiction.
Qed.

(** C3.  PUT /api/picos/:id does not validate the tower location: on the
    small warehouse, the request that sets the tower location of pico 1 to
    the one-character string 1, which the pattern refuses, is answered 200
    and the string is stored. *)
Theorem put_pico_stores_one_digit_tower :
  let out :=
    put_api_picos_id demoEnv 1 (PicoUpdateBody.mk 1 0 (Some "1"%string))
      demoSession demoDB in
  towerRegex "1" = false
  /\ status (fst out) = 200
  /\ map Pico.towerLocation (picos (snd out)) = ["1"%string].
Proof. cbv zeta. repeat split. Qed.

(** * Beyond the ten claims *)

(** ** The middleware *)

(** X1.  A request to any route but login and logout, from a session with
    no user id, is answered 401 and changes neither the database nor the
    session. *)
Theorem unauthenticated_request_is_refused (env : Env) (req : Request)
    (s : Session) (db : DB) :
  JsNumber.truthy (userId s) = false ->
  guarded req = true ->
  handle env req s db = (message 401 "Unauthorized", s, db).
Proof.
  intros Hauth Hg.
  destruct req; try discriminate Hg; cbn [handle];
    unfold post_api_auth_change_password, get_api_auth_user, get_api_users,
      post_api_users, put_api_users_id, delete_api_users_id,
      get_api_products, post_api_products, put_api_products_id,
      delete_api_products_id, get_api_picos, post_api_picos,
      put_api_picos_id, delete_api_picos_id, get_api_paletizado_stock,
      post_api_paletizado_stock, put_api_paletizado_stock_id,
      delete_api_paletizado_stock_id, get_api_dashboard_stats,
      requireAuth, keepSession;
    rewrite Hauth; reflexivity.
Qed.

(** X2.  A request to a route for administrators, from a session that is
    logged in but whose user is not an administrator, is answered 403 and
    changes neither the database nor the session. *)
Theorem non_admin_request_is_refused (env : Env) (req : Request)
    (s : Session) (db : DB) :
  JsNumber.truthy (userId s) = true ->
  isAdmin s = false ->
  adminOnly req = true ->
  handle env req s db = (message 403 "Admin access required", s, db).
Proof.
  intros Hauth Hadm Ha.
  destruct req; try discriminate Ha; cbn [handle];
    unfold get_api_users, post_api_users, put_api_users_id,
      delete_api_users_id, post_api_products, put_api_products_id,
      delete_api_products_id, requireAuth, requireAdmin, keepSession;
    rewrite Hauth, Hadm; reflexivity.
Qed.

(** ** The activity log *)

Lemma untouched_same {V A} (view : DB -> V) (v : V) (m : Storage A) :
  untouched view m -> keeps (fun d => view d = v) m.
Proof. intros H db Hv. rewrite H. exact Hv. Qed.

(** A handler none of whose storage calls writes the part in view. *)
Ltac same_view view :=
  repeat first
    [ apply keeps_requireAuth; [intros ? | assumption]
    | apply keeps_requireAdmin; [intros ? | assumption]
    | solve [cbv beta; cbn [snd]; assumption]
    | apply keeps_tryCatch; [| assumption]
    | apply keeps_bind; [| intros ?]
    | apply keeps_ret
    | apply keeps_throw
    | apply keeps_query
    | apply (untouched_same view); solve [untouched_op]
    | match goal with
      | |- keeps _ (match ?x with _ => _ end) => destruct x
      | |- keeps _ (let (_, _) := ?x in _) => destruct x
      end
    | assumption ].

Ltac frame_goal view :=
  match goal with
  | |- view (snd ?t) = ?v => change ((fun d => view d = v) (snd t))
  end.

Lemma quiet_routes_keep_log (env : Env) (req : Request) (s : Session)
    (db : DB) :
  logsActivity req = false ->
  logOf (snd (handle env req s db)) = logOf db.
Proof.
  intros Hq.
  assert (H : (fun d => logOf d = logOf db) db) by reflexivity.
  destruct req; try discriminate Hq; cbn [handle keepSession snd].
  - unfold post_api_auth_login.
    destruct (loginSchema b); [| reflexivity].
    destruct (getUserByUsername _ db); [| reflexivity].
    destruct (bcrypt_compare _ _); reflexivity.
  - apply (keeps_change_password (fun d => logOf d = logOf db));
      [| reflexivity].
    intros. apply (untouched_same logOf). untouched_op.
  - reflexivity.
  - unfold get_api_auth_user, uncaught. frame_goal logOf. same_view logOf.
  - unfold get_api_users. frame_goal logOf. same_view logOf.
  - unfold post_api_users. frame_goal logOf. same_view logOf.
  - unfold put_api_users_id. frame_goal logOf. same_view logOf.
  - unfold delete_api_users_id. frame_goal logOf. same_view logOf.
  - unfold get_api_products. frame_goal logOf. same_view logOf.
  - unfold post_api_products. frame_goal logOf. same_view logOf.
  - unfold put_api_products_id. frame_goal logOf. same_view logOf.
  - unfold delete_api_products_id. frame_goal logOf. same_view logOf.
  - unfold get_api_picos. frame_goal logOf. same_view logOf.
  - unfold put_api_picos_id. frame_goal logOf. same_view logOf.
  - unfold get_api_paletizado_stock. frame_goal logOf. same_view logOf.
  - unfold put_api_paletizado_stock_id. frame_goal logOf. same_view logOf.
  - unfold get_api_dashboard_stats. frame_goal logOf. same_view logOf.
Qed.

Ltac log_flag :=
  cbn [snd item_type_not_null withUsers withProducts withPicos withStock
       withActivityLog];
  first [reflexivity | assumption].

Ltac log_same :=
  split; [log_flag | left; split; [reflexivity | discriminate]].

Ltac log_grown :=
  split; [log_flag |];
  right; split; [reflexivity |]; split; [log_flag |];
  eexists; repeat (split; [reflexivity |]); reflexivity.

(** Every path through a handler that logs: the row is appended on the
    one that answers 200, and on no other. *)
Ltac log_paths :=
  unfold logEffect, insertPicoSchema, getPico, getPaletizadoStock,
    getPaletizadoStockByProductId, createPico, deletePico,
    createPaletizadoStock, updatePaletizadoStock, deletePaletizadoStock,
    createActivityLog, whereId;
  handler;
  repeat (cbn [item_type_not_null activity_log_id_seq activityLog withPicos
               withStock withActivityLog];
          match goal with
          | |- context [if ?c then _ else _] => destruct c eqn:?
          | |- context [match ?c with Some _ => _ | None => _ end] =>
              destruct c eqn:?
          | |- context [match ?c with (_, _) => _ end] =>
              is_var c; destruct c
          end);
  cbn [fst snd]; first [log_same | log_grown].

Lemma post_api_picos_logEffect (env : Env) (b : PicoBody.t) (s : Session)
    (db : DB) :
  logEffect env (POST_picos b) db (post_api_picos env b s db).
Proof. unfold post_api_picos. log_paths. Qed.

Lemma post_api_paletizado_stock_logEffect (env : Env) (b : StockBody.t)
    (s : Session) (db : DB) :
  logEffect env (POST_paletizado_stock b) db
    (post_api_paletizado_stock env b s db).
Proof. unfold post_api_paletizado_stock. log_paths. Qed.

Lemma delete_api_picos_id_logEffect (env : Env) (id : Z) (s : Session)
    (db : DB) :
  logEffect env (DELETE_picos id) db (delete_api_picos_id env id s db).
Proof. unfold delete_api_picos_id. log_paths. Qed.

Lemma delete_api_paletizado_stock_id_logEffect (env : Env) (id : Z)
    (s : Session) (db : DB) :
  logEffect env (DELETE_paletizado_stock id) db
    (delete_api_paletizado_stock_id env id s db).
Proof. unfold delete_api_paletizado_stock_id. log_paths. Qed.

(** X3.  No request rewrites the activity log or lifts the constraint on
    it.  A request leaves the log as it was, unless it is a creation or an
    elimination of a pico or of stock that is answered 200: then, and only
    then, the log has exactly one row more, of type entry for a creation
    and exit for an elimination. *)
Theorem activity_log_append_only (env : Env) (req : Request) (s : Session)
    (db : DB) :
  let out := handle env req s db in
  item_type_not_null (snd out) = item_type_not_null db
  /\ ((activityLog (snd out) = activityLog db
       /\ (logsActivity req = false \/ status (fst (fst out)) <> 200))
      \/ (logsActivity req = true
          /\ status (fst (fst out)) = 200
          /\ exists a : ActivityLog.t,
               activityLog (snd out) = activityLog db ++ [a]
               /\ ActivityLog.type a = loggedType req
               /\ ActivityLog.item_type a = None
               /\ ActivityLog.createdAt a = now env)).
Proof.
  cbv zeta.
  destruct (logsActivity req) eqn:Hl.
  - assert (H : logEffect env req db
                  (fst (fst (handle env req s db)), snd (handle env req s db))).
    { destruct req; try discriminate Hl; cbn [handle keepSession fst snd].
      - rewrite <- surjective_pairing. apply post_api_picos_logEffect.
      - rewrite <- surjective_pairing. apply delete_api_picos_id_logEffect.
      - rewrite <- surjective_pairing.
        apply post_api_paletizado_stock_logEffect.
      - rewrite <- surjective_pairing.
        apply delete_api_paletizado_stock_id_logEffect. }
    destruct H as [Hnn [[Hsame Hst] | (Hst & _ & a & Ha)]]; cbn [fst snd] in *.
    + split; [exact Hnn |]. left. split; [exact Hsame | right; exact Hst].
    + split; [exact Hnn |]. right. split; [reflexivity |].
      split; [exact Hst |]. exists a. exact Ha.
  - pose proof (quiet_routes_keep_log env req s db Hl) as H.
    unfold logOf in H. injection H as Hlog Hnn.
    split; [exact Hnn |]. left. split; [exact Hlog | left; reflexivity].
Qed.

(** X4.  Once the migration has made item_type NOT NULL, the log is frozen:
    no request adds a row, so every creation and every elimination of a
    pico or of stock is answered with an error, and the constraint stays
    in force. *)
Theorem log_frozen_after_migration (env : Env) (req : Request) (s : Session)
    (db : DB) :
  item_type_not_null db = true ->
  activityLog (snd (handle env req s db)) = activityLog db
  /\ item_type_not_null (snd (handle env req s db)) = true
  /\ (logsActivity req = true ->
      status (fst (fst (handle env req s db))) <> 200).
Proof.
  intros Hnn.
  destruct (logsActivity req) eqn:Hl.
  - assert (H : logEffect env req db
                  (fst (fst (handle env req s db)), snd (handle env req s db))).
    { destruct req; try discriminate Hl; cbn [handle keepSession fst snd].
      - rewrite <- surjective_pairing. apply post_api_picos_logEffect.
      - rewrite <- surjective_pairing. apply delete_api_picos_id_logEffect.
      - rewrite <- surjective_pairing.
        apply post_api_paletizado_stock_logEffect.
      - rewrite <- surjective_pairing.
        apply delete_api_paletizado_stock_id_logEffect. }
    destruct H as [Hk [[Hsame Hst] | (_ & Hfalse & _)]]; cbn [fst snd] in *.
    + split; [exact Hsame |]. split; [congruence | intros _; exact Hst].
    + congruence.
  - pose proof (quiet_routes_keep_log env req s db Hl) as H.
    unfold logOf in H. injection H as Hlog Hk.
    split; [exact Hlog |]. split; [congruence | discriminate].
Qed.

(** ** Users: ids and usernames *)

Lemma userInvariant_ext (db db' : DB) :
  usersOf db' = usersOf db -> userInvariant db -> userInvariant db'.
Proof.
  unfold usersOf, userInvariant. intros H. injection H as -> ->. tauto.
Qed.

Lemma untouched_keeps_users {A} (m : Storage A) :
  untouched usersOf m -> keeps userInvariant m.
Proof. intros H db. apply userInvariant_ext, H. Qed.

Lemma map_no_hit {A} (sel : A -> bool) (set : A -> A) (l : list A) :
  (forall a, In a l -> sel a = false) ->
  map (fun a => if sel a then set a else a) l = l.
Proof.
  intros H. induction l as [| a l IH]; [reflexivity |].
  cbn [map]. rewrite (H a (or_introl eq_refl)), IH; [reflexivity |].
  intros x Hx. apply H. now right.
Qed.

Lemma existsb_false_forall {A} (f : A -> bool) (l : list A) :
  existsb f l = false -> forall a, In a l -> f a = false.
Proof.
  intros H a Ha. destruct (f a) eqn:E; [| reflexivity].
  rewrite (existsb_In f l a Ha E) in H. discriminate.
Qed.

(** Renaming the row of one id keeps the names apart when no other row has
    the new name. *)
Lemma NoDup_rename {A} (idOf : A -> Z) (nameOf : A -> string) (set : A -> A)
    (i : Z) (n : string) (l : list A) :
  (forall a, nameOf (set a) = n) ->
  NoDup (map idOf l) ->
  NoDup (map nameOf l) ->
  (forall a, In a l -> idOf a <> i -> nameOf a <> n) ->
  NoDup (map nameOf (map (fun a => if idOf a =? i then set a else a) l)).
Proof.
  intros Hset Hid Hname Hfree.
  induction l as [| a l IH]; [constructor |].
  cbn [map] in *.
  inversion Hid as [| ? ? Hida Hidl]; subst.
  inversion Hname as [| ? ? Hna Hnl]; subst.
  destruct (idOf a =? i) eqn:E.
  - apply Z.eqb_eq in E.
    assert (Hrest : forall x, In x l -> (idOf x =? i) = false).
    { intros x Hx. apply Z.eqb_neq. intros Hxi. apply Hida.
      rewrite E, <- Hxi. apply in_map, Hx. }
    rewrite (map_no_hit (fun a => idOf a =? i) set l Hrest).
    constructor; [| exact Hnl].
    rewrite Hset. intros Hin. apply in_map_iff in Hin as (x & Hxn & Hx).
    apply (Hfree x (or_intror Hx)); [| exact Hxn].
    apply Z.eqb_neq, Hrest, Hx.
  - apply Z.eqb_neq in E. constructor.
    + intros Hin. apply in_map_iff in Hin as (y & Hy & Hyin).
      apply in_map_iff in Hyin as (x & Hxy & Hx). subst y.
      destruct (idOf x =? i).
      * rewrite Hset in Hy. apply (Hfree a (or_introl eq_refl) E).
        symmetry. exact Hy.
      * apply Hna. rewrite <- Hy. apply in_map, Hx.
    + apply IH; auto. intros x Hx. apply Hfree. now right.
Qed.

Lemma keeps_users_createUser now u : keeps userInvariant (createUser now u).
Proof.
  intros db (Hid & Hrange & Hseq & Hname). unfold createUser.
  destruct (negb _); cbn [snd]; [repeat split; assumption |].
  destruct (existsb _ (users db)) eqn:Etaken; cbn [snd].
  { unfold userInvariant. cbn [users users_id_seq withUsers].
    split; [exact Hid |]. split; [| split; [lia | exact Hname]].
    revert Hrange. apply Forall_impl. intros a Ha. lia. }
  unfold userInvariant. cbn [users users_id_seq withUsers].
  split; [| split; [| split]].
  - apply (NoDup_ids_app User.id _ _ (users_id_seq db)); auto.
    revert Hrange. apply Forall_impl. intros a Ha. lia.
  - apply Forall_app. split.
    + revert Hrange. apply Forall_impl. intros a Ha. lia.
    + constructor; [cbn; lia | constructor].
  - lia.
  - rewrite map_app. cbn [map User.username]. apply NoDup_app; repeat split.
    + exact Hname.
    + constructor; [intros [] | constructor].
    + intros x Hx [<- | []].
      apply in_map_iff in Hx as (a & Ha & Hin).
      pose proof (existsb_false_forall _ _ Etaken a Hin) as Hf.
      cbn beta in Hf. apply String.eqb_neq in Hf. contradiction.
Qed.

Lemma keeps_users_updateUser now id up :
  keeps userInvariant (updateUser now id up).
Proof.
  apply keeps_whereId. intros db (Hid & Hrange & Hseq & Hname). cbv beta zeta.
  destruct (existsb (fun u => User.id u =? id) (users db)) eqn:Ehit.
  2: { cbn [andb snd]. unfold userInvariant.
       cbn [users users_id_seq withUsers].
       rewrite (map_no_hit (fun u => User.id u =? id) (setUser now up)
                  (users db) (existsb_false_forall _ _ Ehit)).
       repeat split; assumption. }
  cbn [andb].
  destruct (PartialUser.username up) as [n |] eqn:En.
  - destruct (existsb (fun u => negb (User.id u =? id)
                                && String.eqb (User.username u) n)
                       (users db)) eqn:Etaken; cbn [snd];
      [repeat split; assumption |].
    unfold userInvariant. cbn [users users_id_seq withUsers].
    rewrite (map_update_same User.id (fun u => User.id u =? id))
      by reflexivity.
    split; [exact Hid |]. split; [| split; [exact Hseq |]].
    + apply Forall_map. revert Hrange. apply Forall_impl.
      intros a Ha. destruct (User.id a =? id); exact Ha.
    + apply (NoDup_rename User.id User.username (setUser now up) id n);
        auto.
      * intros a. cbn. rewrite En. reflexivity.
      * intros a Ha Hne Hn.
        pose proof (existsb_false_forall _ _ Etaken a Ha) as Hf.
        cbn beta in Hf.
        apply Z.eqb_neq in Hne. rewrite Hne in Hf. cbn [negb andb] in Hf.
        apply String.eqb_neq in Hf. contradiction.
  - cbn [snd]. unfold userInvariant. cbn [users users_id_seq withUsers].
    rewrite (map_update_same User.id (fun u => User.id u =? id))
      by reflexivity.
    rewrite (map_update_same User.username (fun u => User.id u =? id))
      by (intros a; cbn; rewrite En; reflexivity).
    split; [exact Hid |]. split; [| split; assumption].
    apply Forall_map. revert Hrange. apply Forall_impl.
    intros a Ha. destruct (User.id a =? id); exact Ha.
Qed.

Lemma keeps_users_deleteUser id : keeps userInvariant (deleteUser id).
Proof.
  apply keeps_whereId. intros db (Hid & Hrange & Hseq & Hname).
  unfold userInvariant.
  cbn [snd users users_id_seq withUsers].
  split; [apply NoDup_map_filter, Hid |].
  split; [| split; [exact Hseq | apply NoDup_map_filter, Hname]].
  apply Forall_forall. intros x Hx. apply filter_In in Hx as [Hx _].
  rewrite Forall_forall in Hrange. apply Hrange, Hx.
Qed.

Lemma keeps_users_updateUserPassword now id h :
  keeps userInvariant (updateUserPassword now id h).
Proof.
  apply keeps_whereId. intros db (Hid & Hrange & Hseq & Hname).
  unfold userInvariant.
  cbn [snd users users_id_seq withUsers].
  rewrite (map_update_same User.id (fun u => User.id u =? id)) by reflexivity.
  rewrite (map_update_same User.username (fun u => User.id u =? id))
    by reflexivity.
  split; [exact Hid |]. split; [| split; assumption].
  apply Forall_map. revert Hrange. apply Forall_impl.
  intros a Ha. destruct (User.id a =? id); exact Ha.
Qed.

Lemma userInvariant_storageKeeps : storageKeeps userInvariant.
Proof.
  unfold storageKeeps.
  repeat match goal with |- _ /\ _ => split end; intros;
    first [ apply keeps_users_createUser
          | apply keeps_users_updateUser
          | apply keeps_users_deleteUser
          | apply keeps_users_updateUserPassword
          | apply untouched_keeps_users; untouched_op ].
Qed.

Lemma reachable_userInvariant (db : DB) : reachable db -> userInvariant db.
Proof.
  apply (reachable_keeps userInvariant).
  - exact userInvariant_storageKeeps.
  - unfold userInvariant. cbn. repeat split; try constructor; lia.
  - intros d. apply userInvariant_ext.
    unfold add_item_type_to_activity_log.
    destruct (item_type_not_null d); reflexivity.
Qed.

(** ** Stock rows and their products *)

Lemma stockRefInvariant_ext (db db' : DB) :
  stockRefsOf db' = stockRefsOf db ->
  stockRefInvariant db -> stockRefInvariant db'.
Proof.
  unfold stockRefsOf, stockRefInvariant. intros H. injection H as -> ->. tauto.
Qed.

Lemma untouched_keeps_stockRefs {A} (m : Storage A) :
  untouched stockRefsOf m -> keeps stockRefInvariant m.
Proof. intros H db. apply stockRefInvariant_ext, H. Qed.

Lemma keeps_refs_createProduct now p :
  keeps stockRefInvariant (createProduct now p).
Proof.
  intros db H. unfold createProduct.
  destruct (negb _); cbn [snd]; [exact H |].
  destruct (existsb _ (products db)); cbn [snd]; [exact H |].
  unfold stockRefInvariant in *. cbn [products paletizadoStock withProducts].
  revert H. apply Forall_impl. intros a [Hq Hx]. split; [exact Hq |].
  rewrite existsb_app, Hx. reflexivity.
Qed.

Lemma keeps_refs_updateProduct now id up :
  keeps stockRefInvariant (updateProduct now id up).
Proof.
  apply keeps_whereId. intros db H. cbv beta zeta.
  match goal with
  | |- context [if ?c then _ else _] => destruct c
  end; cbn [snd]; [exact H |].
  unfold stockRefInvariant in *. cbn [products paletizadoStock withProducts].
  revert H. apply Forall_impl. intros a [Hq Hx]. split; [exact Hq |].
  rewrite (existsb_update_same Product.id (fun p => Product.id p =? id))
    by reflexivity.
  exact Hx.
Qed.

Lemma keeps_refs_deleteProduct id : keeps stockRefInvariant (deleteProduct id).
Proof.
  apply keeps_whereId. intros db H. cbv beta.
  destruct (existsb (fun p => Product.id p =? id) (products db)) eqn:Ehit;
    cbn [andb].
  - destruct (existsb (fun x => Pico.productId x =? id) (picos db));
      cbn [orb]; [exact H |].
    destruct (existsb (fun x => Stock.productId x =? id) (paletizadoStock db))
      eqn:Eref; cbn [snd]; [exact H |].
    unfold stockRefInvariant in *.
    cbn [products paletizadoStock withProducts].
    rewrite Forall_forall in H |- *. intros a Ha.
    destruct (H a Ha) as [Hq Hx]. split; [exact Hq |].
    apply existsb_exists in Hx as (x & Hx & Hid).
    apply existsb_exists. exists x. split; [| exact Hid].
    apply filter_In. split; [exact Hx |].
    apply negb_true_iff, Z.eqb_neq. intros Heq. apply Z.eqb_eq in Hid.
    pose proof (existsb_false_forall _ _ Eref a Ha) as Hf. cbn beta in Hf.
    apply Z.eqb_neq in Hf. congruence.
  - cbn [snd]. unfold stockRefInvariant in *.
    cbn [products paletizadoStock withProducts].
    rewrite Forall_forall in H |- *. intros a Ha.
    destruct (H a Ha) as [Hq Hx]. split; [exact Hq |].
    apply existsb_exists in Hx as (x & Hx & Hid).
    apply existsb_exists. exists x. split; [| exact Hid].
    apply filter_In. split; [exact Hx |].
    apply negb_true_iff.
    apply (existsb_false_forall _ _ Ehit x Hx).
Qed.

Lemma keeps_refs_createPaletizadoStock now st :
  keeps stockRefInvariant (createPaletizadoStock now st).
Proof.
  intros db H. unfold createPaletizadoStock.
  match goal with
  | |- context [if ?c then _ else (Thrown, db)] => destruct c eqn:Ec
  end; cbn [snd]; [| exact H].
  apply andb_true_iff in Ec as [Ec _].
  apply andb_true_iff in Ec as [_ Eq].
  destruct (existsb _ (products db)) eqn:Efk; cbn [snd]; [| exact H].
  unfold stockRefInvariant in *. cbn [products paletizadoStock withStock].
  apply Forall_app. split; [exact H |].
  constructor; [| constructor]. split; assumption.
Qed.

Lemma keeps_refs_updatePaletizadoStock now id q :
  keeps stockRefInvariant (updatePaletizadoStock now id q).
Proof.
  apply keeps_whereId. intros db H. cbv beta.
  destruct (int4 q) eqn:Eq; cbn [snd]; [| exact H].
  unfold stockRefInvariant in *. cbn [products paletizadoStock withStock].
  apply Forall_map. revert H. apply Forall_impl.
  intros a [Ha Hx]. destruct (Stock.id a =? id); split; assumption.
Qed.

Lemma keeps_refs_deletePaletizadoStock id :
  keeps stockRefInvariant (deletePaletizadoStock id).
Proof.
  apply keeps_whereId. intros db H. unfold stockRefInvariant in *.
  cbn [snd products paletizadoStock withStock].
  apply Forall_forall. intros x Hx. apply filter_In in Hx as [Hx _].
  rewrite Forall_forall in H. apply H, Hx.
Qed.

Lemma stockRefInvariant_storageKeeps : storageKeeps stockRefInvariant.
Proof.
  unfold storageKeeps.
  repeat match goal with |- _ /\ _ => split end; intros;
    first [ apply keeps_refs_createProduct
          | apply keeps_refs_updateProduct
          | apply keeps_refs_deleteProduct
          | apply keeps_refs_createPaletizadoStock
          | apply keeps_refs_updatePaletizadoStock
          | apply keeps_refs_deletePaletizadoStock
          | apply untouched_keeps_stockRefs; untouched_op ].
Qed.

Lemma reachable_stockRefInvariant (db : DB) :
  reachable db -> stockRefInvariant db.
Proof.
  apply (reachable_keeps stockRefInvariant).
  - exact stockRefInvariant_storageKeeps.
  - constructor.
  - intros d. apply stockRefInvariant_ext.
    unfold add_item_type_to_activity_log.
    destruct (item_type_not_null d); reflexivity.
Qed.

Lemma selectPaletizadoStock_first (id : Z) (db : DB) :
  selectPaletizadoStock id db =
  match hd_error (filter (fun s => Stock.id s =? id) (paletizadoStock db)) with
  | None => None
  | Some r =>
      match hd_error (filter (fun p => Product.id p =? Stock.productId r)
                             (products db)) with
      | Some p => Some (r, p)
      | None => None
      end
  end.
Proof.
  unfold selectPaletizadoStock.
  apply (firstJoined_leftJoin (fun s => Stock.id s =? id)).
Qed.

(** In a database the server reaches, the handlers find every stock row
    of the table, with the product it refers to. *)
Lemma existing_stock_found (db : DB) (st : Stock.t) :
  reachable db -> In st (paletizadoStock db) ->
  exists product,
    selectPaletizadoStock (Stock.id st) db = Some (st, product)
    /\ selectPaletizadoStockByProductId (Stock.productId st) db
       = Some (st, product)
    /\ In product (products db)
    /\ Product.id product = Stock.productId st
    /\ int4 (Stock.quantity st) = true.
Proof.
  intros Hreach Hin.
  destruct (reachable_stockInvariant db Hreach) as (Hp & Hi & _).
  pose proof (reachable_stockRefInvariant db Hreach) as Hfk.
  unfold stockRefInvariant in Hfk. rewrite Forall_forall in Hfk.
  destruct (Hfk st Hin) as [Hq Hx].
  apply existsb_exists in Hx as (x & Hx & Hid).
  destruct (hd_error_filter_Some
              (fun p => Product.id p =? Stock.productId st) (products db)
              x Hx Hid) as [product Hprod].
  exists product.
  rewrite selectPaletizadoStock_first, selectPaletizadoStockByProductId_first.
  rewrite (hd_error_filter_unique Stock.id (Stock.id st) (paletizadoStock db)
             st Hi Hin eq_refl).
  rewrite (hd_error_filter_unique Stock.productId (Stock.productId st)
             (paletizadoStock db) st Hp Hin eq_refl).
  rewrite Hprod.
  apply hd_error_filter_In in Hprod as [Hpin Hpid%Z.eqb_eq].
  auto.
Qed.

(** ** The other stock routes *)

(** X5.  For an authenticated DELETE /api/paletizado-stock/:id on a
    database the server reaches.  When no stock row has the id, the
    database is unchanged, and the answer is 404 for an id within the range
    of an integer column and 400 for an id outside it.  When a row has the
    id, that stock row is deleted, the others stay, and picos and products
    are unchanged; then, when the activity log takes the row (its id
    sequence has a value left and item_type is not yet NOT NULL), the
    answer is 200 and the log has exactly one row more, of type exit, with
    the quantity the stock row had and the code, description and category
    of its product; when the log refuses the row, the answer is 400, the
    log has no row more, and the stock row stays deleted. *)
Theorem delete_stock_logs_exit (env : Env) (id : Z) (s : Session) (db : DB) :
  reachable db ->
  JsNumber.truthy (userId s) = true ->
  let out := delete_api_paletizado_stock_id env id s db in
  ((forall st, In st (paletizadoStock db) -> Stock.id st <> id) ->
   snd out = db
   /\ fst out = if int4 id
                then message 404 "Stock not found"
                else message 400 "Failed to eliminate stock")
  /\ (forall st : Stock.t,
         In st (paletizadoStock db) ->
         Stock.id st = id ->
         exists product : Product.t,
           In product (products db)
           /\ Product.id product = Stock.productId st
           /\ paletizadoStock (snd out)
              = filter (fun r => negb (Stock.id r =? id)) (paletizadoStock db)
           /\ ~ In st (paletizadoStock (snd out))
           /\ picos (snd out) = picos db
           /\ products (snd out) = products db
           /\ if nextval (activity_log_id_seq db)
                 && negb (item_type_not_null db)
              then
                status (fst out) = 200
                /\ exists row : ActivityLog.t,
                     activityLog (snd out) = activityLog db ++ [row]
                     /\ ActivityLog.type row = "exit"%string
                     /\ ActivityLog.quantity row = Stock.quantity st
                     /\ ActivityLog.productCode row = Product.code product
                     /\ ActivityLog.productDescription row
                        = Product.description product
                     /\ ActivityLog.category row = Product.category product
              else
                status (fst out) = 400
                /\ activityLog (snd out) = activityLog db).
Proof.
  intros Hreach Hauth out.
  unfold out, delete_api_paletizado_stock_id, getPaletizadoStock, whereId.
  handler. rewrite Hauth. split.
  - intros Hnone.
    destruct (int4 id); [| split; reflexivity]. cbn [fst snd].
    assert (Hget : selectPaletizadoStock id db = None).
    { rewrite selectPaletizadoStock_first.
      replace (hd_error (filter (fun r => Stock.id r =? id)
                                (paletizadoStock db)))
        with (@None Stock.t); [reflexivity |].
      symmetry. apply hd_error_filter_None.
      intros x Hx. apply Z.eqb_neq, Hnone, Hx. }
    rewrite Hget. split; reflexivity.
  - intros st Hin Hid.
    destruct (existing_stock_found db st Hreach Hin)
      as (product & Hget & _ & Hpin & Hpid & Hq).
    destruct (reachable_ids db Hreach) as (_ & _ & _ & Hsids).
    rewrite <- Hid, (Hsids st Hin), Hid. cbn [fst snd].
    rewrite Hid in Hget. rewrite Hget.
    exists product. split; [exact Hpin |]. split; [exact Hpid |].
    unfold deletePaletizadoStock, whereId, createActivityLog.
    rewrite <- Hid, (Hsids st Hin), Hid.
    cbn [InsertActivityLog.quantity withStock item_type_not_null
         activity_log_id_seq fst snd].
    rewrite Hq. cbn [andb].
    assert (Hgone : ~ In st (filter (fun r => negb (Stock.id r =? id))
                                    (paletizadoStock db))).
    { intros Hstill. apply filter_In in Hstill as [_ Hne].
      rewrite Hid, Z.eqb_refl in Hne. discriminate. }
    destruct (nextval (activity_log_id_seq db));
      [destruct (item_type_not_null db) |];
      cbn [andb negb fst snd picos users products paletizadoStock
           activityLog withActivityLog status message];
      (split; [reflexivity |]); (split; [exact Hgone |]);
      repeat (split; [reflexivity |]);
      try (split; reflexivity).
    eexists. repeat (split; [reflexivity |]). reflexivity.
Qed.

(** X6.  An authenticated PUT /api/paletizado-stock/:id sets the quantity of
    the rows of that id to the quantity of the request, instead of adding
    to it, when the id and the quantity are within the range of an integer
    column, and is answered 400 with the database unchanged when either is
    not.  It never writes the activity log.  An id within the range that no
    row has is not a 404: the answer is 200 with an empty body and the
    table is as it was. *)
Theorem put_stock_sets_quantity (env : Env) (id quantity : Z) (s : Session)
    (db : DB) :
  JsNumber.truthy (userId s) = true ->
  let out := put_api_paletizado_stock_id env id quantity s db in
  activityLog (snd out) = activityLog db
  /\ products (snd out) = products db
  /\ picos (snd out) = picos db
  /\ if int4 id && int4 quantity
     then
       status (fst out) = 200
       /\ paletizadoStock (snd out)
          = map (fun r => if Stock.id r =? id
                          then Stock.mk (Stock.id r) (Stock.productId r)
                                 quantity (Stock.createdAt r) (now env)
                          else r) (paletizadoStock db)
       /\ ((forall st, In st (paletizadoStock db) -> Stock.id st <> id) ->
           paletizadoStock (snd out) = paletizadoStock db
           /\ body (fst out) = JUndefined)
     else fst out = message 400 "Failed to update stock" /\ snd out = db.
Proof.
  intros Hauth out. unfold out, put_api_paletizado_stock_id. handler.
  rewrite Hauth. unfold updatePaletizadoStock, whereId.
  destruct (int4 id); cbn [andb fst snd]; [| repeat split; reflexivity].
  destruct (int4 quantity); cbn [fst snd];
    [| repeat split; reflexivity].
  split; [reflexivity |]. split; [reflexivity |]. split; [reflexivity |].
  split; [reflexivity |]. split; [reflexivity |].
  intros Hnone.
  assert (Hsel : forall a, In a (paletizadoStock db) ->
                           (Stock.id a =? id) = false)
    by (intros a Ha; apply Z.eqb_neq, Hnone, Ha).
  cbn [paletizadoStock withStock].
  rewrite (map_no_hit (fun r => Stock.id r =? id) _ _ Hsel).
  split; [reflexivity |].
  replace (hd_error (filter (fun s0 => Stock.id s0 =? id)
                            (paletizadoStock db)))
    with (@None Stock.t); [reflexivity |].
  symmetry. apply hd_error_filter_None. exact Hsel.
Qed.

(** ** Requests in sequence *)

Lemma post_stock_increment (env : Env) (b : StockBody.t) (s : Session)
    (db : DB) (product : Product.t) (e : Stock.t) :
  reachable db ->
  JsNumber.truthy (userId s) = true ->
  getProductByCode (StockBody.productCode b) db = Some product ->
  In e (paletizadoStock db) ->
  Stock.productId e = Product.id product ->
  int4 (Stock.quantity e + StockBody.quantity b) = true ->
  paletizadoStock (snd (post_api_paletizado_stock env b s db))
  = map (fun r => if Stock.productId r =? Product.id product
                  then Stock.mk (Stock.id r) (Stock.productId r)
                         (Stock.quantity e + StockBody.quantity b)
                         (Stock.createdAt r) (now env)
                  else r) (paletizadoStock db)
  /\ products (snd (post_api_paletizado_stock env b s db)) = products db.
Proof.
  intros Hreach Hauth Hprod He Hpid Hfit.
  destruct (reachable_stockInvariant db Hreach) as (Hp & Hi & _).
  destruct (reachable_ids db Hreach) as (_ & Hpids & _ & Hsids).
  rewrite (post_api_paletizado_stock_run env b s db product Hauth Hprod)
    by (apply Hpids; apply getProductByCode_In in Hprod; tauto).
  cbv zeta.
  rewrite (hd_error_filter_unique Stock.productId (Product.id product)
             (paletizadoStock db) e Hp He Hpid).
  destruct (int4_add (Stock.quantity e) (StockBody.quantity b))
    as [Hsame Hexact].
  rewrite (Hsids e He), Hsame, Hfit, (Hexact Hfit). cbn [andb].
  assert (Hrows :
            map (fun r => if Stock.id r =? Stock.id e
                          then Stock.mk (Stock.id r) (Stock.productId r)
                                 (Stock.quantity e + StockBody.quantity b)
                                 (Stock.createdAt r) (now env)
                          else r) (paletizadoStock db) =
            map (fun r => if Stock.productId r =? Product.id product
                          then Stock.mk (Stock.id r) (Stock.productId r)
                                 (Stock.quantity e + StockBody.quantity b)
                                 (Stock.createdAt r) (now env)
                          else r) (paletizadoStock db)).
  { apply map_ext_in. intros r Hr.
    destruct (Stock.id r =? Stock.id e) eqn:E1;
      destruct (Stock.productId r =? Product.id product) eqn:E2;
      try reflexivity; exfalso.
    - apply Z.eqb_eq in E1. apply Z.eqb_neq in E2. apply E2.
      rewrite (NoDup_map_inj Stock.id _ r e Hi Hr He E1). exact Hpid.
    - apply Z.eqb_eq in E2. apply Z.eqb_neq in E1. apply E1.
      f_equal. apply (NoDup_map_inj Stock.productId _ r e Hp Hr He).
      congruence. }
  destruct (int4 (StockBody.quantity b) && nextval (activity_log_id_seq db));
    [destruct (item_type_not_null db) |];
    cbn [snd paletizadoStock products withStock withActivityLog];
    rewrite Hrows; split; reflexivity.
Qed.

Lemma getProductByCode_same_products (c : string) (db db' : DB) :
  products db' = products db ->
  getProductByCode c db' = getProductByCode c db.
Proof. unfold getProductByCode. intros ->. reflexivity. Qed.

(** X7.  Stock requests for one product add up.  On a database the server
    reaches, two authenticated POST /api/paletizado-stock for a product
    whose row has quantity q, asking for d1 and then d2, leave that row,
    and no other, at q + d1 + d2, provided both sums fit the integer
    column; the table has no row more than before. *)
Theorem stock_increments_add_up (env1 env2 : Env) (code : string)
    (d1 d2 : Z) (s : Session) (db : DB) (product : Product.t) (e : Stock.t) :
  reachable db ->
  JsNumber.truthy (userId s) = true ->
  getProductByCode code db = Some product ->
  In e (paletizadoStock db) ->
  Stock.productId e = Product.id product ->
  int4 (Stock.quantity e + d1) = true ->
  int4 (Stock.quantity e + d1 + d2) = true ->
  let db1 := snd (post_api_paletizado_stock env1 (StockBody.mk code d1) s db) in
  let db2 := snd (post_api_paletizado_stock env2 (StockBody.mk code d2) s db1) in
  paletizadoStock db2
  = map (fun r => if Stock.productId r =? Product.id product
                  then Stock.mk (Stock.id r) (Stock.productId r)
                         (Stock.quantity e + d1 + d2) (Stock.createdAt r)
                         (now env2)
                  else r) (paletizadoStock db).
Proof.
  intros Hreach Hauth Hprod He Hpid Hfit1 Hfit2 db1 db2.
  destruct (post_stock_increment env1 (StockBody.mk code d1) s db product e
              Hreach Hauth Hprod He Hpid Hfit1)
    as [Hrows1 Hprods1].
  fold db1 in Hrows1, Hprods1. cbn [StockBody.quantity] in Hrows1.
  assert (Hreach1 : reachable db1).
  { exact (reach_request env1 (POST_paletizado_stock (StockBody.mk code d1))
             s db Hreach). }
  set (e1 := Stock.mk (Stock.id e) (Stock.productId e)
               (Stock.quantity e + d1) (Stock.createdAt e) (now env1)).
  assert (He1 : In e1 (paletizadoStock db1)).
  { rewrite Hrows1. apply in_map_iff. exists e. split; [| exact He].
    cbv beta.
    replace (Stock.productId e =? Product.id product) with true
      by (symmetry; apply Z.eqb_eq, Hpid).
    reflexivity. }
  assert (Hprod1 : getProductByCode code db1 = Some product)
    by (rewrite (getProductByCode_same_products code db db1 Hprods1);
        exact Hprod).
  destruct (post_stock_increment env2 (StockBody.mk code d2) s db1 product e1
              Hreach1 Hauth Hprod1 He1 Hpid Hfit2) as [Hrows2 _].
  fold db2 in Hrows2. cbn [StockBody.quantity Stock.quantity e1] in Hrows2.
  rewrite Hrows2, Hrows1, map_map. apply map_ext.
  intros r. destruct (Stock.productId r =? Product.id product) eqn:E.
  - cbn [Stock.productId]. rewrite E. reflexivity.
  - rewrite E. reflexivity.
Qed.

Lemma filter_fresh {A} (idOf : A -> Z) (l : list A) (next : Z) :
  Forall (fun a => idOf a < next) l ->
  filter (fun a => idOf a =? next) l = []
  /\ filter (fun a => negb (idOf a =? next)) l = l.
Proof.
  induction 1 as [| a l Ha _ [IH1 IH2]]; [split; reflexivity |].
  cbn [filter].
  replace (idOf a =? next) with false by (symmetry; apply Z.eqb_neq; lia).
  cbn [negb]. rewrite IH1, IH2. split; reflexivity.
Qed.

Lemma nextval_before (seq : Z) :
  nextval (seq + 1) = true -> nextval seq = true.
Proof. unfold nextval. rewrite !Z.leb_le. lia. Qed.

(** X8.  Creating a pico and eliminating it again is a round trip on the
    pico table.  On a database the server reaches, whose activity log takes
    rows, an accepted POST /api/picos followed by DELETE /api/picos/:id of
    the id it was given leaves the pico table as it was and the log two
    rows longer: an entry and an exit of the same product and the same
    quantity, bases * unitsPerBase + looseUnits.  That is when the id
    sequences have values left, one for the pico and two for the log; when
    they have not, one of the two requests is answered 400. *)
Theorem pico_create_then_eliminate (env1 env2 : Env) (b : PicoBody.t)
    (s : Session) (db : DB) (product : Product.t) (t : string) :
  reachable db ->
  JsNumber.truthy (userId s) = true ->
  item_type_not_null db = false ->
  getProductByCode (PicoBody.productCode b) db = Some product ->
  PicoBody.towerLocation b = Some t ->
  towerRegex t = true ->
  int4 (PicoBody.bases b) = true ->
  int4 (PicoBody.looseUnits b) = true ->
  int4 (PicoBody.bases b * Product.unitsPerBase product
        + PicoBody.looseUnits b) = true ->
  let total :=
    PicoBody.bases b * Product.unitsPerBase product + PicoBody.looseUnits b in
  let created := post_api_picos env1 b s db in
  let eliminated :=
    delete_api_picos_id env2 (picos_id_seq db) s (snd created) in
  if nextval (picos_id_seq db) && nextval (activity_log_id_seq db + 1)
  then
    status (fst created) = 200
    /\ status (fst eliminated) = 200
    /\ picos (snd eliminated) = picos db
    /\ products (snd eliminated) = products db
    /\ paletizadoStock (snd eliminated) = paletizadoStock db
    /\ activityLog (snd eliminated)
       = activityLog db ++
         [ActivityLog.mk (activity_log_id_seq db) "entry"
            (Product.code product) (Product.description product) total
            (Product.category product) (now env1) None;
          ActivityLog.mk (activity_log_id_seq db + 1) "exit"
            (Product.code product) (Product.description product) total
            (Product.category product) (now env2) None]
  else status (fst created) = 400 \/ status (fst eliminated) = 400.
Proof.
  intros Hreach Hauth Hnn Hprod Ht Hre Hb Hl Htot total created eliminated.
  destruct (reachable_picoInvariant db Hreach) as (Hpk & _ & _ & Hlt & _).
  destruct (reachable_ids db Hreach) as (_ & Hpids & _ & _).
  destruct (int4_total (PicoBody.bases b) (Product.unitsPerBase product)
              (PicoBody.looseUnits b) Hl) as [Hsame Hexact].
  fold total in Hsame, Hexact, Htot.
  unfold eliminated, created.
  rewrite (post_api_picos_run env1 b s db product Hauth Hprod). cbv zeta.
  apply getProductByCode_In in Hprod as [Hin _].
  rewrite Ht, Hre, (Hpids product Hin), Hb, Hl, Hsame, Htot, Hnn,
    (Hexact Htot).
  cbn [andb].
  destruct (nextval (picos_id_seq db)) eqn:Hseq; cbn [andb];
    [| destruct (nextval _); left; reflexivity].
  assert (Hidseq : int4 (picos_id_seq db) = true).
  { destruct (reachable_rangeInvariant db Hreach) as (_ & _ & [Hc _] & _).
    unfold nextval in Hseq. apply Z.leb_le in Hseq.
    apply int4_true. lia. }
  destruct (nextval (activity_log_id_seq db)) eqn:Hlog1.
  2: { replace (nextval (activity_log_id_seq db + 1)) with false;
         [left; reflexivity |].
       symmetry. destruct (nextval (activity_log_id_seq db + 1)) eqn:E;
         [| reflexivity].
       rewrite (nextval_before _ E) in Hlog1. discriminate Hlog1. }
  set (row := Pico.mk (picos_id_seq db) (Product.id product)
                (PicoBody.bases b) (PicoBody.looseUnits b) total t
                (now env1) (now env1)).
  destruct (filter_fresh Pico.id (picos db) (picos_id_seq db) Hlt)
    as [Hnone Hall].
  assert (Hstep :
            delete_api_picos_id env2 (picos_id_seq db) s
              (withActivityLog
                 (activityLog db ++
                  [ActivityLog.mk (activity_log_id_seq db) "entry"
                     (Product.code product) (Product.description product)
                     total (Product.category product) (now env1) None])
                 (activity_log_id_seq db + 1)
                 (withPicos (picos db ++ [row]) (picos_id_seq db + 1) db))
            = tryCatch
                (createActivityLog (now env2)
                   (InsertActivityLog.mk "exit" (Product.code product)
                      (Product.description product) total
                      (Product.category product)) ;;;
                 ret (message 200 "Pico eliminated successfully"))
                (message 400 "Failed to eliminate pico")
                (withActivityLog
                   (activityLog db ++
                    [ActivityLog.mk (activity_log_id_seq db) "entry"
                       (Product.code product) (Product.description product)
                       total (Product.category product) (now env1) None])
                   (activity_log_id_seq db + 1)
                   (withPicos (picos db) (picos_id_seq db + 1) db))).
  { unfold delete_api_picos_id, getPico, whereId. handler.
    rewrite Hauth, Hidseq. cbn [fst snd].
    rewrite selectPico_first.
    cbn [picos products withPicos withActivityLog].
    rewrite filter_app, Hnone. cbn [filter app Pico.id row].
    rewrite Z.eqb_refl. cbn [hd_error].
    change (Pico.productId row) with (Product.id product).
    rewrite (hd_error_filter_unique Product.id (Product.id product)
               (products db) product Hpk Hin eq_refl).
    unfold deletePico, whereId. rewrite Hidseq.
    cbn [fst snd picos withPicos withActivityLog].
    rewrite filter_app, Hall. cbn [filter].
    change (Pico.id row) with (picos_id_seq db). rewrite Z.eqb_refl.
    cbn [negb]. rewrite app_nil_r. reflexivity. }
  cbn [fst snd]. rewrite Hstep.
  unfold createActivityLog. handler.
  cbn [InsertActivityLog.quantity item_type_not_null activity_log_id_seq
       withPicos withActivityLog].
  rewrite Htot, Hnn. cbn [andb].
  destruct (nextval (activity_log_id_seq db + 1)); cbn [fst snd];
    [| right; reflexivity].
  cbn [picos products paletizadoStock activityLog withPicos withActivityLog].
  rewrite <- app_assoc. repeat split.
Qed.

(** ** Users *)

Lemma getUserByUsername_unique (db : DB) (u : User.t) :
  NoDup (map User.username (users db)) -> In u (users db) ->
  getUserByUsername (User.username u) db = Some u.
Proof.
  intros Hnd Hin. unfold getUserByUsername.
  destruct (hd_error_filter_Some
              (fun x => String.eqb (User.username x) (User.username u))
              (users db) u Hin (String.eqb_refl _)) as [y Hy].
  rewrite Hy. f_equal.
  apply hd_error_filter_In in Hy as [Hyin Hyn%String.eqb_eq].
  apply (NoDup_map_inj User.username (users db)); auto.
Qed.

Lemma selectUser_unique (db : DB) (u : User.t) :
  NoDup (map User.id (users db)) -> In u (users db) ->
  selectUser (User.id u) db = Some u.
Proof.
  intros Hnd Hin.
  apply (hd_error_filter_unique User.id (User.id u) (users db) u Hnd Hin).
  reflexivity.
Qed.

Lemma getUserByUsername_In (n : string) (db : DB) (u : User.t) :
  getUserByUsername n db = Some u -> In u (users db) /\ User.username u = n.
Proof.
  intros H. apply hd_error_filter_In in H as [Hin Hn%String.eqb_eq]. auto.
Qed.

Lemma string_length_pos (s : string) (n : nat) :
  (S n <=? String.length s)%nat = true -> s <> EmptyString.
Proof. intros H ->. discriminate H. Qed.



(** X11.  Deleting a user does not end the sessions of that user.  An
    administrator's DELETE /api/users/:id with an id within the range of an
    integer column is answered 200 and removes the users of that id,
    whether there are any or not; with an id outside the range it is
    answered 400 and changes nothing.  When the id is the administrator's
    own, the session still passes both middlewares, so GET /api/users is
    still answered 200, while GET /api/auth/user finds no user any more and
    answers 404. *)
Theorem deleted_user_keeps_session (id : Z) (s : Session) (db : DB) :
  JsNumber.truthy (userId s) = true ->
  isAdmin s = true ->
  let out := delete_api_users_id id s db in
  if int4 id
  then
    fst out = message 200 "User deleted successfully"
    /\ users (snd out) = filter (fun u => negb (User.id u =? id)) (users db)
    /\ (userId s = Some id ->
        get_api_auth_user s (snd out)
        = (message 404 "User not found", snd out)
        /\ get_api_users s (snd out)
           = (json (JArr (map (fun u => withoutPassword (Some u))
                              (getAllUsers (snd out)))), snd out))
  else
    fst out = message 400 "Failed to delete user" /\ snd out = db.
Proof.
  intros Hauth Hadm out. unfold out, delete_api_users_id. handler.
  rewrite Hauth, Hadm. unfold deleteUser, whereId.
  destruct (int4 id) eqn:Hint; cbn [fst snd users withUsers];
    [| split; reflexivity].
  split; [reflexivity |]. split; [reflexivity |].
  intros Hid. unfold get_api_auth_user, get_api_users, getUser, whereId.
  handler.
  rewrite Hauth, Hadm, Hid. cbn [orElse]. rewrite Hint. cbn [fst snd].
  split; [| reflexivity].
  unfold selectUser. cbn [users withUsers].
  assert (Hnone : hd_error
                    (filter (fun u => User.id u =? id)
                       (filter (fun u => negb (User.id u =? id)) (users db)))
                  = None).
  { apply hd_error_filter_None. intros x Hx.
    apply filter_In in Hx as [_ Hx]. now apply negb_true_iff in Hx. }
  rewrite Hnone. reflexivity.
Qed.

(** X12.  A product in use cannot be deleted.  For an administrator and a
    product of the table, DELETE /api/products/:id is answered 400 and
    changes nothing when a pico or a stock row refers to the product;
    otherwise it is answered 200 and removes the product, and only it, when
    ids are unique.  That is for an id within the range of an integer
    column, as the ids of stored products are; for one outside it the
    answer is 400 and nothing changes. *)
Theorem delete_product_respects_references (id : Z) (s : Session) (db : DB)
    (p : Product.t) :
  JsNumber.truthy (userId s) = true ->
  isAdmin s = true ->
  In p (products db) ->
  Product.id p = id ->
  let out := delete_api_products_id id s db in
  ((exists x, In x (picos db) /\ Pico.productId x = id)
   \/ (exists st, In st (paletizadoStock db) /\ Stock.productId st = id) ->
   out = (message 400 "Failed to delete product", db))
  /\ ((forall x, In x (picos db) -> Pico.productId x <> id) ->
      (forall st, In st (paletizadoStock db) -> Stock.productId st <> id) ->
      if int4 id
      then
        fst out = message 200 "Product deleted successfully"
        /\ products (snd out)
           = filter (fun q => negb (Product.id q =? id)) (products db)
        /\ ~ In p (products (snd out))
        /\ picos (snd out) = picos db
        /\ paletizadoStock (snd out) = paletizadoStock db
      else out = (message 400 "Failed to delete product", db)).
Proof.
  intros Hauth Hadm Hin Hid out.
  unfold out, delete_api_products_id. handler.
  rewrite Hauth, Hadm. unfold deleteProduct, whereId.
  destruct (int4 id); [| split; intros; reflexivity].
  rewrite (existsb_In (fun q => Product.id q =? id) (products db) p Hin)
    by (apply Z.eqb_eq, Hid).
  cbn [andb]. split.
  - intros [(x & Hx & Hr) | (st & Hst & Hr)].
    + rewrite (existsb_In (fun x => Pico.productId x =? id) (picos db) x Hx)
        by (apply Z.eqb_eq, Hr).
      reflexivity.
    + rewrite (existsb_In (fun x => Stock.productId x =? id)
                 (paletizadoStock db) st Hst) by (apply Z.eqb_eq, Hr).
      rewrite orb_true_r. reflexivity.
  - intros Hp Hs.
    assert (H1 : existsb (fun x => Pico.productId x =? id) (picos db) = false).
    { destruct (existsb _ (picos db)) eqn:E; [| reflexivity].
      apply existsb_exists in E as (x & Hx & Hr%Z.eqb_eq).
      exfalso. exact (Hp x Hx Hr). }
    assert (H2 : existsb (fun x => Stock.productId x =? id)
                   (paletizadoStock db) = false).
    { destruct (existsb _ (paletizadoStock db)) eqn:E; [| reflexivity].
      apply existsb_exists in E as (x & Hx & Hr%Z.eqb_eq).
      exfalso. exact (Hs x Hx Hr). }
    rewrite H1, H2. cbn [orb fst snd products withProducts].
    split; [reflexivity |]. split; [reflexivity |].
    split; [| split; reflexivity].
    intros Hf. apply filter_In in Hf as [_ Hf].
    apply negb_true_iff, Z.eqb_neq in Hf. exact (Hf Hid).
Qed.

(** X13.  PUT /api/products/:id writes the products table only: picos,
    stock and log are as before, whatever the answer.  So when it changes
    the units per base of a product, the picos of that product keep the
    total stored with them, now next to the new units per base. *)
Theorem product_update_leaves_pico_totals (env : Env) (id : Z)
    (up : PartialProduct.t) (s : Session) (db : DB) :
  reachable db ->
  JsNumber.truthy (userId s) = true ->
  isAdmin s = true ->
  let out := put_api_products_id env id up s db in
  picos (snd out) = picos db
  /\ paletizadoStock (snd out) = paletizadoStock db
  /\ activityLog (snd out) = activityLog db
  /\ forall (x : Pico.t) (u : Z),
       In x (picos db) ->
       Pico.productId x = id ->
       PartialProduct.unitsPerBase up = Some u ->
       status (fst out) = 200 ->
       exists p' : Product.t,
         getPico (Pico.id x) (snd out) = (Returned (Some (x, p')), snd out)
         /\ Product.id p' = id
         /\ Product.unitsPerBase p' = u.
Proof.
  intros Hreach Hauth Hadm out.
  assert (Hreach' : reachable (snd out))
    by exact (reach_request env (PUT_products id up) s db Hreach).
  assert (Hframe : picos (snd out) = picos db
                   /\ paletizadoStock (snd out) = paletizadoStock db
                   /\ activityLog (snd out) = activityLog db).
  { unfold out, put_api_products_id. handler. rewrite Hauth, Hadm.
    unfold updateProduct, whereId. cbv zeta.
    destruct (int4 id); [| repeat split; reflexivity].
    destruct (negb _ || _); cbn [fst snd]; repeat split; reflexivity. }
  destruct Hframe as (Hp & Hs & Hl).
  split; [exact Hp |]. split; [exact Hs |]. split; [exact Hl |].
  intros x u Hx Hpid Hu H200.
  assert (Hx' : In x (picos (snd out))) by (rewrite Hp; exact Hx).
  destruct (existing_pico_found (snd out) x Hreach' Hx')
    as (p' & Hget & Hin' & Hid' & _).
  exists p'. split.
  { unfold getPico. rewrite whereId_in; [unfold query; rewrite Hget |];
      [reflexivity |].
    apply (reachable_ids _ Hreach'), Hx'. }
  split; [rewrite Hid'; exact Hpid |].
  revert Hin' H200. unfold out, put_api_products_id. handler.
  rewrite Hauth, Hadm. unfold updateProduct, whereId. cbv zeta.
  destruct (int4 id); cbn [fst snd status message json];
    [| intros _ H; discriminate H].
  destruct (negb _ || _); cbn [fst snd status message json];
    [intros _ H; discriminate H |].
  cbn [products withProducts]. intros Hin' _.
  apply in_map_iff in Hin' as (p0 & Hp0 & _).
  destruct (Product.id p0 =? id) eqn:E.
  - subst p'. cbn. rewrite Hu. reflexivity.
  - subst p'. apply Z.eqb_neq in E. exfalso. apply E.
    rewrite Hid'. exact Hpid.
Qed.

(** ** Sessions *)

Lemma user_id_truthy (db : DB) (u : User.t) :
  reachable db -> In u (users db) ->
  JsNumber.truthy (Some (User.id u)) = true.
Proof.
  intros Hreach Hin.
  destruct (reachable_userInvariant db Hreach) as (_ & Hr & _).
  rewrite Forall_forall in Hr. specialize (Hr u Hin).
  cbn. apply negb_true_iff, Z.eqb_neq. lia.
Qed.

(** X14.  A session from login to logout.  A login answered 200 leaves the
    database as it was and is for a stored user of that username whose
    password bcrypt accepts; with the session it opens, GET /api/auth/user
    is answered with that very user, without the password; after
    POST /api/auth/logout the same request is answered 401. *)
Theorem login_user_logout (b : LoginData.t) (s0 : Session) (db : DB) :
  reachable db ->
  let login := post_api_auth_login b s0 db in
  status (fst (fst login)) = 200 ->
  snd login = db
  /\ exists u : User.t,
       In u (users db)
       /\ User.username u = LoginData.username b
       /\ bcrypt_compare (LoginData.password b) (User.password u) = true
       /\ snd (fst login) = mkSession (Some (User.id u)) (Some u)
       /\ get_api_auth_user (snd (fst login)) db
          = (json (withoutPassword (Some u)), db)
       /\ hasField "password"
            (stringify (body (fst (get_api_auth_user
                                     (snd (fst login)) db)))) = false
       /\ let logout := post_api_auth_logout (snd (fst login)) db in
          status (fst (fst logout)) = 200
          /\ snd logout = db
          /\ get_api_auth_user (snd (fst logout)) db
             = (message 401 "Unauthorized", db).
Proof.
  intros Hreach login. unfold login, post_api_auth_login.
  destruct (loginSchema b); [| intros H; discriminate H].
  destruct (getUserByUsername (LoginData.username b) db) as [u |] eqn:Eu;
    [| intros H; discriminate H].
  destruct (bcrypt_compare (LoginData.password b) (User.password u)) eqn:Ec;
    [| intros H; discriminate H].
  intros _. cbn [fst snd]. split; [reflexivity |].
  apply getUserByUsername_In in Eu as [Hin Hn].
  exists u. split; [exact Hin |]. split; [exact Hn |].
  split; [exact Ec |]. split; [reflexivity |].
  assert (Hget : get_api_auth_user (mkSession (Some (User.id u)) (Some u)) db
                 = (json (withoutPassword (Some u)), db)).
  { unfold get_api_auth_user, getUser, whereId. handler. cbn [userId orElse].
    rewrite (user_id_truthy db u Hreach Hin).
    destruct (reachable_ids db Hreach) as (Huids & _).
    rewrite (proj1 (Huids u Hin)). cbn [fst snd].
    destruct (reachable_userInvariant db Hreach) as (Hids & _).
    rewrite (selectUser_unique db u Hids Hin). reflexivity. }
  split; [exact Hget |]. split.
  - rewrite Hget. cbn [fst body json]. apply withoutPassword_clean.
  - cbv zeta. unfold post_api_auth_logout. cbn [fst snd].
    repeat split; reflexivity.
Qed.

Lemma loginSchema_nonempty (n p : string) :
  n <> EmptyString -> p <> EmptyString ->
  loginSchema (LoginData.mk n p) = true.
Proof.
  intros Hn Hp. unfold loginSchema. cbn [LoginData.username LoginData.password].
  destruct n; [contradiction |]. destruct p; [contradiction |]. reflexivity.
Qed.

(** X15.  After POST /api/auth/change-password the new password logs in.
    For the session of a stored user and a body the schema accepts, the
    answer is 200; that user, and no other, now has the bcrypt hash of the
    new password and is no longer on first login; the session holds the
    updated user; and a login with the username and the new password is
    answered 200 as that user, provided bcrypt recognises the hash it has
    made, unless the username is empty: then the login schema refuses the
    body and the answer is 400, the session as it was. *)
Theorem changed_password_logs_in (env : Env) (b : PasswordChangeData.t)
    (s s0 : Session) (db : DB) (u : User.t) :
  reachable db ->
  In u (users db) ->
  userId s = Some (User.id u) ->
  passwordChangeSchema b = true ->
  bcrypt_compare (PasswordChangeData.newPassword b)
    (bcrypt_hash (salt env) (PasswordChangeData.newPassword b)) = true ->
  let out := post_api_auth_change_password env b s db in
  let u' := User.mk (User.id u) (User.name u) (User.nickname u)
              (User.username u)
              (bcrypt_hash (salt env) (PasswordChangeData.newPassword b))
              (User.role u) (Some false) (User.createdAt u) (now env) in
  let login :=
    post_api_auth_login
      (LoginData.mk (User.username u) (PasswordChangeData.newPassword b))
      s0 (snd out) in
  status (fst (fst out)) = 200
  /\ users (snd out)
     = map (fun x => if User.id x =? User.id u then u' else x) (users db)
  /\ In u' (users (snd out))
  /\ snd (fst out) = mkSession (Some (User.id u)) (Some u')
  /\ if String.eqb (User.username u) EmptyString
     then status (fst (fst login)) = 400 /\ snd (fst login) = s0
     else status (fst (fst login)) = 200
          /\ snd (fst login) = mkSession (Some (User.id u)) (Some u').
Proof.
  intros Hreach Hin Hs Hschema Hbc out u' login.
  assert (Hreach' : reachable (snd out))
    by exact (reach_request env (POST_auth_change_password b) s db Hreach).
  destruct (reachable_userInvariant db Hreach) as (Hids & _).
  destruct (reachable_userInvariant _ Hreach') as (Hids' & _ & _ & Hnames').
  destruct (reachable_ids db Hreach) as (Huids & _).
  pose proof (proj1 (Huids u Hin)) as Hint.
  assert (Hmap : map (fun x =>
                        if User.id x =? User.id u
                        then User.mk (User.id x) (User.name x)
                               (User.nickname x) (User.username x)
                               (bcrypt_hash (salt env)
                                  (PasswordChangeData.newPassword b))
                               (User.role x) (Some false) (User.createdAt x)
                               (now env)
                        else x) (users db)
                 = map (fun x => if User.id x =? User.id u then u' else x)
                       (users db)).
  { apply map_ext_in. intros x Hx.
    destruct (User.id x =? User.id u) eqn:E; [| reflexivity].
    apply Z.eqb_eq in E.
    rewrite (NoDup_map_inj User.id (users db) x u Hids Hx Hin E).
    reflexivity. }
  assert (Hout : out
                 = (json (JObj [("message"%string,
                                 JStr "Senha alterada com sucesso")]),
                    mkSession (Some (User.id u))
                      (selectUser (User.id u) (snd out)),
                    withUsers
                      (map (fun x => if User.id x =? User.id u then u' else x)
                           (users db))
                      (users_id_seq db) db)).
  { unfold out, post_api_auth_change_password.
    rewrite Hs, (user_id_truthy db u Hreach Hin), Hschema.
    cbn [orElse]. unfold updateUserPassword, getUser, whereId, bind, query.
    rewrite Hint. cbn [fst snd].
    rewrite Hmap. reflexivity. }
  assert (Husers : users (snd out)
                   = map (fun x => if User.id x =? User.id u then u' else x)
                         (users db))
    by (rewrite Hout; reflexivity).
  assert (Hin' : In u' (users (snd out))).
  { rewrite Husers. apply in_map_iff. exists u. split; [| exact Hin].
    rewrite Z.eqb_refl. reflexivity. }
  assert (Hget : selectUser (User.id u) (snd out) = Some u')
    by exact (selectUser_unique (snd out) u' Hids' Hin').
  split; [rewrite Hout; reflexivity |].
  split; [exact Husers |]. split; [exact Hin' |].
  split; [rewrite Hout at 1; cbn [fst snd]; rewrite Hget; reflexivity |].
  assert (Hpw : PasswordChangeData.newPassword b <> EmptyString).
  { unfold passwordChangeSchema in Hschema.
    apply andb_true_iff in Hschema as [Hschema _].
    apply andb_true_iff in Hschema as [Hlen _].
    intros E. rewrite E in Hlen. discriminate Hlen. }
  destruct (String.eqb (User.username u) EmptyString) eqn:Ename.
  - apply String.eqb_eq in Ename.
    unfold login, post_api_auth_login, loginSchema.
    cbn [LoginData.username]. rewrite Ename. split; reflexivity.
  - apply String.eqb_neq in Ename.
    assert (Hlogin : login
                     = (json (JObj [("user"%string,
                                     withoutPassword (Some u'));
                                    ("isFirstLogin"%string, JBool false)]),
                        mkSession (Some (User.id u)) (Some u'), snd out)).
    { unfold login, post_api_auth_login.
      rewrite (loginSchema_nonempty _ _ Ename Hpw).
      cbn [LoginData.username LoginData.password].
      change (User.username u) with (User.username u').
      rewrite (getUserByUsername_unique (snd out) u' Hnames' Hin').
      change (User.password u')
        with (bcrypt_hash (salt env) (PasswordChangeData.newPassword b)).
      rewrite Hbc. reflexivity. }
    rewrite Hlogin. split; reflexivity.
Qed.

(** X16.  POST /api/auth/change-password does not check that the user of
    the session still exists.  When no user has the id of the session, a
    body the schema accepts is still answered 200, "Senha alterada com
    sucesso", no user is changed, and the session is left without a user,
    so that the administrator routes answer 403 from then on.  That is for
    a session id within the range of an integer column, as every login
    stores; for one outside it the answer is 400 and neither the database
    nor the session changes. *)
Theorem change_password_of_missing_user (env : Env)
    (b : PasswordChangeData.t) (s : Session) (db : DB) :
  JsNumber.truthy (userId s) = true ->
  passwordChangeSchema b = true ->
  (forall x, In x (users db) -> Some (User.id x) <> userId s) ->
  let out := post_api_auth_change_password env b s db in
  if int4 (orElse (userId s) 0)
  then
    fst (fst out)
    = json (JObj [("message"%string, JStr "Senha alterada com sucesso")])
    /\ users (snd out) = users db
    /\ snd (fst out) = mkSession (userId s) None
    /\ forall env' req,
         adminOnly req = true ->
         handle env' req (snd (fst out)) (snd out)
         = (message 403 "Admin access required", snd (fst out), snd out)
  else out = (message 400 "Invalid request data", s, db).
Proof.
  intros Hauth Hschema Hnone out.
  destruct (int4 (orElse (userId s) 0)) eqn:Hint.
  2: { unfold out, post_api_auth_change_password.
       rewrite Hauth, Hschema.
       unfold updateUserPassword, getUser, whereId, bind.
       rewrite Hint. reflexivity. }
  assert (Hmap : forall h,
             map (fun x =>
                    if User.id x =? orElse (userId s) 0
                    then User.mk (User.id x) (User.name x) (User.nickname x)
                           (User.username x) h (User.role x) (Some false)
                           (User.createdAt x) (now env)
                    else x) (users db) = users db).
  { intros h. rewrite <- (map_id (users db)) at 2.
    apply map_ext_in. intros x Hx.
    destruct (User.id x =? orElse (userId s) 0) eqn:E; [| reflexivity].
    exfalso. apply (Hnone x Hx). apply Z.eqb_eq in E.
    destruct (userId s) as [i |]; [| discriminate Hauth].
    cbn in E. now rewrite E. }
  assert (Hout : fst (fst out)
                 = json (JObj [("message"%string,
                                JStr "Senha alterada com sucesso")])
                 /\ users (snd out) = users db
                 /\ snd (fst out) = mkSession (userId s) None).
  { unfold out, post_api_auth_change_password.
    rewrite Hauth, Hschema.
    unfold updateUserPassword, getUser, whereId, bind, query.
    rewrite Hint.
    cbn [fst snd users withUsers]. rewrite Hmap.
    split; [reflexivity |]. split; [reflexivity |].
    f_equal. unfold selectUser. cbn [users withUsers].
    apply hd_error_filter_None. intros x Hx.
    apply Z.eqb_neq. intros E. apply (Hnone x Hx).
    destruct (userId s) as [i |]; [| discriminate Hauth].
    cbn in E. now rewrite E. }
  destruct Hout as (Hr & Hu & Hsess).
  split; [exact Hr |]. split; [exact Hu |]. split; [exact Hsess |].
  intros env' req Hreq. rewrite Hsess.
  destruct req; try discriminate Hreq; cbn [handle];
    unfold get_api_users, post_api_users, put_api_users_id,
      delete_api_users_id, post_api_products, put_api_products_id,
      delete_api_products_id;
    handler; cbn [userId]; rewrite Hauth; reflexivity.
Qed.

(** ** Lists in order *)

Lemma insertBy_perm {A} (le : A -> A -> bool) (x : A) (l : list A) :
  Permutation (x :: l) (insertBy le x l).
Proof.
  induction l as [| y l IH]; cbn [insertBy]; [reflexivity |].
  destruct (le x y); [reflexivity |].
  rewrite perm_swap. apply perm_skip, IH.
Qed.

Lemma orderBy_perm {A} (le : A -> A -> bool) (l : list A) :
  Permutation l (orderBy le l).
Proof.
  unfold orderBy. induction l as [| x l IH]; cbn [fold_right]; [reflexivity |].
  rewrite <- insertBy_perm. apply perm_skip, IH.
Qed.

Lemma insertBy_sorted {A} (le : A -> A -> bool) (x : A) (l : list A) :
  (forall a b, le a b = false -> le b a = true) ->
  Sorted (fun a b => le a b = true) l ->
  Sorted (fun a b => le a b = true) (insertBy le x l).
Proof.
  intros Htot. induction l as [| y l IH]; cbn [insertBy]; intros Hs.
  - repeat constructor.
  - destruct (le x y) eqn:E.
    + constructor; [exact Hs | constructor; exact E].
    + inversion Hs as [| ? ? Hs' Hhd]; subst.
      constructor; [apply IH, Hs' |].
      destruct l as [| z l]; cbn [insertBy].
      * constructor. apply Htot, E.
      * destruct (le x z); constructor.
        -- apply Htot, E.
        -- inversion Hhd; assumption.
Qed.

Lemma orderBy_sorted {A} (le : A -> A -> bool) (l : list A) :
  (forall a b, le a b = false -> le b a = true) ->
  Sorted (fun a b => le a b = true) (orderBy le l).
Proof.
  intros Htot. unfold orderBy.
  induction l as [| x l IH]; cbn [fold_right]; [constructor |].
  apply insertBy_sorted; assumption.
Qed.

Lemma Sorted_map_inv {A B} (f : A -> B) (R : B -> B -> Prop) (l : list A) :
  Sorted R (map f l) -> Sorted (fun a b => R (f a) (f b)) l.
Proof.
  induction l as [| x l IH]; cbn [map]; intros Hs; [constructor |].
  inversion Hs as [| ? ? Hs' Hhd]; subst.
  constructor; [apply IH, Hs' |].
  destruct l; [constructor |].
  constructor. inversion Hhd; assumption.
Qed.

Lemma Sorted_weaken {A} (R R' : A -> A -> Prop) (l : list A) :
  (forall a b, R a b -> R' a b) -> Sorted R l -> Sorted R' l.
Proof.
  intros HR. induction 1 as [| x l _ IH Hhd]; constructor; [exact IH |].
  destruct Hhd; constructor; auto.
Qed.

Lemma filter_singleton {A} (f : A -> Z) (k : Z) (l : list A) (e : A) :
  NoDup (map f l) -> In e l -> f e = k ->
  filter (fun a => f a =? k) l = [e].
Proof.
  induction l as [| a l IH]; cbn [map filter In]; intros Hnd Hin Hk;
    [contradiction |].
  inversion Hnd as [| ? ? Hnotin Hnd']; subst.
  destruct Hin as [-> | Hin].
  - rewrite Z.eqb_refl. f_equal.
    destruct (filter (fun a => f a =? f e) l) as [| y t] eqn:Ef;
      [reflexivity |].
    exfalso. apply Hnotin.
    assert (Hy : In y (filter (fun a => f a =? f e) l))
      by (rewrite Ef; now left).
    apply filter_In in Hy as [Hy Hfy%Z.eqb_eq].
    rewrite <- Hfy. apply in_map, Hy.
  - destruct (f a =? f e) eqn:E.
    + exfalso. apply Hnotin. apply Z.eqb_eq in E. rewrite E.
      apply in_map, Hin.
    + apply IH; auto.
Qed.

(** With unique product ids and no dangling reference, the left join pairs
    every row with its one product. *)
Lemma leftJoin_total {A} (rows : list A) (key : A -> Z)
    (ps : list Product.t) :
  NoDup (map Product.id ps) ->
  Forall (fun r => existsb (fun x => Product.id x =? key r) ps = true) rows ->
  leftJoin rows key ps
  = map (fun r => (r, hd_error (filter (fun p => Product.id p =? key r) ps)))
        rows
  /\ Forall (fun r => hasProduct r = true) (leftJoin rows key ps).
Proof.
  intros Hnd Hfk.
  assert (E : leftJoin rows key ps
              = map (fun r => (r, hd_error
                                    (filter (fun p => Product.id p =? key r)
                                            ps))) rows).
  { unfold leftJoin.
    induction Hfk as [| r rows Hr _ IH]; [reflexivity |].
    cbn [flat_map]. rewrite map_cons, IH.
    apply existsb_exists in Hr as (p & Hp & Hid%Z.eqb_eq).
    rewrite (filter_singleton Product.id (key r) ps p Hnd Hp Hid).
    reflexivity. }
  split; [exact E |].
  rewrite E. apply Forall_forall. intros x Hx.
  apply in_map_iff in Hx as (r & <- & Hr).
  rewrite Forall_forall in Hfk.
  pose proof (Hfk r Hr) as Hex.
  apply existsb_exists in Hex as (p & Hp & Hid).
  destruct (hd_error_filter_Some (fun p => Product.id p =? key r) ps p Hp Hid)
    as [y Hy].
  unfold hasProduct. cbn [snd]. rewrite Hy. reflexivity.
Qed.

Lemma joined_inv {A} (l : list (A * option Product.t)) :
  Forall (fun r => hasProduct r = true) l ->
  map (fun r => (fst r, Some (snd r))) (joined l) = l.
Proof.
  unfold joined.
  induction 1 as [| [a [p |]] l Hr _ IH]; cbn [filter flat_map map];
    [reflexivity | | discriminate Hr].
  cbn [hasProduct snd flat_map app map fst]. rewrite IH. reflexivity.
Qed.

(** What the two joined listings have in common. *)
Lemma listing_complete {A} (rows : list A) (key createdAt : A -> Z)
    (ps : list Product.t) :
  NoDup (map Product.id ps) ->
  Forall (fun r => existsb (fun x => Product.id x =? key r) ps = true) rows ->
  let l := joined (orderBy (fun a b => createdAt (fst b) <=? createdAt (fst a))
                     (leftJoin rows key ps)) in
  Permutation (map fst l) rows
  /\ (forall x p, In (x, p) l -> In p ps /\ Product.id p = key x)
  /\ Sorted (fun a b => createdAt (fst b) <= createdAt (fst a)) l.
Proof.
  intros Hnd Hfk l.
  destruct (leftJoin_total rows key ps Hnd Hfk) as [Hjoin Hall].
  set (le := fun a b : A * option Product.t =>
               createdAt (fst b) <=? createdAt (fst a)) in *.
  assert (Hperm : Permutation (leftJoin rows key ps)
                    (orderBy le (leftJoin rows key ps)))
    by apply orderBy_perm.
  assert (Hall' : Forall (fun r => hasProduct r = true)
                    (orderBy le (leftJoin rows key ps)))
    by (eapply Permutation_Forall; eassumption).
  pose proof (joined_inv _ Hall') as Hinv. fold l in Hinv.
  split; [| split].
  - assert (E : map fst l = map fst (orderBy le (leftJoin rows key ps))).
    { rewrite <- Hinv. rewrite map_map. reflexivity. }
    rewrite E, <- Hperm, Hjoin, map_map. cbn [fst]. rewrite map_id.
    reflexivity.
  - intros x p Hin.
    assert (Hin' : In (x, Some p) (leftJoin rows key ps)).
    { apply (Permutation_in _ (Permutation_sym Hperm)).
      rewrite <- Hinv. apply in_map_iff. exists (x, p). split; auto. }
    rewrite Hjoin in Hin'. apply in_map_iff in Hin' as (r & Er & _).
    injection Er as -> Ep.
    apply hd_error_filter_In in Ep as [Hp Hid%Z.eqb_eq]. auto.
  - assert (Hs : Sorted (fun a b => le a b = true)
                   (orderBy le (leftJoin rows key ps))).
    { apply orderBy_sorted. intros a b. unfold le.
      rewrite Z.leb_gt, Z.leb_le. lia. }
    rewrite <- Hinv in Hs. apply Sorted_map_inv in Hs.
    revert Hs. apply Sorted_weaken. intros a b. unfold le. cbn [fst].
    apply Z.leb_le.
Qed.

(** X17.  GET /api/picos lists every pico once.  In every database the
    server can reach, the answer is the list of the picos, each exactly
    once and with the product its [productId] names, newest first. *)
Theorem get_picos_lists_every_pico (s : Session) (db : DB) :
  reachable db ->
  JsNumber.truthy (userId s) = true ->
  exists l : list (Pico.t * Product.t),
    get_api_picos s db = (json (JArr (map (withProductToJs picoToJs) l)), db)
    /\ Permutation (map fst l) (picos db)
    /\ (forall x p, In (x, p) l ->
                    In p (products db) /\ Product.id p = Pico.productId x)
    /\ Sorted (fun a b => Pico.createdAt (fst b) <= Pico.createdAt (fst a)) l.
Proof.
  intros Hreach Hauth. exists (getAllPicos db).
  split; [unfold get_api_picos; handler; rewrite Hauth; reflexivity |].
  destruct (reachable_picoInvariant db Hreach) as (Hnd & _ & _ & _ & Hfk).
  apply listing_complete; [exact Hnd |].
  eapply Forall_impl; [| exact Hfk]. intros a [_ Ha]. exact Ha.
Qed.

(** X18.  GET /api/paletizado-stock lists every stock row once, with the
    product it refers to, newest first. *)
Theorem get_stock_lists_every_row (s : Session) (db : DB) :
  reachable db ->
  JsNumber.truthy (userId s) = true ->
  exists l : list (Stock.t * Product.t),
    get_api_paletizado_stock s db
    = (json (JArr (map (withProductToJs stockToJs) l)), db)
    /\ Permutation (map fst l) (paletizadoStock db)
    /\ (forall x p, In (x, p) l ->
                    In p (products db) /\ Product.id p = Stock.productId x)
    /\ Sorted (fun a b => Stock.createdAt (fst b) <= Stock.createdAt (fst a))
              l.
Proof.
  intros Hreach Hauth. exists (getAllPaletizadoStock db).
  split; [unfold get_api_paletizado_stock; handler; rewrite Hauth;
          reflexivity |].
  destruct (reachable_picoInvariant db Hreach) as (Hnd & _).
  pose proof (reachable_stockRefInvariant db Hreach) as Hfk.
  apply listing_complete; [exact Hnd |].
  eapply Forall_impl; [| exact Hfk]. intros a [_ Ha]. exact Ha.
Qed.

Lemma delete_pico_removes (env : Env) (id : Z) (s : Session) (db : DB) :
  reachable db ->
  JsNumber.truthy (userId s) = true ->
  forall x, In x (picos (snd (delete_api_picos_id env id s db)))
            <-> In x (picos db) /\ Pico.id x <> id.
Proof.
  intros Hreach Hauth x.
  unfold delete_api_picos_id, getPico, whereId. handler. rewrite Hauth.
  destruct (int4 id) eqn:Hint; cbn [fst snd].
  2: { split; [| tauto].
       intros Hin. split; [exact Hin |]. intros Hid.
       destruct (reachable_ids db Hreach) as (_ & _ & Hcids & _).
       rewrite <- Hid, (Hcids x Hin) in Hint. discriminate Hint. }
  destruct (selectPico id db) as [[pico product] |] eqn:Eg.
  - unfold deletePico, whereId, createActivityLog. rewrite Hint.
    cbn [fst snd item_type_not_null withPicos].
    assert (Hf : In x (filter (fun p => negb (Pico.id p =? id)) (picos db))
                 <-> In x (picos db) /\ Pico.id x <> id).
    { rewrite filter_In, negb_true_iff, Z.eqb_neq. reflexivity. }
    destruct (_ && _); [destruct (item_type_not_null db) |];
      cbn [fst snd picos withPicos withActivityLog]; exact Hf.
  - cbn [snd]. split; [| tauto].
    intros Hin. split; [exact Hin |]. intros Hid.
    destruct (existing_pico_found db x Hreach Hin) as (p & Hget & _).
    rewrite Hid, Eg in Hget. discriminate Hget.
Qed.

(** X19.  After DELETE /api/picos/:id no listed pico has that id and every
    other pico is still listed, whatever the answer was: 200, 404 because
    there was no such pico, or 400 because the log refused the row. *)
Theorem eliminated_pico_not_listed (env : Env) (id : Z) (s : Session)
    (db : DB) :
  reachable db ->
  JsNumber.truthy (userId s) = true ->
  let out := delete_api_picos_id env id s db in
  (forall x p, In (x, p) (getAllPicos (snd out)) -> Pico.id x <> id)
  /\ (forall x, In x (picos db) -> Pico.id x <> id ->
                exists p, In (x, p) (getAllPicos (snd out))).
Proof.
  intros Hreach Hauth out.
  assert (Hreach' : reachable (snd out))
    by exact (reach_request env (DELETE_picos id) s db Hreach).
  destruct (reachable_picoInvariant _ Hreach') as (Hnd & _ & _ & _ & Hfk).
  assert (Hfk' : Forall (fun r => existsb (fun x => Product.id x
                                             =? Pico.productId r)
                                    (products (snd out)) = true)
                   (picos (snd out)))
    by (eapply Forall_impl; [| exact Hfk]; intros a [_ Ha]; exact Ha).
  destruct (listing_complete (picos (snd out)) Pico.productId Pico.createdAt
              (products (snd out)) Hnd Hfk') as (Hperm & _ & _).
  fold (getAllPicos (snd out)) in Hperm.
  split.
  - intros x p Hin.
    assert (Hx : In x (picos (snd out))).
    { apply (Permutation_in _ Hperm). apply in_map_iff.
      exists (x, p). split; [reflexivity | exact Hin]. }
    apply (delete_pico_removes env id s db Hreach Hauth) in Hx. tauto.
  - intros x Hin Hne.
    assert (Hx : In x (picos (snd out)))
      by (apply (delete_pico_removes env id s db Hreach Hauth); tauto).
    apply (Permutation_in _ (Permutation_sym Hperm)) in Hx.
    apply in_map_iff in Hx as ([x' p] & Ex & Hx). cbn in Ex. subst x'.
    exists p. exact Hx.
Qed.

(** ** Dashboard *)

Lemma Sorted_app_l {A} (R : A -> A -> Prop) (l1 l2 : list A) :
  Sorted R (l1 ++ l2) -> Sorted R l1.
Proof.
  induction l1 as [| x l1 IH]; cbn [app]; intros Hs; [constructor |].
  inversion Hs as [| ? ? Hs' Hhd]; subst.
  constructor; [apply IH, Hs' |].
  destruct l1; [constructor |]. inversion Hhd; subst. constructor. assumption.
Qed.

Lemma StronglySorted_app_cross {A} (R : A -> A -> Prop) (l1 l2 : list A) :
  StronglySorted R (l1 ++ l2) ->
  forall a b, In a l1 -> In b l2 -> R a b.
Proof.
  induction l1 as [| x l1 IH]; cbn [app]; intros Hs a b Ha Hb;
    [contradiction |].
  inversion Hs as [| ? ? Hs' Hall]; subst.
  destruct Ha as [-> | Ha].
  - rewrite Forall_forall in Hall. apply Hall, in_or_app. now right.
  - exact (IH Hs' a b Ha Hb).
Qed.

Lemma newestOf_firstn (n : nat) (ty : string) (log : list ActivityLog.t) :
  newestOf n ty log
    (firstn n (newestFirst
                 (filter (fun a => String.eqb (ActivityLog.type a) ty) log))).
Proof.
  set (rows := filter _ log).
  set (R := fun a b => ActivityLog.createdAt b <= ActivityLog.createdAt a).
  assert (Hperm : Permutation rows (newestFirst rows))
    by apply orderBy_perm.
  assert (Hs : Sorted R (newestFirst rows)).
  { unfold newestFirst.
    apply Sorted_weaken
      with (R := fun a b => (ActivityLog.createdAt b
                             <=? ActivityLog.createdAt a) = true).
    - intros a b. apply Z.leb_le.
    - apply orderBy_sorted. intros a b. rewrite Z.leb_gt, Z.leb_le. lia. }
  assert (Hss : StronglySorted R (newestFirst rows)).
  { apply Sorted_StronglySorted; [| exact Hs].
    intros a b c. unfold R. lia. }
  rewrite <- (firstn_skipn n (newestFirst rows)) in Hperm, Hs, Hss.
  unfold newestOf. fold rows. fold R.
  split; [apply firstn_le_length |].
  split; [exists (skipn n (newestFirst rows)); symmetry; exact Hperm |].
  split; [exact (Sorted_app_l R _ _ Hs) |].
  intros a Hin Hty Hnot.
  assert (Ha : In a rows).
  { apply filter_In. split; [exact Hin |]. apply String.eqb_eq, Hty. }
  apply (Permutation_in _ Hperm), in_app_or in Ha.
  destruct Ha as [Ha | Ha]; [contradiction |].
  split.
  - assert (Hlen : (n < List.length (newestFirst rows))%nat).
    { destruct (Nat.lt_ge_cases n (List.length (newestFirst rows)))
        as [Hlt | Hge]; [exact Hlt |].
      rewrite (skipn_all2 _ Hge) in Ha. contradiction. }
    rewrite length_firstn. lia.
  - intros b Hb. exact (StronglySorted_app_cross R _ _ Hss b a Hb Ha).
Qed.

(** X20.  The two lists of the dashboard are the five newest entries and
    the five newest exits of the log: each is made of rows of its type,
    newest first and five at most, and a row of that type it leaves out is
    no newer than any it shows. *)
Theorem dashboard_shows_newest_activity (db : DB) :
  newestOf 5 "entry" (activityLog db) (recentEntries (getDashboardStats db))
  /\ newestOf 5 "exit" (activityLog db) (recentExits (getDashboardStats db)).
Proof. split; apply newestOf_firstn. Qed.

(** X21.  The totals of the dashboard agree with the listings: in every
    database the server can reach, [totalPicos] is the number of picos
    GET /api/picos lists and [totalPaletizados] the number of rows
    GET /api/paletizado-stock lists. *)
Theorem dashboard_totals_match_listings (db : DB) :
  reachable db ->
  totalPicos (getDashboardStats db) = Z.of_nat (List.length (getAllPicos db))
  /\ totalPaletizados (getDashboardStats db)
     = Z.of_nat (List.length (getAllPaletizadoStock db)).
Proof.
  intros Hreach.
  destruct (reachable_picoInvariant db Hreach) as (Hnd & _ & _ & _ & Hfk).
  pose proof (reachable_stockRefInvariant db Hreach) as Hfk2.
  assert (Htrue : forall A (l : list A), filter (fun _ => true) l = l).
  { intros A l. induction l as [| a l IH]; [reflexivity |].
    cbn [filter]. now rewrite IH. }
  cbn [getDashboardStats totalPicos totalPaletizados]. unfold count.
  rewrite !Htrue. split; f_equal.
  - destruct (listing_complete (picos db) Pico.productId Pico.createdAt
                (products db) Hnd) as (Hperm & _).
    { eapply Forall_impl; [| exact Hfk]. intros a [_ Ha]. exact Ha. }
    apply Permutation_length in Hperm. rewrite length_map in Hperm.
    symmetry. exact Hperm.
  - destruct (listing_complete (paletizadoStock db) Stock.productId
                Stock.createdAt (products db) Hnd) as (Hperm & _).
    { eapply Forall_impl; [| exact Hfk2]. intros a [_ Ha]. exact Ha. }
    apply Permutation_length in Hperm. rewrite length_map in Hperm.
    symmetry. exact Hperm.
Qed.

(** X22.  GET /api/users and GET /api/products drop and repeat nothing: the
    answer is the rows of the table, each once, in some order, users
    without their password. *)
Theorem plain_listings_are_complete (s : Session) (db : DB) :
  JsNumber.truthy (userId s) = true ->
  (exists l, get_api_products s db = (json (JArr (map productToJs l)), db)
             /\ Permutation l (products db))
  /\ (isAdmin s = true ->
      exists l,
        get_api_users s db
        = (json (JArr (map (fun u => withoutPassword (Some u)) l)), db)
        /\ Permutation l (users db)
        /\ hasField "password"
             (stringify (body (fst (get_api_users s db)))) = false).
Proof.
  intros Hauth. split.
  - exists (getAllProducts db). split.
    + unfold get_api_products. handler. rewrite Hauth. reflexivity.
    + symmetry. apply orderBy_perm.
  - intros Hadm. exists (getAllUsers db).
    assert (E : get_api_users s db
                = (json (JArr (map (fun u => withoutPassword (Some u))
                                   (getAllUsers db))), db)).
    { unfold get_api_users. handler. rewrite Hauth, Hadm. reflexivity. }
    split; [exact E |]. split; [symmetry; apply orderBy_perm |].
    rewrite E. cbn [fst body json]. apply users_clean.
Qed.

(** ** The activity log and its constraint *)

Lemma logInvariant_ext (db db' : DB) :
  logViewOf db' = logViewOf db -> logInvariant db -> logInvariant db'.
Proof.
  unfold logViewOf, logInvariant. intros H. injection H as -> -> ->. tauto.
Qed.

Lemma untouched_keeps_log {A} (m : Storage A) :
  untouched logViewOf m -> keeps logInvariant m.
Proof. intros H db. apply logInvariant_ext, H. Qed.

Lemma keeps_log_createActivityLog now a :
  keeps logInvariant (createActivityLog now a).
Proof.
  intros db (Hnd & Hlt & Hnn). unfold createActivityLog.
  destruct (int4 _ && nextval (activity_log_id_seq db));
    [| repeat split; assumption].
  destruct (item_type_not_null db) eqn:E; cbn [snd]; unfold logInvariant;
    cbn [activityLog activity_log_id_seq item_type_not_null withActivityLog].
  - split; [exact Hnd |]. split; [apply Forall_ids_next, Hlt |].
    rewrite E. exact Hnn.
  - split; [| split].
    + apply NoDup_ids_app with (next := activity_log_id_seq db);
        [exact Hnd | exact Hlt | reflexivity].
    + apply Forall_ids_app; [exact Hlt | reflexivity].
    + rewrite E. discriminate.
Qed.

Lemma logInvariant_storageKeeps : storageKeeps logInvariant.
Proof.
  unfold storageKeeps.
  repeat match goal with |- _ /\ _ => split end; intros;
    first [ apply keeps_log_createActivityLog
          | apply untouched_keeps_log; untouched_op ].
Qed.

(** X23.  The log never breaks its constraints.  In every database the
    server can reach, log rows have ids of their own, below the next id of
    the sequence, and, once the migration has made [item_type] NOT NULL,
    every row has an item type. *)
Theorem activity_log_constraints_hold (db : DB) :
  reachable db -> logInvariant db.
Proof.
  apply reachable_keeps.
  - exact logInvariant_storageKeeps.
  - repeat split; [constructor | constructor | discriminate].
  - intros d (Hnd & Hlt & Hnn). unfold add_item_type_to_activity_log.
    destruct (item_type_not_null d) eqn:E; [repeat split; auto |].
    unfold logInvariant.
    cbn [activityLog activity_log_id_seq item_type_not_null].
    split; [| split].
    + rewrite map_map.
      erewrite map_ext; [exact Hnd |].
      intros a. destruct (ActivityLog.item_type a); reflexivity.
    + rewrite Forall_map. eapply Forall_impl; [| exact Hlt].
      intros a Ha. destruct (ActivityLog.item_type a); exact Ha.
    + intros _. rewrite Forall_map. apply Forall_forall. intros a _.
      destruct (ActivityLog.item_type a) eqn:Ei; cbn; [rewrite Ei |];
        discriminate.
Qed.

(** ** The pico form *)

Lemma replaceNonDigits_digits (s : string) (c : ascii) (t : string) :
  replaceNonDigits s = String c t ->
  isDigit c = true /\ exists s', replaceNonDigits s' = t.
Proof.
  induction s as [| a s IH]; cbn [replaceNonDigits]; [discriminate |].
  destruct (isDigit a) eqn:E; [| exact IH].
  intros H. injection H as -> <-. split; [exact E | eauto].
Qed.

Lemma replaceNonDigits_fixed (s : string) :
  towerRegex s = true -> replaceNonDigits s = s.
Proof.
  destruct s as [| a [| b [| c s]]]; try discriminate.
  cbn [towerRegex replaceNonDigits]. intros H.
  apply andb_true_iff in H as [-> ->]. reflexivity.
Qed.


(** ** The forms against the server *)

(** X25.  Picos written through the pico form keep two-digit towers.  The
    form sends a tower that is empty or two digits; the server refuses a
    create with an empty tower and, on an update, keeps the stored tower;
    so when every stored tower is two digits before a request of the form,
    every stored tower is two digits after it. *)
Theorem pico_form_keeps_two_digit_towers (env : Env)
    (pico : option (Pico.t * Product.t)) (selectedProduct : option Product.t)
    (formData : PicoFormData) (req : Request) (s : Session) (db : DB) :
  PicoFormModal_handleSubmit pico selectedProduct formData = Some req ->
  Forall (fun p => towerRegex (Pico.towerLocation p) = true) (picos db) ->
  Forall (fun p => towerRegex (Pico.towerLocation p) = true)
         (picos (snd (handle env req s db))).
Proof.
  unfold PicoFormModal_handleSubmit. intros Hreq H.
  destruct (negb _ || isNull selectedProduct); [discriminate Hreq |].
  destruct ((_ <? 0) || (_ <? 0)); [discriminate Hreq |].
  destruct ((_ =? 0) && (_ =? 0)); [discriminate Hreq |].
  set (t := picoForm_towerLocation formData) in *.
  destruct (truthyString (Some t) && negb (towerRegex t)) eqn:Ht;
    [discriminate Hreq |].
  destruct (JsNumber.truthy (userId s)) eqn:Hauth.
  2: { destruct pico as [[p pr] |]; injection Hreq as <-;
       cbn [handle keepSession snd];
       unfold put_api_picos_id, post_api_picos, requireAuth;
       rewrite Hauth; exact H. }
  destruct pico as [[p pr] |]; injection Hreq as <-;
    cbn [handle keepSession snd].
  - destruct (int4 (Pico.id p)) eqn:Hint.
    2: { rewrite (put_api_picos_id_out env _ _ s db Hauth Hint). exact H. }
    destruct (selectPico (Pico.id p) db) as [[pc prod] |] eqn:Eg.
    2: { unfold put_api_picos_id, getPico. handler.
         rewrite Hauth, (whereId_in _ _ _ Hint). unfold query.
         cbn [fst snd]. rewrite Eg. exact H. }
    rewrite (put_api_picos_id_run env _ _ s db pc prod Hauth Hint Eg).
    cbv zeta. rewrite storedPico_put.
    cbn [PicoUpdateBody.towerLocation PicoUpdateBody.bases
         PicoUpdateBody.looseUnits].
    destruct (int4 _ && int4 _ && int4 _); [| exact H].
    assert (Hupd : forall up,
               match PartialPico.towerLocation up with
               | Some t' => towerRegex t' = true
               | None => True
               end ->
               Forall (fun p => towerRegex (Pico.towerLocation p) = true)
                 (map (fun a => if Pico.id a =? Pico.id p
                                then setPico (now env) up a else a)
                      (picos db))).
    { intros up Hup. rewrite Forall_map.
      eapply Forall_impl; [| exact H]. intros a Ha.
      destruct (Pico.id a =? Pico.id p); [| exact Ha].
      cbn [setPico Pico.towerLocation].
      destruct (PartialPico.towerLocation up); cbn [orElse]; assumption. }
    destruct (String.eqb t EmptyString) eqn:Ee.
    + cbn [snd picos withPicos]. apply Hupd. exact I.
    + cbn [truthyString] in Ht. rewrite Ee in Ht. cbn [negb andb] in Ht.
      apply negb_false_iff in Ht. rewrite (towerRegex_varchar t Ht).
      cbn [snd picos withPicos]. apply Hupd. exact Ht.
  - set (b := PicoBody.mk _ _ _ _).
    destruct (getProductByCode (PicoBody.productCode b) db) as [product |]
      eqn:Ep.
    2: { unfold post_api_picos. handler. rewrite Hauth, Ep. exact H. }
    rewrite (post_api_picos_run env b s db product Hauth Ep). cbv zeta.
    subst b. cbn [PicoBody.towerLocation PicoBody.bases PicoBody.looseUnits].
    destruct (towerRegex t) eqn:Er; cbn [andb]; [| exact H].
    match goal with
    | |- context [if ?c then _ else (message 400 _, db)] => destruct c
    end; [| exact H].
    assert (Hrow : forall row,
               Pico.towerLocation row = t ->
               Forall (fun p => towerRegex (Pico.towerLocation p) = true)
                      (picos db ++ [row])).
    { intros row Hrow. apply Forall_app. split; [exact H |].
      constructor; [rewrite Hrow; exact Er | constructor]. }
    destruct (nextval (activity_log_id_seq db));
      [destruct (item_type_not_null db) |];
      cbn [snd picos withPicos withActivityLog]; apply Hrow; reflexivity.
Qed.

(** X26.  No password gets into the table through the user form but as a
    bcrypt hash.  After a request of the form, every stored user has the
    password that was stored under that id before, or the bcrypt hash of
    the password of the form, which is then not empty. *)
Theorem user_form_stores_hashes_only (env : Env) (user : option User.t)
    (formData : InsertUser.t) (req : Request) (s : Session) (db : DB) :
  UserFormModal_handleSubmit user formData = Some req ->
  forall u', In u' (users (snd (handle env req s db))) ->
    (exists u0, In u0 (users db)
                /\ User.id u0 = User.id u'
                /\ User.password u0 = User.password u')
    \/ (User.password u'
        = bcrypt_hash (salt env) (InsertUser.password formData)
        /\ InsertUser.password formData <> EmptyString).
Proof.
  unfold UserFormModal_handleSubmit. intros Hreq u' Hin.
  assert (Hsame : forall v, In v (users db) ->
                  exists u0, In u0 (users db) /\ User.id u0 = User.id v
                             /\ User.password u0 = User.password v)
    by (intros v Hv; exists v; auto).
  destruct (negb _ || negb _ || negb _); [discriminate Hreq |].
  destruct (isNull user && negb _) eqn:Epw; [discriminate Hreq |].
  destruct user as [u |]; injection Hreq as <-;
    cbn [handle keepSession snd] in Hin.
  - clear Epw. unfold put_api_users_id in Hin. handler.
    destruct (JsNumber.truthy (userId s)); [| left; auto].
    destruct (isAdmin s); [| left; auto].
    cbv zeta in Hin.
    match type of Hin with context [updateUser _ _ ?up] =>
      set (up' := up) in Hin end.
    assert (Hpw : PartialUser.password up' = None
                  \/ (PartialUser.password up'
                      = Some (bcrypt_hash (salt env)
                                (InsertUser.password formData))
                      /\ InsertUser.password formData <> EmptyString)).
    { unfold up', truthyString.
      destruct (String.eqb (InsertUser.password formData) EmptyString) eqn:E;
        cbn; [left; reflexivity |].
      rewrite E. cbn. right. split; [reflexivity |].
      now apply String.eqb_neq. }
    clearbody up'. unfold updateUser, whereId in Hin. cbv zeta in Hin.
    destruct (int4 (User.id u)); cbn [fst snd] in Hin; [| left; auto].
    destruct (existsb _ (users db) && _); cbn [fst snd] in Hin;
      [left; auto |].
    cbn [users withUsers] in Hin.
    apply in_map_iff in Hin as (x & Hx & Hxin).
    destruct (User.id x =? User.id u); [| subst u'; left; auto].
    subst u'. unfold setUser. cbn [User.password User.id].
    destruct Hpw as [-> | [-> Hne]]; cbn [orElse].
    + left. exists x. auto.
    + right. auto.
  - cbn [isNull andb] in Epw. apply negb_false_iff in Epw.
    unfold post_api_users in Hin. handler.
    destruct (JsNumber.truthy (userId s)); [| left; auto].
    destruct (isAdmin s); [| left; auto].
    unfold createUser in Hin. cbn [InsertUser.username] in Hin.
    destruct (negb _); cbn [fst snd] in Hin; [left; auto |].
    destruct (existsb _ (users db)); cbn [fst snd] in Hin; [left; auto |].
    cbn [users withUsers] in Hin.
    apply in_app_or in Hin as [Hin | [<- | []]]; [left; auto |].
    right. split; [reflexivity |].
    intros E. rewrite E in Epw. discriminate Epw.
Qed.

(** X27.  Stock handled through the paletizado form stays positive: the
    form sends positive quantities only, so when every stored quantity is
    positive before a request of the form, every stored quantity is
    positive after it. *)
Theorem stock_form_keeps_quantities_positive (env : Env)
    (stock : option (Stock.t * Product.t)) (selectedProduct : option Product.t)
    (formData : PaletizadoFormData) (req : Request) (s : Session) (db : DB) :
  PaletizadoFormModal_handleSubmit stock selectedProduct formData = Some req ->
  Forall (fun st => 0 < Stock.quantity st) (paletizadoStock db) ->
  Forall (fun st => 0 < Stock.quantity st)
         (paletizadoStock (snd (handle env req s db))).
Proof.
  unfold PaletizadoFormModal_handleSubmit. intros Hreq H.
  destruct (negb _ || isNull selectedProduct); [discriminate Hreq |].
  set (d := paletizadoForm_quantity formData) in *.
  destruct (d <=? 0) eqn:Hd; [discriminate Hreq |].
  apply Z.leb_gt in Hd.
  destruct (JsNumber.truthy (userId s)) eqn:Hauth.
  2: { destruct stock as [[st pr] |]; injection Hreq as <-;
       cbn [handle keepSession snd];
       unfold put_api_paletizado_stock_id, post_api_paletizado_stock,
         requireAuth;
       rewrite Hauth; exact H. }
  assert (Hset : forall (sel : Stock.t -> bool) (q now : Z),
             0 < q ->
             Forall (fun st => 0 < Stock.quantity st)
               (map (fun r => if sel r
                              then Stock.mk (Stock.id r) (Stock.productId r) q
                                     (Stock.createdAt r) now
                              else r) (paletizadoStock db))).
  { intros sel q now Hq. rewrite Forall_map.
    eapply Forall_impl; [| exact H]. intros a Ha.
    destruct (sel a); [exact Hq | exact Ha]. }
  destruct stock as [[st pr] |]; injection Hreq as <-;
    cbn [handle keepSession snd].
  - unfold put_api_paletizado_stock_id. handler. rewrite Hauth.
    unfold updatePaletizadoStock, whereId.
    destruct (int4 (Stock.id st)); cbn [fst snd]; [| exact H].
    destruct (int4 d); cbn [fst snd]; [| exact H].
    cbn [paletizadoStock withStock]. apply Hset, Hd.
  - set (b := StockBody.mk _ _).
    destruct (getProductByCode (StockBody.productCode b) db) as [product |]
      eqn:Ep.
    2: { unfold post_api_paletizado_stock. handler. rewrite Hauth, Ep.
         exact H. }
    destruct (int4 (Product.id product)) eqn:Hpid.
    2: { unfold post_api_paletizado_stock, getPaletizadoStockByProductId.
         handler. rewrite Hauth, Ep, (whereId_out _ _ _ Hpid). exact H. }
    rewrite (post_api_paletizado_stock_run env b s db product Hauth Ep Hpid).
    cbv zeta. subst b. cbn [StockBody.quantity].
    destruct (hd_error (filter _ (paletizadoStock db))) as [e |] eqn:Ee.
    + apply hd_error_filter_In in Ee as [He _].
      rewrite Forall_forall in H. pose proof (H e He) as Hq.
      rewrite <- Forall_forall in H.
      destruct (int4_add (Stock.quantity e) d) as [Hi Hadd].
      destruct (int4 (Stock.id e)); cbn [andb]; [| exact H].
      destruct (int4 (JsNumber.add (Stock.quantity e) d)) eqn:Ei;
        [| exact H].
      rewrite Hadd by (rewrite <- Hi; reflexivity).
      destruct (int4 d && nextval (activity_log_id_seq db));
        [destruct (item_type_not_null db) |];
        cbn [snd paletizadoStock withStock withActivityLog];
        apply Hset; lia.
    + destruct (int4 d && nextval (paletizado_stock_id_seq db));
        [| exact H].
      destruct (int4 d && nextval (activity_log_id_seq db));
        [destruct (item_type_not_null db) |];
        cbn [snd paletizadoStock withStock withActivityLog];
        (apply Forall_app; split; [exact H |]);
        (constructor; [exact Hd | constructor]).
Qed.

(** X28.  Products handled through the product form have positive sizes
    and keep their category: after a request of the form, when the sizes
    of every product were positive before, they are positive; and every
    product has the category it had under that id, or is the product the
    form has just created. *)
Theorem product_form_keeps_sizes_and_category (env : Env)
    (product : option Product.t) (formData : InsertProduct.t) (req : Request)
    (s : Session) (db : DB) :
  ProductFormModal_handleSubmit product formData = Some req ->
  let db' := snd (handle env req s db) in
  (Forall (fun p => 0 < Product.quantityBases p /\ 0 < Product.unitsPerBase p)
          (products db) ->
   Forall (fun p => 0 < Product.quantityBases p /\ 0 < Product.unitsPerBase p)
          (products db'))
  /\ forall p', In p' (products db') ->
       (exists p0, In p0 (products db)
                   /\ Product.id p0 = Product.id p'
                   /\ Product.category p0 = Product.category p')
       \/ (product = None
           /\ Product.id p' = products_id_seq db
           /\ Product.code p' = InsertProduct.code formData
           /\ Product.category p' = InsertProduct.category formData).
Proof.
  intros Hreq db'. unfold ProductFormModal_handleSubmit in Hreq.
  destruct (negb _ || negb _); [discriminate Hreq |].
  destruct ((_ <=? 0) || (_ <=? 0)) eqn:Hpos; [discriminate Hreq |].
  apply orb_false_iff in Hpos as [Hq Hu].
  apply Z.leb_gt in Hq, Hu.
  assert (Hsame : forall p', In p' (products db) ->
                    exists p0, In p0 (products db)
                               /\ Product.id p0 = Product.id p'
                               /\ Product.category p0 = Product.category p')
    by (intros p' Hp; exists p'; auto).
  assert (Hquiet : products db' = products db ->
            (Forall (fun p => 0 < Product.quantityBases p
                              /\ 0 < Product.unitsPerBase p) (products db) ->
             Forall (fun p => 0 < Product.quantityBases p
                              /\ 0 < Product.unitsPerBase p) (products db'))
            /\ forall p', In p' (products db') ->
                 (exists p0, In p0 (products db)
                             /\ Product.id p0 = Product.id p'
                             /\ Product.category p0 = Product.category p')
                 \/ (product = None
                     /\ Product.id p' = products_id_seq db
                     /\ Product.code p' = InsertProduct.code formData
                     /\ Product.category p' = InsertProduct.category formData)).
  { intros ->. split; [auto |]. intros p' Hp. left. auto. }
  destruct product as [p |]; injection Hreq as <-;
    unfold db' in *; clear db'; cbn [handle keepSession snd] in *.
  - unfold put_api_products_id in *. handler.
    destruct (JsNumber.truthy (userId s)); [| apply Hquiet; reflexivity].
    destruct (isAdmin s); [| apply Hquiet; reflexivity].
    unfold updateProduct, whereId in *. cbv zeta in *.
    destruct (int4 (Product.id p)); cbn [fst snd] in *;
      [| apply Hquiet; reflexivity].
    destruct (negb _ || _); cbn [fst snd] in *;
      [apply Hquiet; reflexivity |].
    clear Hquiet. cbn [products withProducts]. split.
    + intros H. rewrite Forall_map. eapply Forall_impl; [| exact H].
      intros a Ha. destruct (Product.id a =? Product.id p); [| exact Ha].
      cbn. split; assumption.
    + intros p' Hp'. left.
      apply in_map_iff in Hp' as (x & Hx & Hxin).
      exists x. destruct (Product.id x =? Product.id p); subst p';
        repeat split; auto.
  - unfold post_api_products in *. handler.
    destruct (JsNumber.truthy (userId s)); [| apply Hquiet; reflexivity].
    destruct (isAdmin s); [| apply Hquiet; reflexivity].
    unfold createProduct in *.
    destruct (negb _); cbn [fst snd] in *; [apply Hquiet; reflexivity |].
    destruct (existsb _ (products db)); cbn [fst snd] in *;
      [apply Hquiet; reflexivity |].
    clear Hquiet. cbn [products withProducts]. split.
    + intros H. apply Forall_app. split; [exact H |].
      constructor; [| constructor]. cbn. split; assumption.
    + intros p' Hp'. apply in_app_or in Hp' as [Hp' | [<- | []]];
        [left; auto |].
      right. repeat split; reflexivity.
Qed.

(** ** Product search *)

Lemma like_percent (p s : string) :
  like (String "%" p) s = true
  <-> exists a b, s = (a ++ b)%string /\ like p b = true.
Proof.
  change (like (String "%" p))
    with (fix skip (s : string) : bool :=
            like p s
            || match s with
               | EmptyString => false
               | String _ s' => skip s'
               end).
  induction s as [| c s IH].
  - cbn. rewrite orb_false_r. split.
    + intros H. exists EmptyString, EmptyString. auto.
    + intros ([| ? ?] & b & E & H); cbn in E; [subst b; exact H |].
      discriminate E.
  - cbn [orb]. rewrite orb_true_iff, IH. split.
    + intros [H | (a & b & -> & H)].
      * exists EmptyString, (String c s). auto.
      * exists (String c a), b. auto.
    + intros ([| d a] & b & E & H); cbn in E.
      * subst b. left. exact H.
      * injection E as -> ->. right. eauto.
Qed.

Lemma like_plain_prefix (q p s : string) :
  plain q = true ->
  like (q ++ p) s = true
  <-> exists b, s = (q ++ b)%string /\ like p b = true.
Proof.
  revert s. induction q as [| c q IH]; intros s Hq.
  - cbn. split; [eauto |]. intros (b & -> & H). exact H.
  - cbn [plain] in Hq. apply andb_true_iff in Hq as [Hc Hq].
    unfold plainChar in Hc. apply negb_true_iff in Hc.
    apply orb_false_iff in Hc as [Hc H3].
    apply orb_false_iff in Hc as [H1 H2].
    cbn [append like]. rewrite H1, H2, H3.
    destruct s as [| e s].
    + split; [discriminate |]. intros (b & E & _). discriminate E.
    + rewrite andb_true_iff, Ascii.eqb_eq, (IH s Hq). split.
      * intros (-> & b & -> & H). eauto.
      * intros (b & E & H). injection E as -> ->. eauto.
Qed.

Lemma like_everything (s : string) : like "%" s = true.
Proof.
  apply like_percent. exists s, EmptyString. split; [| reflexivity].
  induction s as [| c s IH]; cbn; [reflexivity | now rewrite <- IH].
Qed.

Lemma like_contains (q s : string) :
  plain q = true ->
  like ("%" ++ q ++ "%") s = true
  <-> exists a b, s = (a ++ q ++ b)%string.
Proof.
  intros Hq. cbn [append]. rewrite like_percent. split.
  - intros (a & b & -> & H).
    apply (like_plain_prefix q "%" b Hq) in H as (b' & -> & _). eauto.
  - intros (a & b & ->). exists a, (q ++ b)%string. split; [reflexivity |].
    apply (like_plain_prefix q "%" _ Hq). exists b.
    split; [reflexivity | apply like_everything].
Qed.


End Routes.

(** ** The theorems on the small warehouse *)

Lemma demoDB_reachable : reachable toy_hash toy_compare demoDB.
Proof.
  change demoDB with
    (snd (handle toy_hash toy_compare demoEnv
            (POST_picos (PicoBody.mk "P1" 2 3 (Some "01"%string)))
            demoSession demoProductDB)).
  apply reach_request.
  change demoProductDB with
    (snd (handle toy_hash toy_compare demoEnv
            (POST_products (InsertProduct.mk "P1" "Widget" 10 5 alta_rotacao))
            demoSession demoStartDB)).
  apply reach_request.
  change demoStartDB with (initializeDefaultUser toy_hash demoEnv emptyDB).
  apply reach_startup, reach_empty.
Qed.

Lemma demoStockDB_reachable (quantity : Z) :
  int4 quantity = true ->
  reachable toy_hash toy_compare (demoStockDB quantity).
Proof.
  intros Hq.
  replace (demoStockDB quantity) with
    (snd (handle toy_hash toy_compare demoEnv
            (POST_paletizado_stock (StockBody.mk "P1" quantity))
            demoSession demoDB)).
  - apply reach_request, demoDB_reachable.
  - cbn [handle keepSession snd].
    rewrite (post_api_paletizado_stock_run demoEnv
               (StockBody.mk "P1" quantity) demoSession demoDB demoProduct
               eq_refl eq_refl eq_refl).
    cbn. rewrite Hq. reflexivity.
Qed.



Lemma stock_one_row_per_product_witness :
  reachable toy_hash toy_compare (demoStockDB 7)
  /\ JsNumber.truthy (userId demoSession) = true
  /\ getProductByCode "P1" (demoStockDB 7) = Some demoProduct
  /\ In (Stock.mk 1 1 7 1000 1000) (paletizadoStock (demoStockDB 7))
  /\ NoDup (map Stock.productId (paletizadoStock (demoStockDB 7)))
  /\ paletizadoStock
       (snd (post_api_paletizado_stock demoEnv (StockBody.mk "P1" 5)
               demoSession (demoStockDB 7)))
     = [Stock.mk 1 1 12 1000 1000].
Proof.
  pose proof (demoStockDB_reachable 7 eq_refl) as Hreach.
  destruct (stock_one_row_per_product toy_hash toy_compare (demoStockDB 7)
              Hreach) as [Hnd Hpost].
  destruct (Hpost demoEnv (StockBody.mk "P1" 5) demoSession demoProduct
              eq_refl eq_refl) as [Hrow _].
  specialize (Hrow (Stock.mk 1 1 7 1000 1000) (or_introl eq_refl) eq_refl).
  cbv zeta in Hrow. destruct Hrow as [Hrows _].
  split; [exact Hreach |]. split; [reflexivity |]. split; [reflexivity |].
  split; [left; reflexivity |]. split; [exact Hnd | exact Hrows].
Defined.

(** Where C2 fails as stated: the product has a row with quantity
    2147483647; the request for one more is answered 400 and the row keeps
    its quantity. *)
Lemma stock_increment_past_int4_rejected :
  let db := demoStockDB 2147483647 in
  let out := post_api_paletizado_stock demoEnv (StockBody.mk "P1" 1)
               demoSession db in
  reachable toy_hash toy_compare db
  /\ JsNumber.truthy (userId demoSession) = true
  /\ getProductByCode "P1" db = Some demoProduct
  /\ paletizadoStock db = [Stock.mk 1 1 2147483647 1000 1000]
  /\ status (fst out) = 400
  /\ paletizadoStock (snd out) = [Stock.mk 1 1 2147483647 1000 1000]
  /\ ~ (exists r, In r (paletizadoStock (snd out))
                  /\ Stock.quantity r = 2147483647 + 1).
Proof.
  cbv zeta. split; [apply demoStockDB_reachable; reflexivity |].
  repeat split.
  intros (r & [<- | []] & Hq). discriminate Hq.
Qed.



Lemma dashboard_categories_cover_products_witness :
  JsNumber.truthy (userId demoSession) = true
  /\ altaRotacao (getDashboardStats demoDB)
     + baixaRotacao (getDashboardStats demoDB) = 1
  /\ body (fst (get_api_dashboard_stats demoSession demoDB))
     = JObj [("totalPicos", JStr "1"); ("totalPaletizados", JStr "0");
             ("altaRotacao", JStr "1"); ("baixaRotacao", JStr "0");
             ("recentEntries", JArr [activityToJs (demoEntry 1 13)]);
             ("recentExits", JArr [])]%string.
Proof.
  destruct (dashboard_categories_cover_products demoDB) as [Hsum Hres].
  destruct (Hres demoSession eq_refl) as [_ Hbody].
  split; [reflexivity |]. split; [exact Hsum |].
  exact Hbody.
Defined.

Lemma delete_pico_logs_exit_witness :
  reachable toy_hash toy_compare demoDB
  /\ JsNumber.truthy (userId demoSession) = true
  /\ In demoPico (picos demoDB)
  /\ (forall p, In p (picos demoDB) -> Pico.id p <> 2)
  /\ fst (delete_api_picos_id demoEnv 2 demoSession demoDB)
     = message 404 "Pico not found"
  /\ picos (snd (delete_api_picos_id demoEnv 1 demoSession demoDB)) = []
  /\ status (fst (delete_api_picos_id demoEnv 1 demoSession demoDB)) = 200
  /\ (exists row,
         activityLog (snd (delete_api_picos_id demoEnv 1 demoSession demoDB))
         = activityLog demoDB ++ [row]
         /\ ActivityLog.type row = "exit"%string
         /\ ActivityLog.quantity row = 13).
Proof.
  assert (Hnone : forall p, In p (picos demoDB) -> Pico.id p <> 2)
    by (intros p [<- | []]; discriminate).
  destruct (delete_pico_logs_exit toy_hash toy_compare demoEnv 2 demoSession
              demoDB demoDB_reachable eq_refl) as [H404 _].
  destruct (delete_pico_logs_exit toy_hash toy_compare demoEnv 1 demoSession
              demoDB demoDB_reachable eq_refl) as [_ Hdel].
  destruct (H404 Hnone) as [_ Hres].
  destruct (Hdel demoPico (or_introl eq_refl) eq_refl)
    as (product & _ & _ & Hpicos & _ & _ & _ & _ & Hlogged).
  cbn [nextval activity_log_id_seq item_type_not_null demoDB andb negb
       Z.leb Z.compare Pos.compare Pos.compare_cont] in Hlogged.
  destruct Hlogged as (H200 & row & Hlog & Htype & Hq & _).
  split; [exact demoDB_reachable |].
  split; [reflexivity |]. split; [left; reflexivity |].
  split; [exact Hnone |]. split; [exact Hres |].
  split; [exact Hpicos |]. split; [exact H200 |].
  exists row. split; [exact Hlog |]. split; [exact Htype | exact Hq].
Defined.

(** Where C7 fails as stated.  On the small warehouse no pico has the id
    2147483648, and the DELETE of that id is answered 400, not 404.  After
    the migration, the DELETE of pico 1, which exists, removes the pico and
    is answered 400, and the log has no row more. *)
Lemma delete_pico_unlogged_after_migration :
  let far := delete_api_picos_id demoEnv 2147483648 demoSession demoDB in
  let out := delete_api_picos_id demoEnv 1 demoSession demoMigratedDB in
  reachable toy_hash toy_compare demoDB
  /\ reachable toy_hash toy_compare demoMigratedDB
  /\ JsNumber.truthy (userId demoSession) = true
  /\ (forall p, In p (picos demoDB) -> Pico.id p <> 2147483648)
  /\ fst far = message 400 "Failed to eliminate pico"
  /\ snd far = demoDB
  /\ picos demoMigratedDB = [demoPico]
  /\ Pico.id demoPico = 1
  /\ status (fst out) = 400
  /\ picos (snd out) = []
  /\ activityLog (snd out) = activityLog demoMigratedDB.
Proof.
  cbv zeta. split; [exact demoDB_reachable |].
  split; [apply reach_migration, demoDB_reachable |].
  split; [reflexivity |].
  split; [intros p [<- | []]; discriminate |].
  repeat split.
Qed.

Lemma put_pico_frame_witness :
  reachable toy_hash toy_compare demoDB
  /\ JsNumber.truthy (userId demoSession) = true
  /\ In demoPico (picos demoDB)
  /\ picos (snd (put_api_picos_id demoEnv 1 (PicoUpdateBody.mk 4 1 None)
                   demoSession demoDB))
     = [Pico.mk 1 1 4 1 21 "01" 1000 1000]
  /\ activityLog (snd (put_api_picos_id demoEnv 1
                         (PicoUpdateBody.mk 4 1 None) demoSession demoDB))
     = activityLog demoDB.
Proof.
  destruct (put_pico_frame toy_hash toy_compare demoEnv 1
              (PicoUpdateBody.mk 4 1 None) demoSession demoDB demoPico
              demoDB_reachable eq_refl (or_introl eq_refl) eq_refl)
    as (product & [Hprod | []] & _ & Hframe).
  subst product. cbv zeta in Hframe.
  destruct Hframe as (_ & _ & _ & Hlog & _ & Hrow).
  destruct (Hrow (or_introl eq_refl)) as [_ Hpicos].
  split; [exact demoDB_reachable |].
  split; [reflexivity |]. split; [left; reflexivity |].
  split; [exact Hpicos | exact Hlog].
Defined.

(** Where C9 fails as stated: the body has no towerLocation and bases
    2147483648; the request is answered 400 and the pico keeps its two
    bases. *)
Lemma put_pico_past_int4_rejected :
  let out := put_api_picos_id demoEnv 1
               (PicoUpdateBody.mk 2147483648 0 None) demoSession demoDB in
  reachable toy_hash toy_compare demoDB
  /\ JsNumber.truthy (userId demoSession) = true
  /\ In demoPico (picos demoDB)
  /\ status (fst out) = 400
  /\ picos (snd out) = [demoPico]
  /\ ~ (exists p, In p (picos (snd out)) /\ Pico.bases p = 2147483648).
Proof.
  cbv zeta. split; [exact demoDB_reachable |].
  split; [reflexivity |]. split; [left; reflexivity |].
  split; [reflexivity |]. split; [reflexivity |].
  intros (p & [<- | []] & Hb). discriminate Hb.
Qed.

Lemma default_admin_created_once_witness :
  (forall u, In u (users emptyDB) -> User.username u <> "admin"%string)
  /\ (exists u, In u (users demoStartDB) /\ User.username u = "admin"%string)
  /\ users (initializeDefaultUser toy_hash demoEnv emptyDB) = [demoAdmin]
  /\ initializeDefaultUser toy_hash demoEnv demoStartDB = demoStartDB.
Proof.
  assert (Hnone : forall u, In u (users emptyDB) ->
                            User.username u <> "admin"%string)
    by (intros u []).
  assert (Hsome : exists u, In u (users demoStartDB)
                            /\ User.username u = "admin"%string)
    by (exists demoAdmin; split; [left |]; reflexivity).
  destruct (default_admin_created_once toy_hash demoEnv emptyDB)
    as (Hnew & _ & _).
  destruct (default_admin_created_once toy_hash demoEnv demoStartDB)
    as (_ & Hold & _).
  destruct (Hnew Hnone) as (u & Hu & Hname & Hpw & Hrole & Hfirst).
  split; [exact Hnone |]. split; [exact Hsome |].
  split; [| exact (Hold Hsome)].
  rewrite Hu. destruct u as [i n k un pw r f c t].
  cbn in Hu, Hname, Hpw, Hrole, Hfirst |- *.
  injection Hu as <- <- <- _ _ _ _ <- <-.
  rewrite Hname, Hpw, Hrole, Hfirst. reflexivity.
Defined.

(** Every POST /api/users for the username admin, which is taken, spends
    one id of the sequence. *)
Lemma demoSpentDB_reachable (k : nat) :
  Z.of_nat k <= 2147483646 ->
  reachable toy_hash toy_compare (demoSpentDB (2 + Z.of_nat k)).
Proof.
  induction k as [| k IH]; intros Hk.
  - change (demoSpentDB (2 + Z.of_nat 0))
      with (initializeDefaultUser toy_hash demoEnv emptyDB).
    apply reach_startup, reach_empty.
  - replace (demoSpentDB (2 + Z.of_nat (S k)))
      with (snd (handle toy_hash toy_compare demoEnv
                   (POST_users
                      (InsertUser.mk "Administrador" "Admin" "admin" "secret"
                         administrador None))
                   demoSession (demoSpentDB (2 + Z.of_nat k)))).
    + apply reach_request, IH. lia.
    + cbn [handle keepSession snd].
      rewrite (post_api_users_taken toy_hash demoEnv
                 (InsertUser.mk "Administrador" "Admin" "admin" "secret"
                    administrador None)
                 demoSession (demoSpentDB (2 + Z.of_nat k)) demoAdmin
                 eq_refl eq_refl (or_introl eq_refl) eq_refl)
        by (unfold nextval; cbn [users_id_seq demoSpentDB];
            apply Z.leb_le; lia).
      cbn [snd]. unfold withUsers, demoSpentDB.
      cbn [users products picos paletizadoStock activityLog users_id_seq
           products_id_seq picos_id_seq paletizado_stock_id_seq
           activity_log_id_seq item_type_not_null].
      f_equal. lia.
Qed.

Lemma demoExhaustedDB_reachable :
  reachable toy_hash toy_compare demoExhaustedDB.
Proof.
  assert (H : forall n, 2 <= n <= 2147483648 ->
                        reachable toy_hash toy_compare (demoSpentDB n)).
  { intros n Hn.
    replace n with (2 + Z.of_nat (Z.to_nat (n - 2)))
      by (rewrite Z2Nat.id; lia).
    apply demoSpentDB_reachable. rewrite Z2Nat.id; lia. }
  change demoExhaustedDB
    with (snd (handle toy_hash toy_compare demoEnv (DELETE_users 1)
                 demoSession (demoSpentDB 2147483648))).
  apply reach_request, H. lia.
Qed.

(** Where C10 fails as stated.  The server reaches a database with no
    user at all, so none named admin, whose sequence of user ids has run
    out; startup on it adds no user. *)
Lemma startup_without_ids_adds_no_admin :
  reachable toy_hash toy_compare demoExhaustedDB
  /\ (forall u, In u (users demoExhaustedDB) ->
                User.username u <> "admin"%string)
  /\ initializeDefaultUser toy_hash demoEnv demoExhaustedDB = demoExhaustedDB
  /\ users (initializeDefaultUser toy_hash demoEnv demoExhaustedDB) = [].
Proof.
  split; [exact demoExhaustedDB_reachable |].
  split; [intros u [] |].
  split; reflexivity.
Qed.

(** ** More of the small warehouse *)

Lemma unauthenticated_request_is_refused_witness :
  JsNumber.truthy (userId noSession) = false
  /\ guarded GET_picos = true
  /\ handle toy_hash toy_compare demoEnv GET_picos noSession demoDB
     = (message 401 "Unauthorized", noSession, demoDB).
Proof.
  split; [reflexivity |]. split; [reflexivity |].
  exact (unauthenticated_request_is_refused toy_hash toy_compare demoEnv
           GET_picos noSession demoDB eq_refl eq_refl).
Defined.

Lemma non_admin_request_is_refused_witness :
  JsNumber.truthy (userId demoWorkerSession) = true
  /\ isAdmin demoWorkerSession = false
  /\ adminOnly (DELETE_products 1) = true
  /\ handle toy_hash toy_compare demoEnv (DELETE_products 1)
       demoWorkerSession demoDB
     = (message 403 "Admin access required", demoWorkerSession, demoDB).
Proof.
  split; [reflexivity |]. split; [reflexivity |]. split; [reflexivity |].
  exact (non_admin_request_is_refused toy_hash toy_compare demoEnv
           (DELETE_products 1) demoWorkerSession demoDB
           eq_refl eq_refl eq_refl).
Defined.

Lemma log_frozen_after_migration_witness :
  item_type_not_null demoMigratedDB = true
  /\ logsActivity (DELETE_picos 1) = true
  /\ activityLog (snd (handle toy_hash toy_compare demoEnv (DELETE_picos 1)
                         demoSession demoMigratedDB))
     = activityLog demoMigratedDB
  /\ status (fst (fst (handle toy_hash toy_compare demoEnv (DELETE_picos 1)
                         demoSession demoMigratedDB))) <> 200.
Proof.
  destruct (log_frozen_after_migration toy_hash toy_compare demoEnv
              (DELETE_picos 1) demoSession demoMigratedDB eq_refl)
    as (Hlog & _ & Hstatus).
  split; [reflexivity |]. split; [reflexivity |].
  split; [exact Hlog | exact (Hstatus eq_refl)].
Defined.

Lemma delete_stock_logs_exit_witness :
  reachable toy_hash toy_compare (demoStockDB 7)
  /\ JsNumber.truthy (userId demoSession) = true
  /\ In (demoStockRow 7) (paletizadoStock (demoStockDB 7))
  /\ status (fst (delete_api_paletizado_stock_id demoEnv 1 demoSession
                    (demoStockDB 7))) = 200
  /\ paletizadoStock (snd (delete_api_paletizado_stock_id demoEnv 1
                             demoSession (demoStockDB 7))) = []
  /\ exists row,
       activityLog (snd (delete_api_paletizado_stock_id demoEnv 1
                           demoSession (demoStockDB 7)))
       = activityLog (demoStockDB 7) ++ [row]
       /\ ActivityLog.type row = "exit"%string
       /\ ActivityLog.quantity row = 7.
Proof.
  pose proof (demoStockDB_reachable 7 eq_refl) as Hreach.
  destruct (delete_stock_logs_exit toy_hash toy_compare demoEnv 1 demoSession
              (demoStockDB 7) Hreach eq_refl) as [_ Hfound].
  destruct (Hfound (demoStockRow 7) (or_introl eq_refl) eq_refl)
    as (product & _ & _ & Hstock & _ & _ & _ & Hlogged).
  cbn [nextval activity_log_id_seq item_type_not_null demoStockDB andb negb
       Z.leb Z.compare Pos.compare Pos.compare_cont] in Hlogged.
  destruct Hlogged as (H200 & row & Hlog & Hty & Hq & _).
  split; [exact Hreach |]. split; [reflexivity |].
  split; [left; reflexivity |].
  split; [exact H200 |]. split; [exact Hstock |].
  exists row. split; [exact Hlog |]. split; [exact Hty | exact Hq].
Defined.

Lemma put_stock_sets_quantity_witness :
  JsNumber.truthy (userId demoSession) = true
  /\ status (fst (put_api_paletizado_stock_id demoEnv 1 9 demoSession
                    (demoStockDB 7))) = 200
  /\ paletizadoStock (snd (put_api_paletizado_stock_id demoEnv 1 9
                             demoSession (demoStockDB 7)))
     = [demoStockRow 9]
  /\ fst (put_api_paletizado_stock_id demoEnv 1 2147483648
            demoSession (demoStockDB 7))
     = message 400 "Failed to update stock"
  /\ put_api_paletizado_stock_id demoEnv 2147483648 9 demoSession
       (demoStockDB 7)
     = (message 400 "Failed to update stock", demoStockDB 7).
Proof.
  destruct (put_stock_sets_quantity demoEnv 1 9 demoSession (demoStockDB 7)
              eq_refl) as (_ & _ & _ & Hset).
  destruct (put_stock_sets_quantity demoEnv 1 2147483648 demoSession
              (demoStockDB 7) eq_refl) as (_ & _ & _ & Hquantity).
  destruct (put_stock_sets_quantity demoEnv 2147483648 9 demoSession
              (demoStockDB 7) eq_refl) as (_ & _ & _ & Hid).
  cbn [int4 andb Z.leb Z.compare Pos.compare Pos.compare_cont]
    in Hset, Hquantity, Hid.
  destruct Hset as (H200 & Hstock & _).
  destruct Hquantity as [H400 _].
  destruct Hid as [Hfar Hsame].
  split; [reflexivity |]. split; [exact H200 |].
  split; [exact Hstock |]. split; [exact H400 |].
  rewrite (surjective_pairing (put_api_paletizado_stock_id demoEnv 2147483648
                                 9 demoSession (demoStockDB 7))).
  rewrite Hfar, Hsame. reflexivity.
Defined.

Lemma stock_increments_add_up_witness :
  reachable toy_hash toy_compare (demoStockDB 7)
  /\ JsNumber.truthy (userId demoSession) = true
  /\ getProductByCode "P1" (demoStockDB 7) = Some demoProduct
  /\ In (demoStockRow 7) (paletizadoStock (demoStockDB 7))
  /\ int4 (7 + 2) = true
  /\ int4 (7 + 2 + 3) = true
  /\ paletizadoStock
       (snd (post_api_paletizado_stock demoEnv (StockBody.mk "P1" 3)
               demoSession
               (snd (post_api_paletizado_stock demoEnv (StockBody.mk "P1" 2)
                       demoSession (demoStockDB 7)))))
     = [demoStockRow 12].
Proof.
  pose proof (demoStockDB_reachable 7 eq_refl) as Hreach.
  pose proof (stock_increments_add_up toy_hash toy_compare demoEnv demoEnv
                "P1" 2 3 demoSession (demoStockDB 7) demoProduct
                (demoStockRow 7) Hreach eq_refl eq_refl (or_introl eq_refl)
                eq_refl eq_refl eq_refl) as Hsum.
  split; [exact Hreach |]. split; [reflexivity |]. split; [reflexivity |].
  split; [left; reflexivity |]. split; [reflexivity |].
  split; [reflexivity | exact Hsum].
Defined.

Lemma pico_create_then_eliminate_witness :
  reachable toy_hash toy_compare demoDB
  /\ JsNumber.truthy (userId demoSession) = true
  /\ item_type_not_null demoDB = false
  /\ getProductByCode "P1" demoDB = Some demoProduct
  /\ towerRegex "07" = true
  /\ int4 (1 * 5 + 1) = true
  /\ status (fst (post_api_picos demoEnv
                    (PicoBody.mk "P1" 1 1 (Some "07"%string))
                    demoSession demoDB)) = 200
  /\ picos (snd (delete_api_picos_id demoEnv 2 demoSession
                   (snd (post_api_picos demoEnv
                           (PicoBody.mk "P1" 1 1 (Some "07"%string))
                           demoSession demoDB)))) = [demoPico]
  /\ List.length
       (activityLog
          (snd (delete_api_picos_id demoEnv 2 demoSession
                  (snd (post_api_picos demoEnv
                          (PicoBody.mk "P1" 1 1 (Some "07"%string))
                          demoSession demoDB))))) = 3%nat.
Proof.
  pose proof (pico_create_then_eliminate toy_hash toy_compare demoEnv demoEnv
                (PicoBody.mk "P1" 1 1 (Some "07"%string)) demoSession demoDB
                demoProduct "07" demoDB_reachable eq_refl eq_refl eq_refl
                eq_refl eq_refl eq_refl eq_refl eq_refl) as Htrip.
  cbv zeta in Htrip.
  cbn [nextval picos_id_seq activity_log_id_seq demoDB andb Z.add Pos.add
       Pos.succ Z.leb Z.compare Pos.compare Pos.compare_cont] in Htrip.
  destruct Htrip as (Hcreated & _ & Hpicos & _ & _ & Hlog).
  split; [exact demoDB_reachable |]. split; [reflexivity |].
  split; [reflexivity |]. split; [reflexivity |]. split; [reflexivity |].
  split; [reflexivity |]. split; [exact Hcreated |].
  split; [exact Hpicos |].
  exact (f_equal (@List.length ActivityLog.t) Hlog).
Defined.



Lemma deleted_user_keeps_session_witness :
  JsNumber.truthy (userId demoSession) = true
  /\ isAdmin demoSession = true
  /\ userId demoSession = Some 1
  /\ users (snd (delete_api_users_id 1 demoSession demoDB)) = []
  /\ status (fst (get_api_auth_user demoSession
                    (snd (delete_api_users_id 1 demoSession demoDB)))) = 404
  /\ status (fst (get_api_users demoSession
                    (snd (delete_api_users_id 1 demoSession demoDB)))) = 200.
Proof.
  destruct (deleted_user_keeps_session 1 demoSession demoDB eq_refl eq_refl)
    as (_ & Husers & Hself).
  destruct (Hself eq_refl) as [H404 H200].
  split; [reflexivity |]. split; [reflexivity |]. split; [reflexivity |].
  split; [exact Husers |].
  split.
  - exact (f_equal (fun r => status (fst r)) H404).
  - exact (f_equal (fun r => status (fst r)) H200).
Defined.

Lemma delete_product_respects_references_witness :
  JsNumber.truthy (userId demoSession) = true
  /\ isAdmin demoSession = true
  /\ In demoProduct (products demoDB)
  /\ (exists x, In x (picos demoDB) /\ Pico.productId x = 1)
  /\ delete_api_products_id 1 demoSession demoDB
     = (message 400 "Failed to delete product", demoDB)
  /\ products (snd (delete_api_products_id 1 demoSession demoProductDB)) = [].
Proof.
  destruct (delete_product_respects_references 1 demoSession demoDB
              demoProduct eq_refl eq_refl (or_introl eq_refl) eq_refl)
    as [Hused _].
  destruct (delete_product_respects_references 1 demoSession demoProductDB
              demoProduct eq_refl eq_refl (or_introl eq_refl) eq_refl)
    as [_ Hfree].
  assert (Hpico : exists x, In x (picos demoDB) /\ Pico.productId x = 1)
    by (exists demoPico; split; [left |]; reflexivity).
  assert (Hnone1 : forall x, In x (picos demoProductDB) ->
                             Pico.productId x <> 1) by (intros x []).
  assert (Hnone2 : forall st, In st (paletizadoStock demoProductDB) ->
                              Stock.productId st <> 1) by (intros st []).
  specialize (Hfree Hnone1 Hnone2).
  cbn [int4 andb Z.leb Z.compare] in Hfree.
  destruct Hfree as (_ & Hproducts & _).
  split; [reflexivity |]. split; [reflexivity |].
  split; [left; reflexivity |]. split; [exact Hpico |].
  split; [exact (Hused (or_introl Hpico)) | exact Hproducts].
Defined.

Lemma product_update_leaves_pico_totals_witness :
  reachable toy_hash toy_compare demoDB
  /\ JsNumber.truthy (userId demoSession) = true
  /\ isAdmin demoSession = true
  /\ In demoPico (picos demoDB)
  /\ Pico.totalUnits demoPico = 2 * 5 + 3
  /\ exists p',
       getPico 1 (snd (put_api_products_id demoEnv 1
                         (PartialProduct.mk None None None (Some 6) None)
                         demoSession demoDB))
       = (Returned (Some (demoPico, p')),
          snd (put_api_products_id demoEnv 1
                 (PartialProduct.mk None None None (Some 6) None)
                 demoSession demoDB))
       /\ Product.id p' = 1
       /\ Product.unitsPerBase p' = 6.
Proof.
  destruct (product_update_leaves_pico_totals toy_hash toy_compare demoEnv 1
              (PartialProduct.mk None None None (Some 6) None) demoSession
              demoDB demoDB_reachable eq_refl eq_refl)
    as (_ & _ & _ & Hstale).
  split; [exact demoDB_reachable |]. split; [reflexivity |].
  split; [reflexivity |]. split; [left; reflexivity |].
  split; [reflexivity |].
  exact (Hstale demoPico 6 (or_introl eq_refl) eq_refl eq_refl eq_refl).
Defined.

Lemma login_user_logout_witness :
  reachable toy_hash toy_compare demoDB
  /\ status (fst (fst (post_api_auth_login toy_compare
                         (LoginData.mk "admin" "admin") noSession demoDB)))
     = 200
  /\ exists u,
       In u (users demoDB)
       /\ snd (fst (post_api_auth_login toy_compare
                      (LoginData.mk "admin" "admin") noSession demoDB))
          = mkSession (Some (User.id u)) (Some u)
       /\ get_api_auth_user
            (snd (fst (post_api_auth_login toy_compare
                         (LoginData.mk "admin" "admin") noSession demoDB)))
            demoDB
          = (json (withoutPassword (Some u)), demoDB).
Proof.
  destruct (login_user_logout toy_hash toy_compare
              (LoginData.mk "admin" "admin") noSession demoDB
              demoDB_reachable eq_refl)
    as (_ & u & Hin & _ & _ & Hsession & Hget & _).
  split; [exact demoDB_reachable |]. split; [reflexivity |].
  exists u. split; [exact Hin |]. split; [exact Hsession | exact Hget].
Defined.

Lemma changed_password_logs_in_witness :
  reachable toy_hash toy_compare demoDB
  /\ In demoAdmin (users demoDB)
  /\ userId demoSession = Some (User.id demoAdmin)
  /\ passwordChangeSchema (PasswordChangeData.mk "secret1" "secret1") = true
  /\ toy_compare "secret1" (toy_hash (salt demoEnv) "secret1") = true
  /\ status (fst (fst (post_api_auth_change_password toy_hash demoEnv
                         (PasswordChangeData.mk "secret1" "secret1")
                         demoSession demoDB))) = 200
  /\ status (fst (fst (post_api_auth_login toy_compare
                         (LoginData.mk "admin" "secret1") noSession
                         (snd (post_api_auth_change_password toy_hash demoEnv
                                 (PasswordChangeData.mk "secret1" "secret1")
                                 demoSession demoDB))))) = 200.
Proof.
  destruct (changed_password_logs_in toy_hash toy_compare demoEnv
              (PasswordChangeData.mk "secret1" "secret1") demoSession
              noSession demoDB demoAdmin demoDB_reachable
              (or_introl eq_refl) eq_refl eq_refl eq_refl)
    as (H200 & _ & _ & _ & Hlogin & _).
  split; [exact demoDB_reachable |]. split; [left; reflexivity |].
  split; [reflexivity |]. split; [reflexivity |]. split; [reflexivity |].
  split; [exact H200 | exact Hlogin].
Defined.

Lemma change_password_of_missing_user_witness :
  JsNumber.truthy (userId (mkSession (Some 9) (Some demoAdmin))) = true
  /\ passwordChangeSchema (PasswordChangeData.mk "secret1" "secret1") = true
  /\ (forall x, In x (users demoDB) -> Some (User.id x) <> Some 9)
  /\ status (fst (fst (post_api_auth_change_password toy_hash demoEnv
                         (PasswordChangeData.mk "secret1" "secret1")
                         (mkSession (Some 9) (Some demoAdmin)) demoDB))) = 200
  /\ users (snd (post_api_auth_change_password toy_hash demoEnv
                   (PasswordChangeData.mk "secret1" "secret1")
                   (mkSession (Some 9) (Some demoAdmin)) demoDB))
     = users demoDB
  /\ snd (fst (post_api_auth_change_password toy_hash demoEnv
                 (PasswordChangeData.mk "secret1" "secret1")
                 (mkSession (Some 9) (Some demoAdmin)) demoDB))
     = mkSession (Some 9) None.
Proof.
  assert (Hnone : forall x, In x (users demoDB) -> Some (User.id x) <> Some 9).
  { intros x [<- | []]. discriminate. }
  destruct (change_password_of_missing_user toy_hash toy_compare demoEnv
              (PasswordChangeData.mk "secret1" "secret1")
              (mkSession (Some 9) (Some demoAdmin)) demoDB eq_refl eq_refl
              Hnone)
    as (Hresp & Husers & Hsession & _).
  split; [reflexivity |]. split; [reflexivity |]. split; [exact Hnone |].
  split; [exact (f_equal status Hresp) |].
  split; [exact Husers | exact Hsession].
Defined.

Lemma get_picos_lists_every_pico_witness :
  reachable toy_hash toy_compare demoDB
  /\ JsNumber.truthy (userId demoSession) = true
  /\ exists l,
       get_api_picos demoSession demoDB
       = (json (JArr (map (withProductToJs picoToJs) l)), demoDB)
       /\ Permutation (map fst l) [demoPico].
Proof.
  destruct (get_picos_lists_every_pico toy_hash toy_compare demoSession
              demoDB demoDB_reachable eq_refl)
    as (l & Hget & Hperm & _).
  split; [exact demoDB_reachable |]. split; [reflexivity |].
  exists l. split; [exact Hget | exact Hperm].
Defined.

Lemma get_stock_lists_every_row_witness :
  reachable toy_hash toy_compare (demoStockDB 7)
  /\ JsNumber.truthy (userId demoSession) = true
  /\ exists l,
       get_api_paletizado_stock demoSession (demoStockDB 7)
       = (json (JArr (map (withProductToJs stockToJs) l)), demoStockDB 7)
       /\ Permutation (map fst l) [demoStockRow 7].
Proof.
  pose proof (demoStockDB_reachable 7 eq_refl) as Hreach.
  destruct (get_stock_lists_every_row toy_hash toy_compare demoSession
              (demoStockDB 7) Hreach eq_refl)
    as (l & Hget & Hperm & _).
  split; [exact Hreach |]. split; [reflexivity |].
  exists l. split; [exact Hget | exact Hperm].
Defined.

Lemma eliminated_pico_not_listed_witness :
  reachable toy_hash toy_compare demoDB
  /\ JsNumber.truthy (userId demoSession) = true
  /\ forall x p,
       In (x, p) (getAllPicos (snd (delete_api_picos_id demoEnv 1 demoSession
                                      demoDB))) ->
       Pico.id x <> 1.
Proof.
  destruct (eliminated_pico_not_listed toy_hash toy_compare demoEnv 1
              demoSession demoDB demoDB_reachable eq_refl) as [Hgone _].
  split; [exact demoDB_reachable |]. split; [reflexivity |]. exact Hgone.
Defined.

Lemma dashboard_totals_match_listings_witness :
  reachable toy_hash toy_compare demoDB
  /\ totalPicos (getDashboardStats demoDB)
     = Z.of_nat (List.length (getAllPicos demoDB))
  /\ totalPaletizados (getDashboardStats demoDB)
     = Z.of_nat (List.length (getAllPaletizadoStock demoDB)).
Proof.
  split; [exact demoDB_reachable |].
  exact (dashboard_totals_match_listings toy_hash toy_compare demoDB
           demoDB_reachable).
Defined.

Lemma plain_listings_are_complete_witness :
  JsNumber.truthy (userId demoSession) = true
  /\ isAdmin demoSession = true
  /\ (exists l,
         get_api_products demoSession demoDB
         = (json (JArr (map productToJs l)), demoDB)
         /\ Permutation l (products demoDB))
  /\ exists l,
       get_api_users demoSession demoDB
       = (json (JArr (map (fun u => withoutPassword (Some u)) l)), demoDB)
       /\ Permutation l (users demoDB).
Proof.
  destruct (plain_listings_are_complete demoSession demoDB eq_refl)
    as [Hproducts Husers].
  destruct (Husers eq_refl) as (l & Hget & Hperm & _).
  split; [reflexivity |]. split; [reflexivity |].
  split; [exact Hproducts |].
  exists l. split; [exact Hget | exact Hperm].
Defined.

Lemma activity_log_constraints_hold_witness :
  reachable toy_hash toy_compare demoDB /\ logInvariant demoDB.
Proof.
  split; [exact demoDB_reachable |].
  exact (activity_log_constraints_hold toy_hash toy_compare demoDB
           demoDB_reachable).
Defined.


Lemma pico_form_keeps_two_digit_towers_witness :
  PicoFormModal_handleSubmit None (Some demoProduct)
    (mkPicoFormData "P1" "Widget" 1 1 6 "alta" "07")
  = Some (POST_picos (PicoBody.mk "P1" 1 1 (Some "07"%string)))
  /\ Forall (fun p => towerRegex (Pico.towerLocation p) = true) (picos demoDB)
  /\ Forall (fun p => towerRegex (Pico.towerLocation p) = true)
       (picos (snd (handle toy_hash toy_compare demoEnv
                      (POST_picos (PicoBody.mk "P1" 1 1 (Some "07"%string)))
                      demoSession demoDB))).
Proof.
  assert (Htowers : Forall (fun p => towerRegex (Pico.towerLocation p) = true)
                      (picos demoDB))
    by (constructor; [reflexivity | constructor]).
  split; [reflexivity |]. split; [exact Htowers |].
  exact (pico_form_keeps_two_digit_towers toy_hash toy_compare demoEnv None
           (Some demoProduct) (mkPicoFormData "P1" "Widget" 1 1 6 "alta" "07")
           (POST_picos (PicoBody.mk "P1" 1 1 (Some "07"%string)))
           demoSession demoDB eq_refl Htowers).
Defined.

Lemma user_form_stores_hashes_only_witness :
  UserFormModal_handleSubmit None
    (InsertUser.mk "Maria" "Mari" "maria" "secret" armazenista None)
  = Some (POST_users
            (InsertUser.mk "Maria" "Mari" "maria" "secret" armazenista None))
  /\ In demoWorker
       (users (snd (handle toy_hash toy_compare demoEnv
                      (POST_users
                         (InsertUser.mk "Maria" "Mari" "maria" "secret"
                            armazenista None))
                      demoSession demoDB)))
  /\ ((exists u0, In u0 (users demoDB)
                  /\ User.id u0 = User.id demoWorker
                  /\ User.password u0 = User.password demoWorker)
      \/ (User.password demoWorker = toy_hash (salt demoEnv) "secret"
          /\ "secret"%string <> EmptyString)).
Proof.
  assert (Hin : In demoWorker
                  (users (snd (handle toy_hash toy_compare demoEnv
                                 (POST_users
                                    (InsertUser.mk "Maria" "Mari" "maria"
                                       "secret" armazenista None))
                                 demoSession demoDB))))
    by (right; left; reflexivity).
  split; [reflexivity |]. split; [exact Hin |].
  exact (user_form_stores_hashes_only toy_hash toy_compare demoEnv None
           (InsertUser.mk "Maria" "Mari" "maria" "secret" armazenista None)
           (POST_users
              (InsertUser.mk "Maria" "Mari" "maria" "secret" armazenista
                 None))
           demoSession demoDB eq_refl demoWorker Hin).
Defined.

Lemma stock_form_keeps_quantities_positive_witness :
  PaletizadoFormModal_handleSubmit None (Some demoProduct)
    (mkPaletizadoFormData "P1" "Widget" 5 "alta")
  = Some (POST_paletizado_stock (StockBody.mk "P1" 5))
  /\ Forall (fun st => 0 < Stock.quantity st) (paletizadoStock (demoStockDB 7))
  /\ Forall (fun st => 0 < Stock.quantity st)
       (paletizadoStock
          (snd (handle toy_hash toy_compare demoEnv
                  (POST_paletizado_stock (StockBody.mk "P1" 5))
                  demoSession (demoStockDB 7)))).
Proof.
  assert (Hpos : Forall (fun st => 0 < Stock.quantity st)
                   (paletizadoStock (demoStockDB 7)))
    by (constructor; [reflexivity | constructor]).
  split; [reflexivity |]. split; [exact Hpos |].
  exact (stock_form_keeps_quantities_positive toy_hash toy_compare demoEnv
           None (Some demoProduct)
           (mkPaletizadoFormData "P1" "Widget" 5 "alta")
           (POST_paletizado_stock (StockBody.mk "P1" 5))
           demoSession (demoStockDB 7) eq_refl Hpos).
Defined.

Lemma product_form_keeps_sizes_and_category_witness :
  ProductFormModal_handleSubmit (Some demoProduct)
    (InsertProduct.mk "P1" "Widget" 10 6 baixa_rotacao)
  = Some (PUT_products 1
            (PartialProduct.mk (Some "P1"%string) (Some "Widget"%string)
               (Some 10) (Some 6) None))
  /\ Forall (fun p => 0 < Product.quantityBases p
                      /\ 0 < Product.unitsPerBase p) (products demoDB)
  /\ Forall (fun p => 0 < Product.quantityBases p
                      /\ 0 < Product.unitsPerBase p)
       (products (snd (handle toy_hash toy_compare demoEnv
                         (PUT_products 1
                            (PartialProduct.mk (Some "P1"%string)
                               (Some "Widget"%string) (Some 10) (Some 6)
                               None))
                         demoSession demoDB))).
Proof.
  assert (Hpos : Forall (fun p => 0 < Product.quantityBases p
                                  /\ 0 < Product.unitsPerBase p)
                   (products demoDB))
    by (constructor; [split; reflexivity | constructor]).
  destruct (product_form_keeps_sizes_and_category toy_hash toy_compare demoEnv
              (Some demoProduct)
              (InsertProduct.mk "P1" "Widget" 10 6 baixa_rotacao)
              (PUT_products 1
                 (PartialProduct.mk (Some "P1"%string) (Some "Widget"%string)
                    (Some 10) (Some 6) None))
              demoSession demoDB eq_refl) as [Hkeep _].
  split; [reflexivity |]. split; [exact Hpos | exact (Hkeep Hpos)].
Defined.

